(** * sqlitedict: a dict-like façade over a serialized single-writer SQLite worker

    Shallow embedding of [src/sqlitemultithread.py], [src/sqlitedb.py] and
    [src/sqlitedict.py].

    - [Module Py] holds the little of the Python runtime the code relies on:
      exceptions, the three ways a call can end, module namespaces.
    - [Module Sqlite3] is the model of the [sqlite3] engine the code drives:
      tables with rowids, the statements the code sends, files.
    - [Module Multithread] embeds [SqliteMultithread]: the request queue, the
      worker loop, the error slot and the caller-side entry points.
    - [Module Dict] embeds [SqliteDb] and [SqliteDict].

    Definitions come first, theorems follow. *)

From Stdlib Require Import ZArith List String Ascii Bool Lia Sorted.
From stdpp Require Import base option list gmap strings sorting relations.

Open Scope string_scope.
Open Scope Z_scope.
Open Scope list_scope.

(* ===================================================================== *)
(** ** The Python runtime, as far as the code uses it *)
(* ===================================================================== *)

Module Py.

(** Messages of the [RuntimeError]s raised by the façade, one constructor per
    [raise RuntimeError(...)] statement of the source. *)
Inductive Msg :=
| Unrecognized_flag (flag : string)
| Directory_does_not_exist (dirname : string)
| Refusing_to_create_table (tablename : string)
| Refusing_to_terminate
| Refusing_to_write
| Refusing_to_delete
| Refusing_to_update
| Refusing_to_clear.

(** Errors of the [sqlite3] module. *)
Inductive SqlError :=
| no_such_table (name : string)
| no_such_column (name : string)
| object_name_reserved (name : string)
| already_a_table (name : string)
| already_an_index (name : string)
| may_not_be_modified (name : string)
| may_not_be_indexed (name : string)
| null_character
| incomplete_input
| incorrect_number_of_bindings
| unable_to_open_database_file.

Inductive PyExc :=
| NameError (name : string)
| AttributeError (attr : string)
| TypeError
| AssertionError
| RuntimeError (m : Msg)
| IOError (path : string)
| OSError (path : string)
| OverflowError
| OperationalError (e : SqlError)
| ProgrammingError (e : SqlError).

(** A call returns, raises, or never comes back because the thread waits on a
    queue nobody will ever feed. *)
Inductive Outcome (E A : Type) :=
| Ret (a : A)
| Raise (e : E)
| Blocked.

Arguments Ret {E A} a.
Arguments Raise {E A} e.
Arguments Blocked {E A}.

(** [LOAD_GLOBAL]: a name used in a function body is looked up, when the line
    runs, among the names its module binds at top level (there is no builtin
    of any of the names looked up below). *)
Definition LOAD_GLOBAL (globals : list string) (name : string) : PyExc + unit :=
  if bool_decide (name ∈ globals) then inr tt else inl (NameError name).

End Py.

Export Py.

(* ===================================================================== *)
(** ** The engine: tables, statements, files *)
(* ===================================================================== *)

Module Sqlite3.

(** The model covers what the façade asks of SQLite, on database files the
    façade has made.

    - A database is its objects by name: the tables, each the rows of the two
      columns [key] and [value] with their rowids, and the indexes. Names are
      told apart without regard to the case of ASCII letters, and the names
      that begin with [sqlite_] are the engine's: no table of that name can be
      made, and the schema tables answer a count and a largest rowid only.
    - A new row gets the largest rowid in use plus one, taken before the row
      in conflict is deleted (what SQLite does when the largest rowid is the
      last one, [2^63 - 1], is outside the model: [rowids_left] tells how far
      the rule goes).
    - Values are stored and returned as they are bound: the façade binds text
      for the key, and the [value] column has no affinity. An integer is
      bound only if it fits 64 bits; text and blobs are bound whatever they
      hold (the limit SQLite puts on their length is outside the model).
    - A statement is first prepared (its table is looked up), then its
      parameters are counted and bound, then it runs.
    - Unless the connection was opened with [isolation_level=None], a
      transaction begins before a writing statement and lasts until [commit];
      what is done outside a transaction reaches the file at once. [close]
      drops what an open transaction holds. [commit] and [close] do not fail.
    - One connection is on a file at a time. *)

#[global] Instance byte_eq_dec : EqDecision Byte.byte := Byte.byte_eq_dec.

(** Values SQLite stores and returns. *)
Inductive SqlVal :=
| SqlNull
| SqlInt (z : Z)
| SqlText (s : string)
| SqlBlob (b : list Byte.byte).

#[global] Instance SqlVal_eq_dec : EqDecision SqlVal.
Proof. solve_decision. Defined.

(** What [sqlite3] binds: a Python [int] has to fit 64 bits. *)
Definition int64 (z : Z) : bool := (- 2 ^ 63 <=? z) && (z <? 2 ^ 63).

Definition bindable (v : SqlVal) : bool :=
  match v with
  | SqlInt z => int64 z
  | _ => true
  end.

(** A result row, and the tuple of bound parameters. *)
Abbreviation Tuple := (list SqlVal).

(** A stored row of the two-column table the façade creates:
    [key TEXT PRIMARY KEY, value BLOB], with SQLite's implicit [rowid]. *)
Record Row := mkRow { rowid : Z; key : SqlVal; value : SqlVal }.

Abbreviation Table := (list Row).

(** Names of SQL are compared without regard to the case of ASCII letters. *)
Definition lower (c : ascii) : ascii :=
  let n := nat_of_ascii c in
  if ((65 <=? n) && (n <=? 90))%nat then ascii_of_nat (n + 32) else c.

Fixpoint fold_case (s : string) : string :=
  match s with
  | EmptyString => EmptyString
  | String c s' => String (lower c) (fold_case s')
  end.

(** The names that begin with [sqlite_] are kept for the engine; four of them
    name the schema tables (the two [_schema] names since SQLite 3.33). *)
Definition reserved (name : string) : bool :=
  String.prefix "sqlite_" (fold_case name).

Definition main_schema (name : string) : bool :=
  bool_decide (fold_case name ∈ ["sqlite_master"; "sqlite_schema"]).

Definition temp_schema (name : string) : bool :=
  bool_decide (fold_case name ∈ ["sqlite_temp_master"; "sqlite_temp_schema"]).

(** [sqlite3] refuses a statement whose text holds a null character. *)
Definition NUL : ascii := ascii_of_nat 0.

Fixpoint has_nul (s : string) : bool :=
  match s with
  | EmptyString => false
  | String c s' => bool_decide (c = NUL) || has_nul s'
  end.

(** An object of a database: a table with the name it was created under and
    its rows, or an index with its name and the table it is on. *)
Inductive Obj :=
| Tbl (name : string) (rows : Table)
| Idx (name : string) (tbl : string).

(** A database: its objects, by name with the case folded. Tables and indexes
    share the names. *)
Abbreviation DB := (gmap string Obj).

(** The table a name in a statement stands for, with the name it was created
    under. *)
Definition find_table (db : DB) (name : string) : option (string * Table) :=
  if reserved name || has_nul name then None
  else
    match db !! fold_case name with
    | Some (Tbl declared rows) => Some (declared, rows)
    | _ => None
    end.

Definition table_rows (db : DB) (name : string) : option Table :=
  snd <$> find_table db name.

(** Whether a name is the name of an index, of a table. *)
Definition is_index (db : DB) (name : string) : bool :=
  match db !! fold_case name with Some (Idx _ _) => true | _ => false end.

Definition is_table (db : DB) (name : string) : bool :=
  match db !! fold_case name with Some (Tbl _ _) => true | _ => false end.

(** [SELECT name FROM sqlite_master WHERE type="table"]: the names the tables
    were created under (in the order of the map, where SQLite has the order
    of creation). *)
Definition table_names (db : DB) : list string :=
  omap (fun o => match o with Tbl name _ => Some name | Idx _ _ => None end)
       (map snd (map_to_list db)).

(** The number of rows of [sqlite_master]: one for a table and one for the
    index of its primary key, one for an index. No row is ever deleted from
    it, so this is also its largest rowid. *)
Definition schema_rows (db : DB) : Z :=
  map_fold (fun _ o n => match o with Tbl _ _ => n + 2 | Idx _ _ => n + 1 end) 0 db.

(** [=] of SQL: a comparison with NULL is never true. *)
Definition sql_eq (a b : SqlVal) : bool :=
  match a, b with
  | SqlNull, _ | _, SqlNull => false
  | _, _ => bool_decide (a = b)
  end.

Definition max_rowid (t : Table) : option Z :=
  foldr (fun r acc => match acc with
                      | None => Some (rowid r)
                      | Some m => Some (Z.max (rowid r) m)
                      end) None t.

(** The rowid SQLite gives a new row: one more than the largest in use. *)
Definition new_rowid (t : Table) : Z :=
  match max_rowid t with
  | None => 1
  | Some m => m + 1
  end.

(** Whether [n] more rows can be given rowids by that rule: [2^63 - 1] is the
    last rowid. *)
Definition rowids_left (n : nat) (t : Table) : bool :=
  match max_rowid t with
  | None => Z.of_nat n <? 2 ^ 63
  | Some m => m + Z.of_nat n <? 2 ^ 63
  end.

(** [ORDER BY rowid]. *)
Fixpoint insert_by_rowid (r : Row) (t : Table) : Table :=
  match t with
  | [] => [r]
  | r' :: t' => if rowid r <=? rowid r' then r :: r' :: t'
                else r' :: insert_by_rowid r t'
  end.

Definition order_by_rowid (t : Table) : Table :=
  foldr insert_by_rowid [] t.

Definition where_key (k : SqlVal) (t : Table) : Table :=
  filter (fun r => sql_eq (key r) k = true) t.

Definition delete_key (k : SqlVal) (t : Table) : Table :=
  filter (fun r => sql_eq (key r) k = false) t.

(** [REPLACE INTO t (key, value) VALUES (k, v)]: the new rowid is taken, the
    row in conflict on the primary key is deleted, the new row is inserted. *)
Definition replace_into (k v : SqlVal) (t : Table) : Table :=
  delete_key k t ++ [mkRow (new_rowid t) k v].

Definition dquote : ascii := ascii_of_nat 34.

(** [tablename.replace] of the constructor: every double quote is doubled. *)
Fixpoint escape_dquote (s : string) : string :=
  match s with
  | EmptyString => EmptyString
  | String c s' =>
      if bool_decide (c = dquote)
      then String dquote (String dquote (escape_dquote s'))
      else String c (escape_dquote s')
  end.

(** The identifier a quoted name denotes in SQL text: a doubled double quote
    stands for one. *)
Fixpoint sql_identifier (quoted : string) : string :=
  match quoted with
  | EmptyString => EmptyString
  | String c rest =>
      match rest with
      | String c' rest' =>
          if bool_decide (c = dquote) && bool_decide (c' = dquote)
          then String dquote (sql_identifier rest')
          else String c (sql_identifier rest)
      | EmptyString => String c EmptyString
      end
  end.

(** The statements the façade sends, by the text that builds them; [t] is the
    text put between the double quotes. *)
Inductive Stmt :=
| CREATE_TABLE_IF_NOT_EXISTS (t : string) (column_defs : list (string * string))
| CREATE_INDEX_IF_NOT_EXISTS (idx t : string)
| SELECT_COUNT (t : string)
| SELECT_MAX_ROWID (t : string)
| SELECT_key_ORDER_BY_rowid (t : string)
| SELECT_value_ORDER_BY_rowid (t : string)
| SELECT_key_value_ORDER_BY_rowid (t : string)
| SELECT_1_WHERE_key (t : string)
| SELECT_value_WHERE_key (t : string)
| REPLACE_INTO (t : string)
| DELETE_WHERE_key (t : string)
| DELETE_FROM (t : string).

Definition table_of_stmt (s : Stmt) : string :=
  match s with
  | CREATE_TABLE_IF_NOT_EXISTS t _ | CREATE_INDEX_IF_NOT_EXISTS _ t
  | SELECT_COUNT t | SELECT_MAX_ROWID t | SELECT_key_ORDER_BY_rowid t
  | SELECT_value_ORDER_BY_rowid t | SELECT_key_value_ORDER_BY_rowid t
  | SELECT_1_WHERE_key t | SELECT_value_WHERE_key t | REPLACE_INTO t
  | DELETE_WHERE_key t | DELETE_FROM t => sql_identifier t
  end.

(** Number of [?] placeholders of a statement. *)
Definition placeholders (s : Stmt) : nat :=
  match s with
  | SELECT_1_WHERE_key _ | SELECT_value_WHERE_key _ | DELETE_WHERE_key _ => 1
  | REPLACE_INTO _ => 2
  | _ => 0
  end.

(** What a statement does to its table and the rows it yields. *)
Definition run_stmt (s : Stmt) (arg : Tuple) (t : Table) : Table * list Tuple :=
  match s, arg with
  | SELECT_COUNT _, _ => (t, [[SqlInt (Z.of_nat (length t))]])
  | SELECT_MAX_ROWID _, _ =>
      (t, [[match max_rowid t with Some m => SqlInt m | None => SqlNull end]])
  | SELECT_key_ORDER_BY_rowid _, _ =>
      (t, map (fun r => [key r]) (order_by_rowid t))
  | SELECT_value_ORDER_BY_rowid _, _ =>
      (t, map (fun r => [value r]) (order_by_rowid t))
  | SELECT_key_value_ORDER_BY_rowid _, _ =>
      (t, map (fun r => [key r; value r]) (order_by_rowid t))
  | SELECT_1_WHERE_key _, [k] => (t, map (fun _ => [SqlInt 1]) (where_key k t))
  | SELECT_value_WHERE_key _, [k] => (t, map (fun r => [value r]) (where_key k t))
  | REPLACE_INTO _, [k; v] => (replace_into k v t, [])
  | DELETE_WHERE_key _, [k] => (delete_key k t, [])
  | DELETE_FROM _, _ => ([], [])
  | _, _ => (t, [])
  end.

(** The statements [sqlite3] begins a transaction for. *)
Definition is_dml (s : Stmt) : bool :=
  match s with
  | REPLACE_INTO _ | DELETE_WHERE_key _ | DELETE_FROM _ => true
  | _ => false
  end.

Definition is_ddl (s : Stmt) : bool :=
  match s with
  | CREATE_TABLE_IF_NOT_EXISTS _ _ | CREATE_INDEX_IF_NOT_EXISTS _ _ => true
  | _ => false
  end.

Definition is_select (s : Stmt) : bool :=
  match s with
  | SELECT_COUNT _ | SELECT_MAX_ROWID _ | SELECT_key_ORDER_BY_rowid _
  | SELECT_value_ORDER_BY_rowid _ | SELECT_key_value_ORDER_BY_rowid _
  | SELECT_1_WHERE_key _ | SELECT_value_WHERE_key _ => true
  | _ => false
  end.

Definition text_has_nul (s : Stmt) : bool :=
  match s with
  | CREATE_TABLE_IF_NOT_EXISTS t column_defs =>
      has_nul t || existsb (fun c => has_nul (fst c) || has_nul (snd c)) column_defs
  | CREATE_INDEX_IF_NOT_EXISTS idx t => has_nul idx || has_nul t
  | _ => has_nul (table_of_stmt s)
  end.

(** A statement on a schema table: its rows can be counted, it has neither of
    the two columns and it cannot be written. *)
Definition on_schema (db : DB) (s : Stmt) : PyExc + (Tuple -> DB * list Tuple) :=
  let name := table_of_stmt s in
  let n := if main_schema name then schema_rows db else 0 in
  match s with
  | SELECT_COUNT _ => inr (fun _ => (db, [[SqlInt n]]))
  | SELECT_MAX_ROWID _ =>
      inr (fun _ => (db, [[if n =? 0 then SqlNull else SqlInt n]]))
  | SELECT_value_ORDER_BY_rowid _ | SELECT_value_WHERE_key _ =>
      inl (OperationalError (no_such_column "value"))
  | SELECT_key_ORDER_BY_rowid _ | SELECT_key_value_ORDER_BY_rowid _
  | SELECT_1_WHERE_key _ =>
      inl (OperationalError (no_such_column "key"))
  | CREATE_TABLE_IF_NOT_EXISTS _ _ =>
      inl (OperationalError (object_name_reserved name))
  | CREATE_INDEX_IF_NOT_EXISTS _ _ =>
      inl (OperationalError (may_not_be_indexed name))
  | REPLACE_INTO _ | DELETE_WHERE_key _ | DELETE_FROM _ =>
      inl (OperationalError (may_not_be_modified name))
  end.

(** Preparing a statement: the error raised, or what the statement will do to
    the database with the parameters it is given. The column definitions of
    [CREATE TABLE] are those of the class, the two columns [key] and
    [value], which the engine accepts; for [CREATE INDEX] the indexed column
    [idx] is the name of a column, as the class lists have it. *)
Definition prepare (db : DB) (s : Stmt) : PyExc + (Tuple -> DB * list Tuple) :=
  let name := table_of_stmt s in
  if text_has_nul s then inl (ProgrammingError null_character)
  else if main_schema name || temp_schema name then on_schema db s
  else
    match s with
    | CREATE_TABLE_IF_NOT_EXISTS _ _ =>
        if reserved name then inl (OperationalError (object_name_reserved name))
        else
          match db !! fold_case name with
          | Some (Tbl _ _) => inr (fun _ => (db, []))
          | Some (Idx _ _) => inl (OperationalError (already_an_index name))
          | None => inr (fun _ => (<[fold_case name := Tbl name []]> db, []))
          end
    | CREATE_INDEX_IF_NOT_EXISTS idx _ =>
        match find_table db name with
        | None => inl (OperationalError (no_such_table name))
        | Some _ =>
            let index := String.append "idx_" idx in
            match db !! fold_case index with
            | Some (Tbl _ _) => inl (OperationalError (already_a_table index))
            | Some (Idx _ _) => inr (fun _ => (db, []))
            | None =>
                if bool_decide (fold_case idx ∈ ["key"; "value"])
                then inr (fun _ => (<[fold_case index := Idx index name]> db, []))
                else inl (OperationalError (no_such_column idx))
            end
        end
    | _ =>
        match find_table db name with
        | None => inl (OperationalError (no_such_table name))
        | Some (declared, rows) =>
            inr (fun arg =>
                   let '(rows', out) := run_stmt s arg rows in
                   (<[fold_case name := Tbl declared rows']> db, out))
        end
    end.

(** Binding the parameters: their number is checked, then each is bound. *)
Definition bind_parameters (s : Stmt) (arg : Tuple) : PyExc + unit :=
  if negb (length arg =? placeholders s)%nat
  then inl (ProgrammingError incorrect_number_of_bindings)
  else if forallb bindable arg then inr tt
  else inl OverflowError.

(** [cursor.execute(req, arg)]: the new database and the rows the cursor then
    iterates over, or the error raised. A failed statement changes nothing. *)
Definition cursor_execute (db : DB) (s : Stmt) (arg : Tuple)
  : PyExc + (DB * list Tuple) :=
  match prepare db s with
  | inl exc => inl exc
  | inr run =>
      match bind_parameters s arg with
      | inl exc => inl exc
      | inr _ => inr (run arg)
      end
  end.

(** The file system: database files by path, and the directories. *)
Record FS := mkFS { files : gmap string DB; dirs : gset string }.

Definition memory : string := ":memory:".

(** [os.path.dirname] (POSIX): what precedes the last slash, without trailing
    slashes unless it is all slashes. *)
Definition slash : ascii := ascii_of_nat 47.

Fixpoint has_slash (s : string) : bool :=
  match s with
  | EmptyString => false
  | String c s' => bool_decide (c = slash) || has_slash s'
  end.

Fixpoint head_upto_last_slash (s : string) : string :=
  match s with
  | EmptyString => EmptyString
  | String c s' => if has_slash s then String c (head_upto_last_slash s')
                   else EmptyString
  end.

Fixpoint all_slashes (s : string) : bool :=
  match s with
  | EmptyString => true
  | String c s' => bool_decide (c = slash) && all_slashes s'
  end.

Fixpoint rstrip_slash (s : string) : string :=
  match s with
  | EmptyString => EmptyString
  | String c s' => if all_slashes s then EmptyString
                   else String c (rstrip_slash s')
  end.

Definition dirname (p : string) : string :=
  let head := head_upto_last_slash p in
  if all_slashes head then head else rstrip_slash head.

Definition path_exists (fs : FS) (p : string) : bool :=
  bool_decide (p ∈ dom (files fs)) || bool_decide (p ∈ dirs fs).

Definition path_isfile (fs : FS) (p : string) : bool :=
  bool_decide (p ∈ dom (files fs)).

(** [os.remove]. *)
Definition os_remove (fs : FS) (p : string) : PyExc + FS :=
  if path_isfile fs p then inr (mkFS (delete p (files fs)) (dirs fs))
  else inl (OSError p).

(** An open connection: the file it is on and the database as this connection
    sees it, uncommitted changes included. The file holds what was committed. *)
Record Conn := mkConn { conn_path : string; working : DB; closed : bool }.

(** [sqlite3.connect(filename)]: an existing file is opened, a missing one is
    created empty if its directory exists. *)
Definition sqlite3_connect (fs : FS) (filename : string) : PyExc + (FS * Conn) :=
  if bool_decide (filename = memory) then inr (fs, mkConn filename ∅ false)
  else
    match files fs !! filename with
    | Some db => inr (fs, mkConn filename db false)
    | None =>
        if bool_decide (dirname filename = "") || bool_decide (dirname filename ∈ dirs fs)
        then inr (mkFS (<[filename := ∅]> (files fs)) (dirs fs), mkConn filename ∅ false)
        else inl (OperationalError unable_to_open_database_file)
    end.

(** [conn.commit()]: the file receives the connection's view. *)
Definition conn_commit (fs : FS) (c : Conn) : FS :=
  if bool_decide (conn_path c = memory) then fs
  else mkFS (<[conn_path c := working c]> (files fs)) (dirs fs).

Definition conn_close (c : Conn) : Conn :=
  mkConn (conn_path c) (working c) true.

(** The file and the transaction after a statement has run and left the
    connection [c']. [autocommit_mode] is [isolation_level=None]; [in_tx]
    tells whether a transaction is open. A query writes nothing. A statement
    inside a transaction stays in it; outside one, [sqlite3] begins a
    transaction for a writing statement unless in autocommit mode, and
    anything else the engine commits at once. *)
Definition after_execute (autocommit_mode : bool) (s : Stmt) (c' : Conn)
  (fs : FS) (in_tx : bool) : FS * bool :=
  if is_select s then (fs, in_tx)
  else if in_tx then (fs, true)
  else if is_dml s && negb autocommit_mode then (fs, true)
  else (conn_commit fs c', false).

(** The transaction after a statement has failed: [sqlite3] begins the
    transaction once the statement is prepared, before it binds. *)
Definition after_failure (autocommit_mode : bool) (db : DB) (s : Stmt)
  (in_tx : bool) : bool :=
  in_tx
  || (is_dml s && negb autocommit_mode
      && match prepare db s with inr _ => true | inl _ => false end).

End Sqlite3.

Export Sqlite3.

(* ===================================================================== *)
(** ** State and error passing *)
(* ===================================================================== *)

(** Methods are state transformers that end in one of the three outcomes. *)
Definition bind {S E A B : Type}
  (c : S -> Outcome E A * S) (k : A -> S -> Outcome E B * S)
  : S -> Outcome E B * S :=
  fun s => match c s with
           | (Ret a, s') => k a s'
           | (Raise e, s') => (Raise e, s')
           | (Blocked, s') => (Blocked, s')
           end.

Definition ret {S E A : Type} (a : A) : S -> Outcome E A * S :=
  fun s => (Ret a, s).

Definition raise {S E A : Type} (e : E) : S -> Outcome E A * S :=
  fun s => (Raise e, s).

Notation "'let!' x ':=' c 'in' k" := (bind c (fun x => k))
  (at level 10, x name, c at level 100, k at level 200).

(* ===================================================================== *)
(** ** sqlitemultithread.py *)
(* ===================================================================== *)

Module Multithread.

(** The names the module binds at top level: its imports, its constants, its
    functions and its class. *)
Definition module_globals : list string :=
  ["logging"; "sqlite3"; "threading"; "traceback"; "weakref"; "Queue";
   "logger"; "_REQUEST_CLOSE"; "_REQUEST_COMMIT"; "_RESPONSE_NO_MORE";
   "reraise"; "_put"; "SqliteMultithread"].

(** What travels on a result queue: a row, or ['--no more--']. *)
Inductive Item :=
| Rec (rec : Tuple)
| _RESPONSE_NO_MORE.

(** The first component of a request: one of the two reserved texts, or SQL. *)
Inductive Req :=
| _REQUEST_CLOSE
| _REQUEST_COMMIT
| Sql (stmt : Stmt).

(** The caller's stack as [traceback.extract_stack] snapshots it; its frames
    play no part here. *)
Inductive StackSummary := CallerStack.

(** [(req, arg, res_ref, outer_stack)]. A result queue is named by its address;
    [res_ref] is a weak reference: it does not keep the queue in [heap]. *)
Record Request := mkRequest {
  req : Req;
  arg : Tuple;
  res_ref : option nat;
  outer_stack : option StackSummary
}.

(** The worker thread: before [run] has connected, inside the [while] loop,
    after [run] has returned, or after an exception has left [run]. *)
Inductive Thread :=
| Starting
| Running (conn : Conn)
| Returned (conn : Conn)
| Died (e : PyExc) (conn : option Conn).

(** What the worker did, in the order it did it. *)
Inductive Event :=
| ev_execute (stmt : Stmt) (arg : Tuple)
| ev_commit
| ev_close
| ev_put (queue : nat) (item : Item).

(** A [SqliteMultithread] object with what it acts on: the live result queues
    ([heap], addresses are never reused), the file system, whether the
    worker's connection has a transaction open ([in_transaction]), and two
    records kept for the statements below: every request ever put on [reqs]
    ([sent]) and the worker's actions ([trace]). *)
Record SqliteMultithread := mkMT {
  filename : string;
  autocommit : bool;
  journal_mode : string;
  reqs : list Request;
  _outer_stack : bool;
  exception : option PyExc;
  thread : Thread;
  heap : gmap nat (list Item);
  next_addr : nat;
  fs : FS;
  in_transaction : bool;
  sent : list Request;
  trace : list Event
}.

Definition set_reqs (v : list Request) (m : SqliteMultithread) :=
  mkMT (filename m) (autocommit m) (journal_mode m) v (_outer_stack m)
       (exception m) (thread m) (heap m) (next_addr m) (fs m)
       (in_transaction m) (sent m) (trace m).

Definition set_exception (v : option PyExc) (m : SqliteMultithread) :=
  mkMT (filename m) (autocommit m) (journal_mode m) (reqs m) (_outer_stack m)
       v (thread m) (heap m) (next_addr m) (fs m)
       (in_transaction m) (sent m) (trace m).

Definition set_thread (v : Thread) (m : SqliteMultithread) :=
  mkMT (filename m) (autocommit m) (journal_mode m) (reqs m) (_outer_stack m)
       (exception m) v (heap m) (next_addr m) (fs m)
       (in_transaction m) (sent m) (trace m).

Definition set_heap (v : gmap nat (list Item)) (m : SqliteMultithread) :=
  mkMT (filename m) (autocommit m) (journal_mode m) (reqs m) (_outer_stack m)
       (exception m) (thread m) v (next_addr m) (fs m)
       (in_transaction m) (sent m) (trace m).

Definition set_next_addr (v : nat) (m : SqliteMultithread) :=
  mkMT (filename m) (autocommit m) (journal_mode m) (reqs m) (_outer_stack m)
       (exception m) (thread m) (heap m) v (fs m)
       (in_transaction m) (sent m) (trace m).

Definition set_fs (v : FS) (m : SqliteMultithread) :=
  mkMT (filename m) (autocommit m) (journal_mode m) (reqs m) (_outer_stack m)
       (exception m) (thread m) (heap m) (next_addr m) v
       (in_transaction m) (sent m) (trace m).

Definition set_in_transaction (v : bool) (m : SqliteMultithread) :=
  mkMT (filename m) (autocommit m) (journal_mode m) (reqs m) (_outer_stack m)
       (exception m) (thread m) (heap m) (next_addr m) (fs m)
       v (sent m) (trace m).

Definition set_sent (v : list Request) (m : SqliteMultithread) :=
  mkMT (filename m) (autocommit m) (journal_mode m) (reqs m) (_outer_stack m)
       (exception m) (thread m) (heap m) (next_addr m) (fs m)
       (in_transaction m) v (trace m).

Definition log_event (e : Event) (m : SqliteMultithread) :=
  mkMT (filename m) (autocommit m) (journal_mode m) (reqs m) (_outer_stack m)
       (exception m) (thread m) (heap m) (next_addr m) (fs m)
       (in_transaction m) (sent m) (trace m ++ [e]).

(** [_put(queue_reference, item)]: 2 without a reference, 1 when the queue is
    gone, 0 after putting the item. *)
Definition _put (queue_reference : option nat) (item : Item)
  (m : SqliteMultithread) : Z * SqliteMultithread :=
  match queue_reference with
  | Some a =>
      match heap m !! a with
      | None => (1, m)
      | Some queue => (0, log_event (ev_put a item)
                            (set_heap (<[a := queue ++ [item]]> (heap m)) m))
      end
  | None => (2, m)
  end.

(** [_connect]: open the connection and run the PRAGMA statements. In either
    [try] block the handler reads [sys.exc_info()]. [journal_mode_pragma] is
    the engine's answer to ['PRAGMA journal_mode = %s' % journal_mode]; the
    statements that follow it in the second block do not fail. *)
Definition _connect (journal_mode_pragma : string -> PyExc + unit)
  (m : SqliteMultithread) : SqliteMultithread :=
  match sqlite3_connect (fs m) (filename m) with
  | inl exc =>
      match LOAD_GLOBAL module_globals "sys" with
      | inl e => set_thread (Died e None) m
      | inr _ => set_thread (Died exc None) (set_exception (Some exc) m)
      end
  | inr (fs', conn) =>
      let m1 := set_fs fs' m in
      match journal_mode_pragma (journal_mode m) with
      | inl exc =>
          match LOAD_GLOBAL module_globals "sys" with
          | inl e => set_thread (Died e (Some conn)) m1
          | inr _ => set_thread (Died exc (Some conn)) (set_exception (Some exc) m1)
          end
      | inr _ => set_thread (Running conn) m1
      end
  end.

(** [for rec in cursor: if _put(res_ref, rec) == 1: break]. *)
Fixpoint put_records (res_ref : option nat) (cursor : list Tuple)
  (m : SqliteMultithread) : SqliteMultithread :=
  match cursor with
  | [] => m
  | rec :: cursor' =>
      let '(code, m') := _put res_ref (Rec rec) m in
      if code =? 1 then m' else put_records res_ref cursor' m'
  end.

(** Lines 118-125 of [run]: what follows the [try] statement. *)
Definition deliver_and_autocommit (r : Request) (conn : Conn)
  (cursor : list Tuple) (m : SqliteMultithread) : SqliteMultithread :=
  let m1 :=
    match res_ref r with
    | Some _ => snd (_put (res_ref r) _RESPONSE_NO_MORE
                       (put_records (res_ref r) cursor m))
    | None => m
    end in
  if autocommit m1
  then set_thread (Running conn)
         (log_event ev_commit
            (set_in_transaction false (set_fs (conn_commit (fs m1) conn) m1)))
  else set_thread (Running conn) m1.

(** What [cursor.execute] leaves of the file and of the transaction. *)
Definition executed (stmt : Stmt) (conn' : Conn) (m : SqliteMultithread)
  : SqliteMultithread :=
  let after := after_execute (autocommit m) stmt conn' (fs m) (in_transaction m) in
  set_in_transaction (snd after) (set_fs (fst after) m).

(** What a [cursor.execute] that raises leaves of the transaction. *)
Definition failed (stmt : Stmt) (conn : Conn) (m : SqliteMultithread)
  : SqliteMultithread :=
  set_in_transaction
    (after_failure (autocommit m) (working conn) stmt (in_transaction m)) m.

(** One turn of the [while True] loop of [run], for the request [r] just
    taken from [reqs], and, for the close request, what follows the loop.
    The [except] handler starts by evaluating [sys.exc_info()] under the lock;
    an exception raised there leaves [run]. What the handler logs after that
    is no part of the state, and the cursor of a failed [execute] yields no
    row. *)
Definition serve (conn : Conn) (r : Request) (m : SqliteMultithread)
  : SqliteMultithread :=
  match req r with
  | _REQUEST_CLOSE =>
      match res_ref r with
      | None => set_thread (Died AssertionError (Some conn)) m
      | Some _ =>
          let m1 := log_event ev_close (set_in_transaction false m) in
          let m2 := snd (_put (res_ref r) _RESPONSE_NO_MORE m1) in
          set_thread (Returned (conn_close conn)) m2
      end
  | _REQUEST_COMMIT =>
      let m1 := log_event ev_commit
                  (set_in_transaction false
                     (set_fs (conn_commit (fs m) conn) m)) in
      snd (_put (res_ref r) _RESPONSE_NO_MORE m1)
  | Sql stmt =>
      let m0 := log_event (ev_execute stmt (arg r)) m in
      match cursor_execute (working conn) stmt (arg r) with
      | inl exc =>
          let m1 := failed stmt conn m0 in
          match LOAD_GLOBAL module_globals "sys" with
          | inl e => set_thread (Died e (Some conn)) m1
          | inr _ =>
              deliver_and_autocommit r conn [] (set_exception (Some exc) m1)
          end
      | inr (db, cursor) =>
          let conn' := mkConn (conn_path conn) db false in
          deliver_and_autocommit r conn' cursor (executed stmt conn' m0)
      end
  end.

(** The worker takes the request at the head of the queue, if it is in its
    loop and there is one. *)
Inductive worker_step : SqliteMultithread -> SqliteMultithread -> Prop :=
| worker_serves m conn r q :
    thread m = Running conn ->
    reqs m = r :: q ->
    worker_step m (serve conn r (set_reqs q m)).

(** The worker runs until the queue is empty or the thread has ended. *)
Fixpoint run_loop (q : list Request) (m : SqliteMultithread)
  : SqliteMultithread :=
  match q with
  | [] => set_reqs [] m
  | r :: q' =>
      match thread m with
      | Running conn => run_loop q' (serve conn r (set_reqs q' m))
      | _ => set_reqs q m
      end
  end.

Definition drain (m : SqliteMultithread) : SqliteMultithread :=
  run_loop (reqs m) m.

(** [SqliteMultithread(filename, autocommit, journal_mode, outer_stack)]:
    the thread is started and connects. *)
Definition __init__ (journal_mode_pragma : string -> PyExc + unit)
  (fs0 : FS) (filename : string) (autocommit : bool)
  (journal_mode : string) (outer_stack : bool) : SqliteMultithread :=
  _connect journal_mode_pragma
    (mkMT filename autocommit journal_mode [] outer_stack None
       Starting ∅ 0%nat fs0 false [] []).

Definition M (A : Type) : Type :=
  SqliteMultithread -> Outcome PyExc A * SqliteMultithread.

(** [check_raise_error]: under the lock, a stored error is taken out of the
    slot and raised. *)
Definition check_raise_error : M unit :=
  fun m => match exception m with
           | Some e => (Raise e, set_exception None m)
           | None => (Ret tt, m)
           end.

(** [self.reqs.put(...)]. *)
Definition reqs_put (r : Request) (m : SqliteMultithread) : SqliteMultithread :=
  set_sent (sent m ++ [r]) (set_reqs (reqs m ++ [r]) m).

(** [execute(req, arg=None, res=None)]. *)
Definition execute (rq : Req) (arg : option Tuple) (res : option nat) : M unit :=
  let! _ := check_raise_error in
  fun m =>
    let stack := if _outer_stack m then Some CallerStack else None in
    (Ret tt, reqs_put (mkRequest rq (default [] arg) res stack) m).

(** [executemany(req, items)]. *)
Fixpoint execute_each (rq : Req) (items : list Tuple) : M unit :=
  match items with
  | [] => ret tt
  | item :: items' =>
      let! _ := execute rq (Some item) None in execute_each rq items'
  end.

Definition executemany (rq : Req) (items : list Tuple) : M unit :=
  let! _ := execute_each rq items in check_raise_error.

(** [res = Queue()]: a new live queue at a new address. *)
Definition new_queue (m : SqliteMultithread) : nat * SqliteMultithread :=
  (next_addr m,
   set_next_addr (S (next_addr m)) (set_heap (<[next_addr m := []]> (heap m)) m)).

(** The last reference to a queue goes away. *)
Definition drop_queue (a : nat) (m : SqliteMultithread) : SqliteMultithread :=
  set_heap (delete a (heap m)) m.

(** The first two lines of [select] and the wait in [res.get()]: while the
    caller waits the worker runs; the caller then finds in the queue what the
    worker has put there. *)
Definition submit_and_wait (rq : Req) (arg : option Tuple)
  : M (nat * list Item) :=
  fun m =>
    let '(a, m1) := new_queue m in
    match execute rq arg (Some a) m1 with
    | (Ret _, m2) =>
        let m3 := drain m2 in
        (Ret (a, default [] (heap m3 !! a)), m3)
    | (Raise e, m2) => (Raise e, drop_queue a m2)
    | (Blocked, m2) => (Blocked, m2)
    end.

(** The [while True] loop of [select] over the items found in the queue; with
    no item left [res.get()] does not return. *)
Fixpoint select_loop (items : list Item) : M (list Tuple) :=
  match items with
  | [] => fun m => (Blocked, m)
  | rec :: items' =>
      let! _ := check_raise_error in
      match rec with
      | _RESPONSE_NO_MORE => ret []
      | Rec row => let! rows := select_loop items' in ret (row :: rows)
      end
  end.

(** [select(req, arg)], consumed to its end. *)
Definition select (rq : Req) (arg : option Tuple) : M (list Tuple) :=
  let! ai := submit_and_wait rq arg in
  fun m =>
    let '(o, m') := select_loop (snd ai) m in
    (o, drop_queue (fst ai) m').

(** [select_one(req, arg)]: [next] runs the generator up to its first
    [yield]; [StopIteration] becomes [None]. *)
Definition select_one (rq : Req) (arg : option Tuple) : M (option Tuple) :=
  let! ai := submit_and_wait rq arg in
  fun m =>
    let '(o, m') :=
      match snd ai with
      | [] => (Blocked, m)
      | rec :: _ =>
          (let! _ := check_raise_error in
           match rec with
           | _RESPONSE_NO_MORE => ret None
           | Rec row => ret (Some row)
           end) m
      end in
    (o, drop_queue (fst ai) m').

(** [commit(blocking=True)]. *)
Definition commit (blocking : bool) : M unit :=
  if blocking
  then let! _ := select_one _REQUEST_COMMIT None in ret tt
  else execute _REQUEST_COMMIT None None.

(** [self.join()]. *)
Definition join : M unit :=
  fun m => match thread m with
           | Starting | Running _ => (Blocked, m)
           | _ => (Ret tt, m)
           end.

(** [close(force=False)]. The queue of a forced close is unreferenced as soon
    as it is made: its address is used up, it is never in [heap]. *)
Definition close (force : bool) : M unit :=
  if force
  then fun m =>
         (Ret tt,
          reqs_put (mkRequest _REQUEST_CLOSE [] (Some (next_addr m)) None)
            (set_next_addr (S (next_addr m)) m))
  else let! _ := select_one _REQUEST_CLOSE None in join.

End Multithread.

(* ===================================================================== *)
(** ** sqlitedb.py and sqlitedict.py *)
(* ===================================================================== *)

Module Dict.

(** The names [sqlitedb.py] binds at top level: its imports and its class. *)
Definition module_globals : list string :=
  ["os"; "sqlite3"; "tempfile"; "logging"; "Queue"; "threading"; "traceback";
   "weakref"; "SqliteDb"].

Definition VALID_FLAGS : list string := ["c"; "r"; "w"; "n"].

Definition standard_columns : list (string * string) :=
  [("key", "TEXT PRIMARY KEY"); ("value", "BLOB")].
Definition additional_columns : list (string * string) := [].
Definition index_standard_columns : list string := ["key"].
Definition index_additional_columns : list string := [].
Definition table_specific_additional_columns
  : list (string * list (string * string)) := [].
Definition table_specific_index_additional_columns
  : list (string * list string) := [].

(** [dict.get(name, default)] on a dictionary written as a list of pairs. *)
Definition dict_get {A : Type} (d : list (string * A)) (name : string) (dflt : A) : A :=
  match filter (fun p => fst p = name) d with
  | p :: _ => snd p
  | [] => dflt
  end.

(** [self.conn]: [None], or the [SqliteMultithread] object. *)
Inductive ConnRef := conn_None | conn_object.

(** A [SqliteDict] whose constructor has assigned [self.conn], together with
    the [SqliteMultithread] object made for it ([mt]), which lives on when
    [conn] is reset to [None]. *)
Record SqliteDict := mkDict {
  in_temp : bool;
  flag : string;
  filename : string;
  tablename : string;
  autocommit : bool;
  journal_mode : string;
  timeout : Z;
  _outer_stack : bool;
  conn : ConnRef;
  mt : Multithread.SqliteMultithread
}.

Definition set_conn (v : ConnRef) (d : SqliteDict) :=
  mkDict (in_temp d) (flag d) (filename d) (tablename d) (autocommit d)
         (journal_mode d) (timeout d) (_outer_stack d) v (mt d).

Definition set_mt (v : Multithread.SqliteMultithread) (d : SqliteDict) :=
  mkDict (in_temp d) (flag d) (filename d) (tablename d) (autocommit d)
         (journal_mode d) (timeout d) (_outer_stack d) (conn d) v.

Section Hooks.

(** Keys and values of the mapping, and the four hooks of the constructor.
    [encode_key] yields text, the type of the [key] column. *)
Context {K V : Type}.
Variable encode : V -> SqlVal.
Variable decode : SqlVal -> V.
Variable encode_key : K -> string.
Variable decode_key : SqlVal -> K.

(** What a façade method can raise. *)
Inductive DictExc :=
| KeyError (key : K)
| IndexError
| ValueError
| Exc (e : PyExc).

Definition D (A : Type) : Type :=
  SqliteDict -> Outcome DictExc A * SqliteDict.

Definition lift_outcome {A : Type} (o : Outcome PyExc A) : Outcome DictExc A :=
  match o with
  | Ret a => Ret a
  | Raise e => Raise (Exc e)
  | Blocked => Blocked
  end.

(** [self.conn.attr(...)]: [None] has no such attribute. *)
Definition on_conn {A : Type} (attr : string) (c : Multithread.M A) : D A :=
  fun d => match conn d with
           | conn_None => (Raise (Exc (AttributeError attr)), d)
           | conn_object => let '(o, m) := c (mt d) in (lift_outcome o, set_mt m d)
           end.

Definition get {A : Type} (f : SqliteDict -> A) : D A :=
  fun d => (Ret (f d), d).

(** [row[0]]. *)
Definition item0 (row : Tuple) : D SqlVal :=
  match row with
  | x :: _ => ret x
  | [] => raise IndexError
  end.

(** [select_one(...)[0]]: [None] is not subscriptable. *)
Definition first_column (row : option Tuple) : D SqlVal :=
  match row with
  | Some r => item0 r
  | None => raise (Exc TypeError)
  end.

Definition table_columns (d : SqliteDict) : list (string * string) :=
  dict_get table_specific_additional_columns (tablename d) [].

Definition index_table_columns (d : SqliteDict) : list string :=
  dict_get table_specific_index_additional_columns (tablename d) [].

(** The merged dictionary of column definitions (no name occurs twice: the two
    dictionaries merged into the first are empty). *)
Definition all_columns (d : SqliteDict) : list (string * string) :=
  standard_columns ++ additional_columns ++ table_columns d.

Definition create_table : D unit :=
  let! cols := get all_columns in
  let! t := get tablename in
  on_conn "execute"
    (Multithread.execute (Multithread.Sql (CREATE_TABLE_IF_NOT_EXISTS t cols)) None None).

Fixpoint create_each_index (idxs : list string) : D unit :=
  match idxs with
  | [] => ret tt
  | idx :: idxs' =>
      let! t := get tablename in
      let! _ := on_conn "execute"
                  (Multithread.execute
                     (Multithread.Sql (CREATE_INDEX_IF_NOT_EXISTS idx t)) None None) in
      create_each_index idxs'
  end.

Definition create_indexes : D unit :=
  let! extra := get index_table_columns in
  create_each_index (index_standard_columns ++ index_additional_columns ++ extra).

(** The SQL texts, by the names the methods give them. *)
Definition GET_LEN := SELECT_COUNT.
Definition GET_MAX := SELECT_MAX_ROWID.
Definition GET_KEYS := SELECT_key_ORDER_BY_rowid.
Definition GET_VALUES := SELECT_value_ORDER_BY_rowid.
Definition GET_ITEMS := SELECT_key_value_ORDER_BY_rowid.
Definition HAS_ITEM := SELECT_1_WHERE_key.
Definition GET_ITEM := SELECT_value_WHERE_key.
Definition ADD_ITEM := REPLACE_INTO.
Definition DEL_ITEM := DELETE_WHERE_key.
Definition UPDATE_ITEMS := REPLACE_INTO.
Definition CLEAR_ALL := DELETE_FROM.

Definition __len__ : D SqlVal :=
  let! t := get tablename in
  let! row := on_conn "select_one"
                (Multithread.select_one (Multithread.Sql (GET_LEN t)) None) in
  let! rows := first_column row in
  ret (match rows with SqlNull => SqlInt 0 | _ => rows end).

Definition __bool__ : D bool :=
  let! t := get tablename in
  let! row := on_conn "select_one"
                (Multithread.select_one (Multithread.Sql (GET_MAX t)) None) in
  let! m := first_column row in
  ret (match m with SqlNull => false | _ => true end).

(** The body of a [for] loop over the rows of a [select], row by row. *)
Fixpoint for_each {A : Type} (body : Tuple -> D A) (rows : list Tuple) : D (list A) :=
  match rows with
  | [] => ret []
  | row :: rows' =>
      let! x := body row in
      let! xs := for_each body rows' in
      ret (x :: xs)
  end.

Definition iterkeys : D (list K) :=
  let! t := get tablename in
  let! rows := on_conn "select"
                 (Multithread.select (Multithread.Sql (GET_KEYS t)) None) in
  for_each (fun key => let! k := item0 key in ret (decode_key k)) rows.

Definition itervalues : D (list V) :=
  let! t := get tablename in
  let! rows := on_conn "select"
                 (Multithread.select (Multithread.Sql (GET_VALUES t)) None) in
  for_each (fun value => let! v := item0 value in ret (decode v)) rows.

Definition iteritems : D (list (K * V)) :=
  let! t := get tablename in
  let! rows := on_conn "select"
                 (Multithread.select (Multithread.Sql (GET_ITEMS t)) None) in
  for_each (fun row => match row with
                       | [key; value] => ret (decode_key key, decode value)
                       | _ => raise ValueError
                       end) rows.

Definition keys : D (list K) := iterkeys.
Definition values : D (list V) := itervalues.
Definition items : D (list (K * V)) := iteritems.
Definition __iter__ : D (list K) := iterkeys.

Definition __contains__ (key : K) : D bool :=
  let! t := get tablename in
  let! row := on_conn "select_one"
                (Multithread.select_one (Multithread.Sql (HAS_ITEM t))
                   (Some [SqlText (encode_key key)])) in
  ret (match row with Some _ => true | None => false end).

Definition __getitem__ (key : K) : D V :=
  let! t := get tablename in
  let! item := on_conn "select_one"
                 (Multithread.select_one (Multithread.Sql (GET_ITEM t))
                    (Some [SqlText (encode_key key)])) in
  match item with
  | None => raise (KeyError key)
  | Some row => let! v := item0 row in ret (decode v)
  end.

(** [SqliteDb.commit(blocking=True)]: the argument is not passed on. *)
Definition commit (blocking : bool) : D unit :=
  fun d => match conn d with
           | conn_None => (Ret tt, d)
           | conn_object => on_conn "commit" (Multithread.commit true) d
           end.

Definition sync := commit.

Definition __setitem__ (key : K) (value : V) : D unit :=
  let! f := get flag in
  if bool_decide (f = "r") then raise (Exc (RuntimeError Refusing_to_write))
  else
    let! t := get tablename in
    let! _ := on_conn "execute"
                (Multithread.execute (Multithread.Sql (ADD_ITEM t))
                   (Some [SqlText (encode_key key); encode value]) None) in
    let! ac := get autocommit in
    if ac then commit true else ret tt.

Definition __delitem__ (key : K) : D unit :=
  let! f := get flag in
  if bool_decide (f = "r") then raise (Exc (RuntimeError Refusing_to_delete))
  else
    let! present := __contains__ key in
    if negb present then raise (KeyError key)
    else
      let! t := get tablename in
      let! _ := on_conn "execute"
                  (Multithread.execute (Multithread.Sql (DEL_ITEM t))
                     (Some [SqlText (encode_key key)]) None) in
      let! ac := get autocommit in
      if ac then commit true else ret tt.

(** One call of [update] without the keyword arguments. *)
Definition update_items (items : list (K * V)) : D unit :=
  let! f := get flag in
  if bool_decide (f = "r") then raise (Exc (RuntimeError Refusing_to_update))
  else
    let! t := get tablename in
    let! _ := on_conn "executemany"
                (Multithread.executemany (Multithread.Sql (UPDATE_ITEMS t))
                   (map (fun kv => [SqlText (encode_key (fst kv)); encode (snd kv)])
                      items)) in
    ret tt.

(** [update(items=(), **kwds)]: [items] is the sequence of pairs, or the pairs
    of the mapping; [kwds] the pairs given by keyword. With keyword arguments
    the method calls itself once on them, and that call has none. *)
Definition update (items : list (K * V)) (kwds : list (K * V)) : D unit :=
  let! _ := update_items items in
  let! _ := (match kwds with
             | [] => ret tt
             | _ :: _ =>
                 let! _ := update_items kwds in
                 let! ac := get autocommit in
                 if ac then commit true else ret tt
             end) in
  let! ac := get autocommit in
  if ac then commit true else ret tt.

Definition clear : D unit :=
  let! f := get flag in
  if bool_decide (f = "r") then raise (Exc (RuntimeError Refusing_to_clear))
  else
    let! t := get tablename in
    let! _ := on_conn "commit" (Multithread.commit true) in
    let! _ := on_conn "execute"
                (Multithread.execute (Multithread.Sql (CLEAR_ALL t)) None None) in
    on_conn "commit" (Multithread.commit true).

(** [try: os.remove(path) except: pass]. *)
Definition try_remove (path : string) : D unit :=
  fun d => match os_remove (Multithread.fs (mt d)) path with
           | inr fs' => (Ret tt, set_mt (Multithread.set_fs fs' (mt d)) d)
           | inl _ => (Ret tt, d)
           end.

(** [close(do_log=True, force=False)]. The attribute [conn] exists on every
    handle considered here; [force] is not passed on to the connection. *)
Definition close (do_log force : bool) : D unit :=
  let! c := get conn in
  let! _ := (match c with
             | conn_object =>
                 let! ac := get (fun d => Multithread.autocommit (mt d)) in
                 let! _ := (if ac && negb force
                            then on_conn "commit" (Multithread.commit true)
                            else ret tt) in
                 let! _ := on_conn "close" (Multithread.close false) in
                 fun d => (Ret tt, set_conn conn_None d)
             | conn_None => ret tt
             end) in
  let! tmp := get in_temp in
  if tmp then let! path := get filename in try_remove path else ret tt.

Definition terminate : D unit :=
  let! f := get flag in
  if bool_decide (f = "r") then raise (Exc (RuntimeError Refusing_to_terminate))
  else
    let! _ := close true false in
    let! path := get filename in
    if bool_decide (path = memory) then ret tt
    else
      fun d => if path_isfile (Multithread.fs (mt d)) path
               then try_remove path d
               else (Ret tt, d).

(** [__del__]: whatever [close] raises is dropped. *)
Definition __del__ : D unit :=
  fun d => match close false true d with
           | (Raise _, d') => (Ret tt, d')
           | r => r
           end.

(** [get_tablenames(filename)]: the tables of the database the file holds. *)
Definition get_tablenames (fs : FS) (filename : string) : PyExc + list string :=
  match files fs !! filename with
  | None => inl (IOError filename)
  | Some db => inr (table_names db)
  end.

(** [_new_conn]. *)
Definition _new_conn (journal_mode_pragma : string -> PyExc + unit)
  (fs : FS) (filename : string) (autocommit : bool)
  (journal_mode : string) (outer_stack : bool)
  : PyExc + Multithread.SqliteMultithread :=
  match LOAD_GLOBAL module_globals "SqliteMultithread" with
  | inl e => inl e
  | inr _ => inr (Multithread.__init__ journal_mode_pragma fs filename autocommit
                    journal_mode outer_stack)
  end.

(** How a constructor call ends: with a handle, with an exception (and the
    file system as the call left it), or waiting for ever. *)
Inductive Constructed :=
| Built (d : SqliteDict)
| Failed (e : DictExc) (fs : FS)
| Hung.

Definition finish (r : Outcome DictExc unit * SqliteDict) : Constructed :=
  match r with
  | (Ret _, d) => Built d
  | (Raise e, d) => Failed e (Multithread.fs (mt d))
  | (Blocked, _) => Hung
  end.

(** [tempfile.mkstemp]: a new empty file under the name the system picks. *)
Definition mkstemp (fs : FS) (tmpname : string) : FS :=
  mkFS (<[tmpname := ∅]> (files fs)) (dirs fs).

(** Lines 49-60 of [SqliteDb.__init__], once [self.conn] is assigned. *)
Definition open_table (orig_tablename : string) : D unit :=
  let! f := get flag in
  let! _ :=
    (if bool_decide (f = "r")
     then
       fun d =>
         match get_tablenames (Multithread.fs (mt d)) (filename d) with
         | inl e => (Raise (Exc e), d)
         | inr names =>
             if bool_decide (tablename d ∈ names) then (Ret tt, d)
             else (Raise (Exc (RuntimeError (Refusing_to_create_table orig_tablename))), d)
         end
     else
       let! _ := create_table in
       let! _ := create_indexes in
       let! ac := get autocommit in
       if ac then on_conn "commit" (Multithread.commit true) else ret tt) in
  if bool_decide (f = "w") then clear else ret tt.

(** [SqliteDict(filename, tablename, flag, autocommit, journal_mode, ...)]:
    [SqliteDict.__init__] stores the hooks and runs [SqliteDb.__init__].
    [tmpname] is the name [mkstemp] picks when no file name is given,
    [journal_mode_pragma] the engine's answer to the PRAGMA of [_connect]. *)
Definition __init__ (journal_mode_pragma : string -> PyExc + unit)
  (fs0 : FS) (tmpname : string) (filename : option string)
  (tablename flag : string) (autocommit : bool) (journal_mode : string)
  (timeout : Z) (outer_stack : bool) : Constructed :=
  let in_temp := bool_decide (filename = None) in
  let fs1 := if in_temp then mkstemp fs0 tmpname else fs0 in
  let filename := default tmpname filename in
  match LOAD_GLOBAL module_globals "BaseSqlite" with
  | inl e => Failed (Exc e) fs1
  | inr _ =>
      if negb (bool_decide (flag ∈ VALID_FLAGS))
      then Failed (Exc (RuntimeError (Unrecognized_flag flag))) fs1
      else
        match (if bool_decide (flag = "n") && path_exists fs1 filename
               then os_remove fs1 filename else inr fs1) with
        | inl e => Failed (Exc e) fs1
        | inr fs2 =>
            if negb (bool_decide (dirname filename = ""))
               && negb (path_exists fs2 (dirname filename))
            then Failed (Exc (RuntimeError (Directory_does_not_exist (dirname filename)))) fs2
            else
              match _new_conn journal_mode_pragma fs2 filename autocommit
                      journal_mode outer_stack with
              | inl e => Failed (Exc e) fs2
              | inr m =>
                  finish (open_table tablename
                            (mkDict in_temp flag filename (escape_dquote tablename)
                               autocommit journal_mode timeout outer_stack
                               conn_object m))
              end
        end
  end.

(** A caller's sequence of assignments and deletions. *)
Inductive Op :=
| op_set (key : K) (value : V)
| op_del (key : K).

Definition run_op (o : Op) : D unit :=
  match o with
  | op_set k v => __setitem__ k v
  | op_del k => __delitem__ k
  end.

(** The caller goes on after an exception (a deletion of an absent key raises
    [KeyError]); it cannot go on if a call does not return. *)
Fixpoint run_ops (ops : list Op) : D unit :=
  match ops with
  | [] => ret tt
  | o :: ops' =>
      fun d => match run_op o d with
               | (Blocked, d') => (Blocked, d')
               | (_, d') => run_ops ops' d'
               end
  end.

End Hooks.

End Dict.

(* ===================================================================== *)
(** ** Vocabulary of the statements *)
(* ===================================================================== *)

Module Spec.

Import Multithread.

(** The atomic actions on a [SqliteMultithread]: the worker serves a request;
    a caller, on any thread, checks the error slot, puts a request, makes a
    result queue, lets one go, or makes one that is gone at once (the forced
    close); the façade removes a file. The entry points are sequences of
    these. *)
Inductive step : SqliteMultithread -> SqliteMultithread -> Prop :=
| step_worker m m' : worker_step m m' -> step m m'
| step_check m : step m (snd (check_raise_error m))
| step_put m r : step m (reqs_put r m)
| step_new_queue m : step m (snd (new_queue m))
| step_drop_queue m a : step m (drop_queue a m)
| step_lost_queue m : step m (set_next_addr (S (next_addr m)) m)
| step_remove m p fs' : os_remove (fs m) p = inr fs' -> step m (set_fs fs' m).

(** The thread is no longer in [run]. *)
Definition ended (m : SqliteMultithread) : Prop :=
  match thread m with
  | Running _ | Starting => False
  | _ => True
  end.

(** The result queue a request refers to and what it holds, if the queue is
    still there. *)
Definition sink_of (m : SqliteMultithread) (r : Request) : option (nat * list Item) :=
  match res_ref r with
  | Some a =>
      match heap m !! a with
      | Some items => Some (a, items)
      | None => None
      end
  | None => None
  end.

(** A request nobody waits for. *)
Definition no_sink (r : Request) : bool :=
  match res_ref r with
  | None => true
  | Some _ => false
  end.

(** The connection as it is once the worker has served what is pending, when
    the error slot is empty, the pending requests are fire-and-forget ones and
    the worker comes through them in its loop. *)
Definition ready (m : SqliteMultithread) : option Conn :=
  match exception m, forallb no_sink (reqs m), thread (drain m) with
  | None, true, Running c => Some c
  | _, _, _ => None
  end.

(** The two fields only callers write. *)
Definition caller_side (q s : list Request) (m : SqliteMultithread) :=
  set_sent s (set_reqs q m).

(** The two fields result queues live in. *)
Definition env (h : gmap nat (list Item)) (n : nat) (m : SqliteMultithread) :=
  set_next_addr n (set_heap h m).

(** The fields the worker never writes. *)
Definition frame (m : SqliteMultithread) :=
  (filename m, autocommit m, journal_mode m, reqs m, _outer_stack m,
   exception m, next_addr m, sent m).

Definition stack_of (m : SqliteMultithread) : option StackSummary :=
  if _outer_stack m then Some CallerStack else None.

(** What a call leaves behind on a ready state: a ready state again, with the
    requests [new] put on the queue and nothing else of the caller's side
    changed. *)
Definition leaves (m m' : SqliteMultithread) (c' : Conn) (new : list Request) : Prop :=
  ready m' = Some c' /\ sent m' = sent m ++ new
  /\ autocommit m' = autocommit m /\ _outer_stack m' = _outer_stack m
  /\ filename m' = filename m.

(** The table behind a handle: the one the worker holds under the handle's
    table name once it has served what is pending. *)
Definition table_state (d : Dict.SqliteDict) : option Table :=
  match Dict.conn d, ready (Dict.mt d) with
  | Dict.conn_object, Some c =>
      table_rows (working c) (sql_identifier (Dict.tablename d))
  | _, _ => None
  end.

(** What a method leaves of a handle whose table was there: the table [t'],
    the same attributes, and requests of the kinds [rs] put on the queue. *)
Definition keeps (d d' : Dict.SqliteDict) (t' : Table) (rs : list Req) : Prop :=
  table_state d' = Some t'
  /\ d' = Dict.set_mt (Dict.mt d') d
  /\ _outer_stack (Dict.mt d') = _outer_stack (Dict.mt d)
  /\ autocommit (Dict.mt d') = autocommit (Dict.mt d)
  /\ exists new, sent (Dict.mt d') = sent (Dict.mt d) ++ new /\ map req new = rs.

Definition by_rowid (r r' : Row) : Prop := rowid r < rowid r'.

(** Rowids grow along the table, no key occurs twice and none is NULL: what
    the engine keeps true of the table the façade creates. *)
Definition well_formed (t : Table) : Prop :=
  StronglySorted by_rowid t /\ NoDup (map key t)
  /\ Forall (fun r => key r <> SqlNull) t.

(** The keys assigned and the keys deleted by a sequence of operations, in
    order. *)
Definition set_keys {K V : Type} (ops : list (@Dict.Op K V)) : list K :=
  omap (fun o => match o with Dict.op_set k _ => Some k | Dict.op_del _ => None end) ops.

Definition del_keys {K V : Type} (ops : list (@Dict.Op K V)) : list K :=
  omap (fun o => match o with Dict.op_del k => Some k | Dict.op_set _ _ => None end) ops.

(** What is left of [close] once [self.conn] is [None]. *)
Definition remove_if_temp {K : Type} : @Dict.D K unit :=
  let! tmp := Dict.get Dict.in_temp in
  if tmp then let! path := Dict.get Dict.filename in Dict.try_remove path else ret tt.

Section Tables.

Context {K V : Type} `{EqDecision K}.
Variable encode : V -> SqlVal.
Variable encode_key : K -> string.
Variable decode_key : SqlVal -> K.

(** The table after a bulk update. *)
Definition replace_all (items : list (K * V)) (t : Table) : Table :=
  foldl (fun t kv => replace_into (SqlText (encode_key (fst kv))) (encode (snd kv)) t)
    t items.

(** What an operation does to the table. *)
Definition apply_op (t : Table) (o : @Dict.Op K V) : Table :=
  match o with
  | Dict.op_set k v => replace_into (SqlText (encode_key k)) (encode v) t
  | Dict.op_del k => delete_key (SqlText (encode_key k)) t
  end.

(** An operation whose value SQLite binds. *)
Definition bound_op (o : @Dict.Op K V) : Prop :=
  match o with
  | Dict.op_set _ v => bindable (encode v) = true
  | Dict.op_del _ => True
  end.

(** What it does to the list of keys. *)
Definition apply_op_keys (l : list K) (o : @Dict.Op K V) : list K :=
  match o with
  | Dict.op_set k _ => filter (fun k' => k' <> k) l ++ [k]
  | Dict.op_del k => filter (fun k' => k' <> k) l
  end.

(** Every stored key is the encoding of a key. *)
Definition encoded (t : Table) : Prop :=
  Forall (fun r => exists k, key r = SqlText (encode_key k)) t.

Definition keys_of (t : Table) : list K := map (fun r => decode_key (key r)) t.

End Tables.

End Spec.

(* ===================================================================== *)
(** ** A store to run the code on *)
(* ===================================================================== *)

Module Example.

Import Multithread.

(** A database file holding the empty table [t], and a worker connected to
    it. *)
Definition path : string := "/data/store.db".

Definition store : DB := {[ "t" := Tbl "t" [] ]}.

(** The engine's answer to the PRAGMA for the journal modes SQLite documents
    and for the empty text, which is no statement. No other text is used
    below. *)
Definition journal_mode_pragma (mode : string) : PyExc + unit :=
  if bool_decide (mode ∈ ["DELETE"; "TRUNCATE"; "PERSIST"; "MEMORY"; "WAL"; "OFF"])
  then inr tt
  else inl (OperationalError incomplete_input).

Definition fs0 : FS := mkFS {[ path := store ]} {[ "/data" ]}.

Definition conn0 : Conn := mkConn path store false.

Definition worker (autocommit : bool) : SqliteMultithread :=
  Multithread.__init__ journal_mode_pragma fs0 path autocommit "DELETE" true.

(** The handle on that table, as a constructor call with the given flag would
    leave it. *)
Definition handle (flag : string) (autocommit : bool) : Dict.SqliteDict :=
  Dict.mkDict false flag path "t" autocommit "DELETE" 5 true Dict.conn_object
    (worker autocommit).

(** A handle on a temporary file. *)
Definition temp_handle : Dict.SqliteDict :=
  Dict.mkDict true "c" path "t" true "DELETE" 5 true Dict.conn_object (worker true).

(** The same handle once closed. *)
Definition closed_handle : Dict.SqliteDict :=
  snd (Dict.close (K:=string) true false temp_handle).

(** A write to, and a query on, a table that is not there. *)
Definition bad_write : Request :=
  mkRequest (Sql (REPLACE_INTO "missing")) [SqlText "a"; SqlBlob []] None
    (Some CallerStack).

Definition bad_select (a : nat) : Request :=
  mkRequest (Sql (SELECT_key_ORDER_BY_rowid "missing")) [] (Some a)
    (Some CallerStack).

Definition commit_request (a : nat) : Request :=
  mkRequest _REQUEST_COMMIT [] (Some a) (Some CallerStack).

Definition close_request (a : nat) : Request :=
  mkRequest _REQUEST_CLOSE [] (Some a) (Some CallerStack).

(** A [decode_key] for text keys. *)
Definition text_of (v : SqlVal) : string :=
  match v with
  | SqlText s => s
  | _ => ""
  end.

(** The worker after the write to the missing table. *)
Definition ended_worker : SqliteMultithread :=
  serve conn0 bad_write (set_reqs [] (reqs_put bad_write (worker false))).

(** A query on the table that is there. *)
Definition count_request (a : nat) : Request :=
  mkRequest (Sql (SELECT_COUNT "t")) [] (Some a) (Some CallerStack).

(** The request that creates a second table. *)
Definition create_request : Request :=
  mkRequest (Sql (CREATE_TABLE_IF_NOT_EXISTS "u" Dict.standard_columns)) [] None
    (Some CallerStack).

(** A write to it. *)
Definition good_write : Request :=
  mkRequest (Sql (REPLACE_INTO "t")) [SqlText "a"; SqlInt 1] None (Some CallerStack).

(** The table and the handle after [d["a"] = 1; d["b"] = 2]. *)
Definition two_rows : list Row :=
  [mkRow 1 (SqlText "a") (SqlInt 1); mkRow 2 (SqlText "b") (SqlInt 2)].

Definition stocked_handle : Dict.SqliteDict :=
  snd (Dict.run_ops id id [Dict.op_set "a" (SqlInt 1); Dict.op_set "b" (SqlInt 2)]
         (handle "c" false)).

(** The same table behind a handle opened read-only. *)
Definition read_only_handle : Dict.SqliteDict :=
  Dict.mkDict false "r" path "t" false "DELETE" 5 true Dict.conn_object
    (Dict.mt stocked_handle).

End Example.

Import Spec.
Import Multithread.

(* ===================================================================== *)
(** ** The engine model *)
(* ===================================================================== *)

Lemma sql_eq_text (s s' : string) :
  sql_eq (SqlText s) (SqlText s') = bool_decide (s = s').
Proof.
  unfold sql_eq. apply bool_decide_ext. split; congruence.
Qed.

Lemma sql_eq_refl (a : SqlVal) : a <> SqlNull -> sql_eq a a = true.
Proof.
  destruct a; intros H; try congruence; unfold sql_eq; by rewrite bool_decide_eq_true.
Qed.

Lemma sql_eq_true (a b : SqlVal) : sql_eq a b = true -> a = b.
Proof.
  destruct a, b; unfold sql_eq; try discriminate; apply bool_decide_eq_true.
Qed.

Lemma where_key_absent (k : SqlVal) (t : Table) :
  k ∉ map key t -> where_key k t = [].
Proof.
  intros H. unfold where_key. induction t as [|r t IH]; [reflexivity|].
  cbn [map] in H. apply not_elem_of_cons in H as [H1 H2].
  rewrite filter_cons_False; [by apply IH|].
  intros E. apply sql_eq_true in E. congruence.
Qed.

Lemma where_key_present (k : SqlVal) (t : Table) :
  k <> SqlNull -> k ∈ map key t -> where_key k t <> [].
Proof.
  intros Hk H E. apply list_elem_of_fmap in H as (r & -> & Hr).
  eapply (filter_nil_not_elem_of _ _ r) in E; [done|].
  by apply sql_eq_refl.
Qed.

Lemma delete_key_absent (k : SqlVal) (t : Table) :
  where_key k t = [] -> delete_key k t = t.
Proof.
  unfold where_key, delete_key. induction t as [|r t IH]; [reflexivity|].
  rewrite filter_cons. destruct (decide (sql_eq (key r) k = true)) as [E|E]; [done|].
  intros H. rewrite filter_cons_True by (by destruct (sql_eq (key r) k)).
  by rewrite IH.
Qed.

Lemma where_delete (k : SqlVal) (t : Table) : where_key k (delete_key k t) = [].
Proof.
  unfold where_key, delete_key. induction t as [|r t IH]; [reflexivity|].
  rewrite (filter_cons (fun r => sql_eq (key r) k = false)).
  destruct (decide (sql_eq (key r) k = false)) as [E|E]; [|exact IH].
  rewrite filter_cons_False; [exact IH|]. congruence.
Qed.

(** After [REPLACE INTO], the key selects the new row and nothing else. *)
Lemma where_replace_into (s : string) (v : SqlVal) (t : Table) :
  where_key (SqlText s) (replace_into (SqlText s) v t)
  = [mkRow (new_rowid t) (SqlText s) v].
Proof.
  unfold replace_into. unfold where_key at 1. rewrite filter_app.
  fold (where_key (SqlText s) (delete_key (SqlText s) t)). rewrite where_delete.
  rewrite filter_cons_True; [reflexivity|]. by apply (sql_eq_refl (SqlText s)).
Qed.

(** With unique keys a key selects one row, and deleting it takes that row
    out and leaves the others where they are. *)
Lemma where_key_unique (k : SqlVal) (t : Table) r rest :
  NoDup (map key t) ->
  where_key k t = r :: rest ->
  rest = [] /\ key r = k
  /\ exists l1 l2, t = l1 ++ r :: l2 /\ delete_key k t = l1 ++ l2.
Proof.
  unfold where_key, delete_key. induction t as [|r' t IH]; [done|].
  cbn [map]. intros Hnd H. apply NoDup_cons in Hnd as [Hni Hnd].
  rewrite filter_cons in H.
  destruct (decide (sql_eq (key r') k = true)) as [E|E].
  - injection H as -> Hrest. pose proof (sql_eq_true _ _ E) as Hk.
    rewrite Hk in Hni. pose proof (where_key_absent _ _ Hni) as Habs.
    unfold where_key in Habs. rewrite Habs in Hrest. subst rest.
    split_and!; try done. exists [], t. split; [done|].
    rewrite filter_cons_False by congruence.
    apply (delete_key_absent k t). exact Habs.
  - destruct (IH Hnd H) as (-> & Hk & l1 & l2 & -> & Hd).
    split_and!; try done. exists (r' :: l1), l2. split; [done|].
    rewrite filter_cons_True by (by destruct (sql_eq (key r') k)).
    cbn. by rewrite Hd.
Qed.

Lemma max_rowid_cons r (t : Table) :
  max_rowid (r :: t)
  = Some (match max_rowid t with None => rowid r | Some m => Z.max (rowid r) m end).
Proof. unfold max_rowid. cbn [foldr]. by destruct (foldr _ _ t). Qed.

Lemma max_rowid_elem (t : Table) r :
  r ∈ t -> exists m, max_rowid t = Some m /\ rowid r <= m.
Proof.
  induction t as [|r' t IH]; [by intros ?%elem_of_nil|].
  rewrite max_rowid_cons. intros [->|H]%elem_of_cons.
  - eexists. split; [reflexivity|]. destruct (max_rowid t); lia.
  - destruct (IH H) as (m & -> & Hm). eexists. split; [reflexivity|]. lia.
Qed.

Lemma max_rowid_bound (t : Table) r :
  r ∈ t -> rowid r < new_rowid t.
Proof.
  intros (m & Hm & Hle)%max_rowid_elem. unfold new_rowid. rewrite Hm. lia.
Qed.

Lemma insert_by_rowid_first r (t : Table) :
  Forall (by_rowid r) t -> insert_by_rowid r t = r :: t.
Proof.
  destruct t as [|r' t]; [reflexivity|]. intros H%Forall_cons_1. destruct H as [H _].
  cbn. unfold by_rowid in H. destruct (Z.leb_spec (rowid r) (rowid r')); [done|lia].
Qed.

(** [ORDER BY rowid] returns a table stored in rowid order as it is. *)
Lemma order_by_rowid_sorted (t : Table) :
  StronglySorted by_rowid t -> order_by_rowid t = t.
Proof.
  unfold order_by_rowid. induction t as [|r t IH]; [reflexivity|].
  intros [Hall Hs]%StronglySorted_cons. cbn [foldr]. rewrite IH by done.
  by apply insert_by_rowid_first.
Qed.

Lemma delete_key_sorted k (t : Table) :
  StronglySorted by_rowid t -> StronglySorted by_rowid (delete_key k t).
Proof.
  unfold delete_key. induction t as [|r t IH]; [done|].
  intros [Hall Hs]%StronglySorted_cons. rewrite filter_cons.
  destruct (decide _); [|by apply IH].
  apply StronglySorted_cons. split; [|by apply IH].
  apply Forall_forall. intros x [_ Hx]%list_elem_of_filter.
  by eapply Forall_forall in Hall.
Qed.

Lemma replace_into_sorted k v (t : Table) :
  StronglySorted by_rowid t -> StronglySorted by_rowid (replace_into k v t).
Proof.
  intros Hs. unfold replace_into. apply StronglySorted_app. split_and!.
  - intros x1 x2 H1 ->%list_elem_of_singleton. unfold by_rowid. cbn.
    apply max_rowid_bound. unfold delete_key in H1.
    by apply list_elem_of_filter in H1 as [_ H1].
  - by apply delete_key_sorted.
  - repeat constructor.
Qed.

Lemma map_key_delete k (t : Table) :
  map key (delete_key k t) = filter (fun k' => sql_eq k' k = false) (map key t).
Proof.
  unfold delete_key. induction t as [|r t IH]; [reflexivity|].
  cbn [map]. rewrite !filter_cons. destruct (decide _); cbn [map]; by rewrite IH.
Qed.

Lemma delete_key_well_formed k (t : Table) :
  well_formed t -> well_formed (delete_key k t).
Proof.
  intros (Hs & Hnd & Hnn). split_and!.
  - by apply delete_key_sorted.
  - rewrite map_key_delete. by apply NoDup_filter.
  - unfold delete_key. apply Forall_forall. intros x [_ Hx]%list_elem_of_filter.
    by eapply Forall_forall in Hnn.
Qed.

Lemma replace_into_well_formed s v (t : Table) :
  well_formed t -> well_formed (replace_into (SqlText s) v t).
Proof.
  intros Hwf. pose proof (delete_key_well_formed (SqlText s) t Hwf) as (Hs & Hnd & Hnn).
  destruct Hwf as (Hs0 & _). split_and!.
  - by apply replace_into_sorted.
  - unfold replace_into. rewrite map_app. apply NoDup_app. split_and!; [done| |].
    + intros x Hx ->%list_elem_of_singleton. cbn in Hx.
      rewrite map_key_delete in Hx. apply list_elem_of_filter in Hx as [Hx _].
      by rewrite sql_eq_refl in Hx.
    + cbn. apply NoDup_singleton.
  - unfold replace_into. apply Forall_app. split; [done|]. by repeat constructor.
Qed.

Lemma well_formed_nil : well_formed [].
Proof. split_and!; constructor. Qed.

(* ===================================================================== *)
(** ** The worker and the entry points *)
(* ===================================================================== *)

Lemma bind_Ret {S E A B : Type} (c : S -> Outcome E A * S)
  (k : A -> S -> Outcome E B * S) s a s' :
  c s = (Ret a, s') -> bind c k s = k a s'.
Proof. intros H. unfold bind. by rewrite H. Qed.

Lemma bind_Raise {S E A B : Type} (c : S -> Outcome E A * S)
  (k : A -> S -> Outcome E B * S) s e s' :
  c s = (Raise e, s') -> bind c k s = (Raise e, s').
Proof. intros H. unfold bind. by rewrite H. Qed.

Lemma sys_is_unbound : LOAD_GLOBAL module_globals "sys" = inl (NameError "sys").
Proof. reflexivity. Qed.

Lemma put_caller_side q s ref item m :
  _put ref item (caller_side q s m)
  = (fst (_put ref item m), caller_side q s (snd (_put ref item m))).
Proof.
  unfold _put. destruct ref as [a|]; [|reflexivity].
  cbn. destruct (heap m !! a); reflexivity.
Qed.

Lemma put_records_caller_side q s ref rows m :
  put_records ref rows (caller_side q s m) = caller_side q s (put_records ref rows m).
Proof.
  revert m. induction rows as [|row rows IH]; intros m; [reflexivity|].
  cbn [put_records]. rewrite put_caller_side.
  destruct (_put ref (Rec row) m) as [code m'] eqn:E. cbn [fst snd].
  destruct (code =? 1); [reflexivity|apply IH].
Qed.

Lemma deliver_caller_side q s r conn rows m :
  deliver_and_autocommit r conn rows (caller_side q s m)
  = caller_side q s (deliver_and_autocommit r conn rows m).
Proof.
  unfold deliver_and_autocommit. destruct (res_ref r) as [a|].
  - rewrite put_records_caller_side, put_caller_side. cbn [snd].
    set (m1 := snd (_put _ _ _)). cbn. destruct (autocommit m1); reflexivity.
  - cbn. destruct (autocommit m); reflexivity.
Qed.

Lemma serve_caller_side q s conn r m :
  serve conn r (caller_side q s m) = caller_side q s (serve conn r m).
Proof.
  unfold serve. destruct (req r) as [| |stmt].
  - destruct (res_ref r) as [a|] eqn:E; [|reflexivity].
    change (log_event ev_close (set_in_transaction false (caller_side q s m)))
      with (caller_side q s (log_event ev_close (set_in_transaction false m))).
    rewrite put_caller_side. reflexivity.
  - change (log_event ev_commit
              (set_in_transaction false
                 (set_fs (conn_commit (fs (caller_side q s m)) conn) (caller_side q s m))))
      with (caller_side q s
              (log_event ev_commit
                 (set_in_transaction false (set_fs (conn_commit (fs m) conn) m)))).
    rewrite put_caller_side. reflexivity.
  - destruct (cursor_execute (working conn) stmt (arg r)) as [exc|[db cursor]].
    + rewrite sys_is_unbound. reflexivity.
    + change (executed stmt (mkConn (conn_path conn) db false)
                (log_event (ev_execute stmt (arg r)) (caller_side q s m)))
        with (caller_side q s
                (executed stmt (mkConn (conn_path conn) db false)
                   (log_event (ev_execute stmt (arg r)) m))).
      apply deliver_caller_side.
Qed.

Lemma put_frame ref item m : frame (snd (_put ref item m)) = frame m.
Proof.
  unfold _put. destruct ref as [a|]; [|reflexivity].
  destruct (heap m !! a); reflexivity.
Qed.

Lemma put_thread ref item m : thread (snd (_put ref item m)) = thread m.
Proof.
  unfold _put. destruct ref as [a|]; [|reflexivity].
  destruct (heap m !! a); reflexivity.
Qed.

Lemma put_fs ref item m : fs (snd (_put ref item m)) = fs m.
Proof.
  unfold _put. destruct ref as [a|]; [|reflexivity].
  destruct (heap m !! a); reflexivity.
Qed.

Lemma put_records_frame ref rows m : frame (put_records ref rows m) = frame m.
Proof.
  revert m. induction rows as [|row rows IH]; intros m; [reflexivity|].
  cbn [put_records]. pose proof (put_frame ref (Rec row) m) as H.
  destruct (_put ref (Rec row) m) as [code m'] eqn:E. cbn [snd] in H.
  destruct (code =? 1); [exact H|]. by rewrite IH.
Qed.

Lemma put_records_thread ref rows m : thread (put_records ref rows m) = thread m.
Proof.
  revert m. induction rows as [|row rows IH]; intros m; [reflexivity|].
  cbn [put_records]. pose proof (put_thread ref (Rec row) m) as H.
  destruct (_put ref (Rec row) m) as [code m'] eqn:E. cbn [snd] in H.
  destruct (code =? 1); [exact H|]. by rewrite IH.
Qed.

Lemma put_records_fs ref rows m : fs (put_records ref rows m) = fs m.
Proof.
  revert m. induction rows as [|row rows IH]; intros m; [reflexivity|].
  cbn [put_records]. pose proof (put_fs ref (Rec row) m) as H.
  destruct (_put ref (Rec row) m) as [code m'] eqn:E. cbn [snd] in H.
  destruct (code =? 1); [exact H|]. by rewrite IH.
Qed.

Lemma deliver_frame r conn rows m :
  frame (deliver_and_autocommit r conn rows m) = frame m.
Proof.
  unfold deliver_and_autocommit.
  destruct (res_ref r) as [a|].
  - set (m1 := snd (_put _ _ _)).
    assert (frame m1 = frame m) as <-.
    { unfold m1. by rewrite put_frame, put_records_frame. }
    destruct (autocommit m1); reflexivity.
  - destruct (autocommit m); reflexivity.
Qed.

Lemma deliver_thread r conn rows m :
  thread (deliver_and_autocommit r conn rows m) = Running conn.
Proof.
  unfold deliver_and_autocommit.
  destruct (res_ref r) as [a|].
  - set (m1 := snd (_put _ _ _)). destruct (autocommit m1); reflexivity.
  - destruct (autocommit m); reflexivity.
Qed.

(** The worker never writes the error slot, nor any other field of [frame]. *)
Lemma serve_frame conn r m : frame (serve conn r m) = frame m.
Proof.
  unfold serve. destruct (req r) as [| |stmt].
  - destruct (res_ref r) as [a|]; [|reflexivity].
    set (m1 := log_event _ _). change (frame m) with (frame m1).
    cbn zeta. change (frame (snd (_put (Some a) _RESPONSE_NO_MORE m1)) = frame m1).
    apply put_frame.
  - set (m1 := log_event _ _). change (frame m) with (frame m1). apply put_frame.
  - destruct (cursor_execute (working conn) stmt (arg r)) as [exc|[db cursor]].
    + rewrite sys_is_unbound. reflexivity.
    + rewrite deliver_frame. reflexivity.
Qed.

Lemma frame_exception m m' : frame m = frame m' -> exception m = exception m'.
Proof. unfold frame. congruence. Qed.
Lemma frame_reqs m m' : frame m = frame m' -> reqs m = reqs m'.
Proof. unfold frame. congruence. Qed.
Lemma frame_sent m m' : frame m = frame m' -> sent m = sent m'.
Proof. unfold frame. congruence. Qed.
Lemma frame_next_addr m m' : frame m = frame m' -> next_addr m = next_addr m'.
Proof. unfold frame. congruence. Qed.
Lemma frame_autocommit m m' : frame m = frame m' -> autocommit m = autocommit m'.
Proof. unfold frame. congruence. Qed.
Lemma frame_outer_stack m m' : frame m = frame m' -> _outer_stack m = _outer_stack m'.
Proof. unfold frame. congruence. Qed.

Lemma set_reqs_id m : set_reqs (reqs m) m = m.
Proof. by destruct m. Qed.

Lemma caller_side_reqs q m : set_reqs q m = caller_side q (sent m) m.
Proof. by destruct m. Qed.

Lemma serve_set_reqs q conn r m : serve conn r (set_reqs q m) = set_reqs q (serve conn r m).
Proof.
  rewrite caller_side_reqs, serve_caller_side, caller_side_reqs.
  by rewrite (frame_sent _ _ (serve_frame conn r m)).
Qed.

(** [run_loop] takes the queue from its argument, not from the state. *)
Lemma run_loop_caller_side q x s m :
  run_loop q (caller_side x s m) = set_sent s (run_loop q m).
Proof.
  revert x s m. induction q as [|r q IH]; intros x s m; [reflexivity|].
  cbn [run_loop]. change (thread (caller_side x s m)) with (thread m).
  destruct (thread m) as [|conn|conn|e conn]; try reflexivity.
  change (set_reqs q (caller_side x s m)) with (caller_side q s m).
  rewrite serve_caller_side, IH.
  rewrite (serve_set_reqs q conn r m), (caller_side_reqs q (serve conn r m)).
  rewrite (IH q (sent (serve conn r m)) (serve conn r m)).
  reflexivity.
Qed.

Lemma run_loop_set_reqs q x m : run_loop q (set_reqs x m) = run_loop q m.
Proof.
  rewrite caller_side_reqs, run_loop_caller_side.
  generalize (run_loop_caller_side q (reqs m) (sent m) m).
  replace (caller_side (reqs m) (sent m) m) with m by (by destruct m).
  congruence.
Qed.

Lemma run_loop_thread_reqs q m :
  match thread (run_loop q m) with
  | Running _ => reqs (run_loop q m) = []
  | _ => True
  end.
Proof.
  revert m. induction q as [|r q IH]; intros m; cbn [run_loop].
  - cbn. by destruct (thread m).
  - destruct (thread m) as [|conn|conn|e conn] eqn:E; cbn; rewrite ?E; try done.
    apply IH.
Qed.

(** Serving a queue with one more request at its end. *)
Lemma run_loop_app q r m :
  run_loop (q ++ [r]) m =
  match thread (run_loop q m) with
  | Running conn => serve conn r (run_loop q m)
  | _ => set_reqs (reqs (run_loop q m) ++ [r]) (run_loop q m)
  end.
Proof.
  revert m. induction q as [|r' q IH]; intros m.
  - cbn [app run_loop]. change (thread (set_reqs [] m)) with (thread m).
    destruct (thread m) as [|conn|conn|e conn]; try reflexivity.
    rewrite serve_set_reqs. reflexivity.
  - cbn [app run_loop]. destruct (thread m) as [|conn|conn|e conn] eqn:E;
      try (cbn; rewrite E; reflexivity).
    rewrite serve_set_reqs, run_loop_set_reqs, IH.
    rewrite (serve_set_reqs q), run_loop_set_reqs. reflexivity.
Qed.

Lemma serve_env h n conn r m :
  res_ref r = None -> serve conn r (env h n m) = env h n (serve conn r m).
Proof.
  intros Hr. unfold serve, deliver_and_autocommit. rewrite Hr.
  destruct (req r) as [| |stmt]; try reflexivity.
  destruct (cursor_execute (working conn) stmt (arg r)) as [exc|[db cursor]].
  - rewrite sys_is_unbound. reflexivity.
  - cbn. destruct (autocommit m); reflexivity.
Qed.

Lemma run_loop_env h n q m :
  forallb no_sink q = true -> run_loop q (env h n m) = env h n (run_loop q m).
Proof.
  revert m. induction q as [|r q IH]; intros m Hq; [reflexivity|].
  cbn in Hq. apply andb_prop in Hq as [Hr Hq].
  assert (res_ref r = None) as Hr' by (unfold no_sink in Hr; by destruct (res_ref r)).
  cbn [run_loop]. change (thread (env h n m)) with (thread m).
  destruct (thread m) as [|conn|conn|e conn]; try reflexivity.
  change (set_reqs q (env h n m)) with (env h n (set_reqs q m)).
  rewrite serve_env by done. by apply IH.
Qed.

Lemma ready_Some m c :
  ready m = Some c ->
  exception m = None /\ forallb no_sink (reqs m) = true /\ thread (drain m) = Running c.
Proof.
  unfold ready. destruct (exception m); [done|].
  destruct (forallb no_sink (reqs m)); [|done].
  destruct (thread (drain m)); try done. by intros [= ->].
Qed.

Lemma drain_frame m :
  (filename (drain m), autocommit (drain m), journal_mode (drain m),
   _outer_stack (drain m), exception (drain m), next_addr (drain m), sent (drain m))
  = (filename m, autocommit m, journal_mode m, _outer_stack m, exception m,
     next_addr m, sent m).
Proof.
  unfold drain. generalize (reqs m). intros q. revert m.
  induction q as [|r q IH]; intros m; [reflexivity|].
  cbn [run_loop]. destruct (thread m) as [|conn|conn|e conn]; try reflexivity.
  rewrite IH. pose proof (serve_frame conn r (set_reqs q m)) as H.
  unfold frame in H. cbn in H. congruence.
Qed.

Lemma ready_idle m c :
  reqs m = [] -> thread m = Running c -> exception m = None -> ready m = Some c.
Proof.
  intros Hq Ht He. unfold ready, drain. rewrite He, Hq. cbn. by rewrite Ht.
Qed.

(** [execute] when nothing is in the error slot. *)
Lemma execute_no_exception rq arg res m :
  exception m = None ->
  execute rq arg res m
  = (Ret tt, reqs_put (mkRequest rq (default [] arg) res
                         (if _outer_stack m then Some CallerStack else None)) m).
Proof.
  intros He. unfold execute, bind, check_raise_error. by rewrite He.
Qed.

Lemma drain_reqs_put r m :
  drain (reqs_put r m) =
  set_sent (sent m ++ [r])
    match thread (drain m) with
    | Running conn => serve conn r (drain m)
    | _ => set_reqs (reqs (drain m) ++ [r]) (drain m)
    end.
Proof.
  unfold drain at 1. change (reqs (reqs_put r m)) with (reqs m ++ [r]).
  change (reqs_put r m) with (caller_side (reqs m ++ [r]) (sent m ++ [r]) m).
  by rewrite run_loop_caller_side, run_loop_app.
Qed.

Lemma put_heap_live a item items m :
  heap m !! a = Some items ->
  heap (snd (_put (Some a) item m)) !! a = Some (items ++ [item]).
Proof.
  intros H. unfold _put. rewrite H. cbn. by rewrite lookup_insert_eq.
Qed.

Lemma put_live_code a item items m :
  heap m !! a = Some items -> fst (_put (Some a) item m) = 0.
Proof. intros H. unfold _put. by rewrite H. Qed.

Lemma put_records_heap_live a rows items m :
  heap m !! a = Some items ->
  heap (put_records (Some a) rows m) !! a = Some (items ++ map Rec rows).
Proof.
  revert items m. induction rows as [|row rows IH]; intros items m H.
  - cbn. by rewrite app_nil_r.
  - cbn [put_records map].
    pose proof (put_heap_live a (Rec row) items m H) as H1.
    pose proof (put_live_code a (Rec row) items m H) as H2.
    destruct (_put (Some a) (Rec row) m) as [code m'] eqn:E. cbn [fst snd] in *.
    subst code. cbn. rewrite (IH _ _ H1). by rewrite <- app_assoc.
Qed.

Lemma deliver_heap_live r a conn rows items m :
  res_ref r = Some a -> heap m !! a = Some items ->
  heap (deliver_and_autocommit r conn rows m) !! a
  = Some (items ++ map Rec rows ++ [_RESPONSE_NO_MORE]).
Proof.
  intros Hr H. unfold deliver_and_autocommit. rewrite Hr.
  set (m1 := snd (_put _ _ _)).
  assert (heap m1 !! a = Some (items ++ map Rec rows ++ [_RESPONSE_NO_MORE])) as H1.
  { unfold m1. rewrite app_assoc. apply put_heap_live. by apply put_records_heap_live. }
  destruct (autocommit m1); exact H1.
Qed.

(** What [submit_and_wait] comes to on a ready state. *)
Lemma submit_and_wait_ready rq arg m c :
  ready m = Some c ->
  let a := next_addr m in
  let r := mkRequest rq (default [] arg) (Some a)
             (if _outer_stack m then Some CallerStack else None) in
  let m3 := set_sent (sent m ++ [r])
              (serve c r (env (<[a := []]> (heap m)) (S a) (drain m))) in
  submit_and_wait rq arg m = (Ret (a, default [] (heap m3 !! a)), m3).
Proof.
  intros Hready a r m3. apply ready_Some in Hready as (He & Hq & Ht).
  unfold submit_and_wait, new_queue.
  rewrite execute_no_exception by exact He.
  cbn [_outer_stack set_next_addr set_heap].
  fold a. fold r.
  set (m1 := set_next_addr (S a) (set_heap (<[a:=[]]> (heap m)) m)).
  change m1 with (env (<[a:=[]]> (heap m)) (S a) m).
  rewrite drain_reqs_put.
  assert (drain (env (<[a:=[]]> (heap m)) (S a) m) = env (<[a:=[]]> (heap m)) (S a) (drain m)) as ->.
  { unfold drain. change (reqs (env _ _ m)) with (reqs m). by apply run_loop_env. }
  change (thread (env (<[a:=[]]> (heap m)) (S a) (drain m))) with (thread (drain m)).
  rewrite Ht. reflexivity.
Qed.

Lemma serve_sql_thread c r m stmt db rows :
  req r = Sql stmt ->
  cursor_execute (working c) stmt (arg r) = inr (db, rows) ->
  thread (serve c r m) = Running (mkConn (conn_path c) db false).
Proof.
  intros Hr Hx. unfold serve. rewrite Hr, Hx. apply deliver_thread.
Qed.

Lemma serve_sql_heap c r m stmt db rows a items :
  req r = Sql stmt -> res_ref r = Some a ->
  cursor_execute (working c) stmt (arg r) = inr (db, rows) ->
  heap m !! a = Some items ->
  heap (serve c r m) !! a = Some (items ++ map Rec rows ++ [_RESPONSE_NO_MORE]).
Proof.
  intros Hr Ha Hx Hh. unfold serve. rewrite Hr, Hx.
  by apply deliver_heap_live.
Qed.

Lemma execute_sql_ready m c stmt arg db rows :
  ready m = Some c ->
  cursor_execute (working c) stmt (default [] arg) = inr (db, rows) ->
  exists m',
    execute (Sql stmt) arg None m = (Ret tt, m')
    /\ leaves m m' (mkConn (conn_path c) db false)
         [mkRequest (Sql stmt) (default [] arg) None (stack_of m)].
Proof.
  intros Hready Hx. pose proof (ready_Some _ _ Hready) as (He & Hq & Ht).
  eexists. split; [by apply execute_no_exception|].
  unfold leaves. split_and!; try reflexivity.
  unfold ready. cbn [exception reqs reqs_put set_sent set_reqs].
  rewrite He, forallb_app, Hq. cbn [forallb no_sink res_ref andb].
  rewrite drain_reqs_put, Ht.
  change (thread (set_sent ?s ?x)) with (thread x).
  by erewrite serve_sql_thread.
Qed.

Lemma select_loop_rows rows m :
  exception m = None ->
  select_loop (map Rec rows ++ [_RESPONSE_NO_MORE]) m = (Ret rows, m).
Proof.
  intros He. induction rows as [|row rows IH].
  - cbn. unfold bind, check_raise_error. by rewrite He.
  - cbn [map app select_loop]. unfold bind at 1. unfold check_raise_error at 1.
    rewrite He. unfold bind. by rewrite IH.
Qed.

Lemma drain_idle c m :
  thread (drain m) = Running c -> reqs (drain m) = [].
Proof.
  intros Ht. unfold drain in *. pose proof (run_loop_thread_reqs (reqs m) m) as H.
  by rewrite Ht in H.
Qed.

Lemma served_frame c r h n m :
  let M' := serve c r (env h n (drain m)) in
  exception M' = exception m /\ reqs M' = reqs (drain m)
  /\ autocommit M' = autocommit m /\ _outer_stack M' = _outer_stack m
  /\ filename M' = filename m.
Proof.
  intros M'. pose proof (serve_frame c r (env h n (drain m))) as Hf.
  pose proof (drain_frame m) as Hd. unfold M'.
  rewrite (frame_exception _ _ Hf), (frame_reqs _ _ Hf), (frame_autocommit _ _ Hf),
    (frame_outer_stack _ _ Hf).
  assert (filename (serve c r (env h n (drain m))) = filename (drain m)) as ->
    by (unfold frame in Hf; change (filename (env h n (drain m))) with (filename (drain m)) in Hf; congruence).
  change (exception (env h n (drain m))) with (exception (drain m)).
  change (reqs (env h n (drain m))) with (reqs (drain m)).
  change (autocommit (env h n (drain m))) with (autocommit (drain m)).
  change (_outer_stack (env h n (drain m))) with (_outer_stack (drain m)).
  split_and!; congruence.
Qed.

(** The state [submit_and_wait] reaches, for a statement the engine accepts. *)
Lemma waited_sql m c stmt arg db rows :
  ready m = Some c ->
  cursor_execute (working c) stmt (default [] arg) = inr (db, rows) ->
  let a := next_addr m in
  let r := mkRequest (Sql stmt) (default [] arg) (Some a) (stack_of m) in
  exists m3,
    submit_and_wait (Sql stmt) arg m
    = (Ret (a, map Rec rows ++ [_RESPONSE_NO_MORE]), m3)
    /\ exception m3 = None /\ reqs m3 = []
    /\ thread m3 = Running (mkConn (conn_path c) db false)
    /\ sent m3 = sent m ++ [r] /\ autocommit m3 = autocommit m
    /\ _outer_stack m3 = _outer_stack m /\ filename m3 = filename m.
Proof.
  intros Hready Hx a r. pose proof (ready_Some _ _ Hready) as (He & Hq & Ht).
  pose proof (submit_and_wait_ready (Sql stmt) arg m c Hready) as H.
  cbv zeta in H. fold a in H. fold (stack_of m) in H. fold r in H.
  set (M := env (<[a:=[]]> (heap m)) (S a) (drain m)) in *.
  destruct (served_frame c r (<[a:=[]]> (heap m)) (S a) m) as (F1 & F2 & F3 & F4 & F5).
  fold M in F1, F2, F3, F4, F5.
  pose proof (drain_idle c m Ht) as Hi.
  eexists. split.
  - rewrite H. do 2 f_equal. f_equal.
    change (heap (set_sent ?s ?x)) with (heap x).
    rewrite (serve_sql_heap c r M stmt db rows a []); [reflexivity..|exact Hx|].
    unfold M. cbn. by rewrite lookup_insert_eq.
  - change (exception (set_sent ?s ?x)) with (exception x).
    change (reqs (set_sent ?s ?x)) with (reqs x).
    change (thread (set_sent ?s ?x)) with (thread x).
    change (autocommit (set_sent ?s ?x)) with (autocommit x).
    change (_outer_stack (set_sent ?s ?x)) with (_outer_stack x).
    change (filename (set_sent ?s ?x)) with (filename x).
    split_and!; try reflexivity; try congruence.
    by erewrite serve_sql_thread.
Qed.

Lemma select_ready m c stmt arg db rows :
  ready m = Some c ->
  cursor_execute (working c) stmt (default [] arg) = inr (db, rows) ->
  exists m',
    select (Sql stmt) arg m = (Ret rows, m')
    /\ reqs m' = []
    /\ leaves m m' (mkConn (conn_path c) db false)
         [mkRequest (Sql stmt) (default [] arg) (Some (next_addr m)) (stack_of m)].
Proof.
  intros Hready Hx.
  destruct (waited_sql m c stmt arg db rows Hready Hx)
    as (m3 & Hw & He & Hq & Ht & Hs & Ha & Ho & Hf).
  eexists. split; [|split].
  - unfold select. rewrite (bind_Ret _ _ _ _ _ Hw). cbn [fst snd].
    rewrite select_loop_rows by exact He. reflexivity.
  - exact Hq.
  - unfold leaves. split_and!; try assumption.
    apply ready_idle; assumption.
Qed.

Lemma select_one_ready m c stmt arg db rows :
  ready m = Some c ->
  cursor_execute (working c) stmt (default [] arg) = inr (db, rows) ->
  exists m',
    select_one (Sql stmt) arg m = (Ret (head rows), m')
    /\ reqs m' = []
    /\ leaves m m' (mkConn (conn_path c) db false)
         [mkRequest (Sql stmt) (default [] arg) (Some (next_addr m)) (stack_of m)].
Proof.
  intros Hready Hx.
  destruct (waited_sql m c stmt arg db rows Hready Hx)
    as (m3 & Hw & He & Hq & Ht & Hs & Ha & Ho & Hf).
  eexists. split; [|split].
  - unfold select_one. rewrite (bind_Ret _ _ _ _ _ Hw). cbn [fst snd].
    destruct rows as [|row rows]; cbn [map app head];
      unfold bind, check_raise_error; rewrite He; reflexivity.
  - exact Hq.
  - unfold leaves. split_and!; try assumption.
    apply ready_idle; assumption.
Qed.

Lemma commit_ready m c :
  ready m = Some c ->
  exists m',
    commit true m = (Ret tt, m')
    /\ reqs m' = []
    /\ leaves m m' c
         [mkRequest _REQUEST_COMMIT [] (Some (next_addr m)) (stack_of m)].
Proof.
  intros Hready. pose proof (ready_Some _ _ Hready) as (He & Hq & Ht).
  pose proof (submit_and_wait_ready _REQUEST_COMMIT None m c Hready) as H.
  cbv zeta in H. fold (stack_of m) in H. cbn [default] in H.
  set (a := next_addr m) in *.
  set (r := mkRequest _REQUEST_COMMIT [] (Some a) (stack_of m)) in *.
  set (M := env (<[a:=[]]> (heap m)) (S a) (drain m)) in *.
  destruct (served_frame c r (<[a:=[]]> (heap m)) (S a) m) as (F1 & F2 & F3 & F4 & F5).
  fold M in F1, F2, F3, F4, F5.
  pose proof (drain_idle c m Ht) as Hi.
  assert (heap (serve c r M) !! a = Some [_RESPONSE_NO_MORE]) as Hh.
  { unfold serve. cbn [req r res_ref].
    rewrite (put_heap_live a _RESPONSE_NO_MORE []); [reflexivity|].
    unfold M. cbn. by rewrite lookup_insert_eq. }
  assert (thread (serve c r M) = Running c) as Hth.
  { unfold serve. cbn [req r]. rewrite put_thread. exact Ht. }
  eexists. split; [|split].
  - unfold commit, select_one.
    rewrite (bind_Ret _ _ m None (drop_queue a (set_sent (sent m ++ [r]) (serve c r M))));
      [reflexivity|].
    rewrite (bind_Ret _ _ _ _ _ H).
    change (heap (set_sent ?s ?x)) with (heap x). rewrite Hh. cbn [default fst snd].
    unfold bind, check_raise_error.
    change (exception (set_sent ?s ?x)) with (exception x).
    rewrite F1, He. reflexivity.
  - transitivity (reqs (serve c r M)); [reflexivity|congruence].
  - unfold leaves. split_and!; try reflexivity.
    + apply ready_idle.
      * transitivity (reqs (serve c r M)); [reflexivity|congruence].
      * exact Hth.
      * transitivity (exception (serve c r M)); [reflexivity|congruence].
    + transitivity (autocommit (serve c r M)); [reflexivity|congruence].
    + transitivity (_outer_stack (serve c r M)); [reflexivity|congruence].
    + transitivity (filename (serve c r M)); [reflexivity|congruence].
Qed.

Lemma leaves_trans m m1 m2 c1 c2 n1 n2 :
  leaves m m1 c1 n1 -> leaves m1 m2 c2 n2 -> leaves m m2 c2 (n1 ++ n2).
Proof.
  intros (H1 & H2 & H3 & H4 & H5) (G1 & G2 & G3 & G4 & G5).
  unfold leaves. split_and!; try congruence.
  rewrite G2, H2. by rewrite app_assoc.
Qed.

Lemma leaves_stack m m' c n : leaves m m' c n -> stack_of m' = stack_of m.
Proof. intros (_ & _ & _ & H & _). unfold stack_of. by rewrite H. Qed.

Lemma schema_is_reserved name :
  main_schema name || temp_schema name = true -> reserved name = true.
Proof.
  unfold main_schema, temp_schema, reserved.
  intros [H|H]%orb_prop; apply bool_decide_eq_true in H;
    repeat (apply elem_of_cons in H as [->|H]; [reflexivity|]);
    by apply elem_of_nil in H.
Qed.

Lemma table_rows_Some (db : DB) name t :
  table_rows db name = Some t ->
  reserved name = false /\ has_nul name = false
  /\ exists declared, db !! fold_case name = Some (Tbl declared t).
Proof.
  unfold table_rows, find_table.
  destruct (reserved name); [done|]. destruct (has_nul name); [done|]. cbn.
  destruct (db !! fold_case name) as [[declared rows|]|]; try done.
  intros [= <-]. eauto.
Qed.

Lemma table_rows_insert (db : DB) name declared t :
  reserved name = false -> has_nul name = false ->
  table_rows (<[fold_case name := Tbl declared t]> db) name = Some t.
Proof.
  intros Hr Hn. unfold table_rows, find_table. rewrite Hr, Hn. cbn.
  by rewrite lookup_insert_eq.
Qed.

(** The engine on a table that exists, for a statement on its rows with the
    right number of parameters, all of them bindable. *)
Lemma cursor_execute_on_table (db : DB) s arg t :
  table_rows db (table_of_stmt s) = Some t ->
  is_ddl s = false ->
  length arg = placeholders s ->
  forallb bindable arg = true ->
  exists db',
    cursor_execute db s arg = inr (db', snd (run_stmt s arg t))
    /\ table_rows db' (table_of_stmt s) = Some (fst (run_stmt s arg t)).
Proof.
  intros Ht Hd Hn Hb.
  destruct (table_rows_Some _ _ _ Ht) as (Hr & Hnul & declared & Hl).
  assert (main_schema (table_of_stmt s) || temp_schema (table_of_stmt s) = false) as Hs.
  { destruct (main_schema _ || temp_schema _) eqn:E; [|done].
    apply schema_is_reserved in E. congruence. }
  assert (find_table db (table_of_stmt s) = Some (declared, t)) as Hf
    by (unfold find_table; by rewrite Hr, Hnul, Hl).
  exists (<[fold_case (table_of_stmt s) := Tbl declared (fst (run_stmt s arg t))]> db).
  split; [|by apply table_rows_insert].
  unfold cursor_execute, prepare, bind_parameters.
  rewrite Hn, Nat.eqb_refl, Hb. cbn [negb].
  destruct s; try discriminate Hd; cbn [text_has_nul];
    rewrite Hnul, Hs, Hf; by destruct (run_stmt _ arg t).
Qed.

Lemma cursor_execute_unbound (db : DB) s arg t :
  table_rows db (table_of_stmt s) = Some t ->
  is_ddl s = false ->
  length arg = placeholders s ->
  forallb bindable arg = false ->
  cursor_execute db s arg = inl OverflowError.
Proof.
  intros Ht Hd Hn Hb.
  destruct (table_rows_Some _ _ _ Ht) as (Hr & Hnul & declared & Hl).
  assert (main_schema (table_of_stmt s) || temp_schema (table_of_stmt s) = false) as Hs.
  { destruct (main_schema _ || temp_schema _) eqn:E; [|done].
    apply schema_is_reserved in E. congruence. }
  assert (find_table db (table_of_stmt s) = Some (declared, t)) as Hf
    by (unfold find_table; by rewrite Hr, Hnul, Hl).
  unfold cursor_execute, prepare, bind_parameters.
  rewrite Hn, Nat.eqb_refl, Hb. cbn [negb].
  destruct s; try discriminate Hd; cbn [text_has_nul];
    by rewrite Hnul, Hs, Hf.
Qed.

(** [executemany] on a ready state: the statements are applied in order. *)
Lemma execute_each_ready stmt items : forall m c t,
  ready m = Some c ->
  table_rows (working c) (table_of_stmt stmt) = Some t ->
  is_ddl stmt = false ->
  Forall (fun item => length item = placeholders stmt
                      /\ forallb bindable item = true) items ->
  exists m' c',
    execute_each (Sql stmt) items m = (Ret tt, m')
    /\ leaves m m' c'
         (map (fun item => mkRequest (Sql stmt) item None (stack_of m)) items)
    /\ table_rows (working c') (table_of_stmt stmt)
       = Some (foldl (fun t item => fst (run_stmt stmt item t)) t items).
Proof.
  induction items as [|item items IH]; intros m c t Hr Hw Hd Hn.
  - exists m, c. split_and!; try done.
    unfold leaves. split_and!; try done. by rewrite app_nil_r.
  - apply Forall_cons in Hn as [[Hn1 Hb1] Hn].
    destruct (cursor_execute_on_table _ _ _ _ Hw Hd Hn1 Hb1) as (db' & Hx & Hw').
    destruct (execute_sql_ready m c stmt (Some item) _ _ Hr Hx) as (m1 & H1 & L1).
    destruct (IH m1 _ (fst (run_stmt stmt item t)) (proj1 L1)) as (m2 & c2 & H2 & L2 & W2);
      [exact Hw'|exact Hd|exact Hn|].
    exists m2, c2. split_and!.
    + cbn [execute_each]. by rewrite (bind_Ret _ _ _ _ _ H1).
    + rewrite (leaves_stack _ _ _ _ L1) in L2.
      exact (leaves_trans _ _ _ _ _ _ _ L1 L2).
    + exact W2.
Qed.

Lemma executemany_ready stmt items m c t :
  ready m = Some c ->
  table_rows (working c) (table_of_stmt stmt) = Some t ->
  is_ddl stmt = false ->
  Forall (fun item => length item = placeholders stmt
                      /\ forallb bindable item = true) items ->
  exists m' c',
    executemany (Sql stmt) items m = (Ret tt, m')
    /\ leaves m m' c'
         (map (fun item => mkRequest (Sql stmt) item None (stack_of m)) items)
    /\ table_rows (working c') (table_of_stmt stmt)
       = Some (foldl (fun t item => fst (run_stmt stmt item t)) t items).
Proof.
  intros Hr Hw Hd Hn.
  destruct (execute_each_ready stmt items m c t Hr Hw Hd Hn) as (m' & c' & H & L & W).
  exists m', c'. split_and!; try done.
  unfold executemany. rewrite (bind_Ret _ _ _ _ _ H).
  unfold check_raise_error.
  destruct (ready_Some _ _ (proj1 L)) as (-> & _). reflexivity.
Qed.

Lemma bind_get {K A B : Type} (f : Dict.SqliteDict -> A)
  (k : A -> @Dict.D K B) d :
  bind (Dict.get f) k d = k (f d) d.
Proof. reflexivity. Qed.

Ltac run_get := repeat (rewrite bind_get; cbv beta).
Ltac run_call H := rewrite (bind_Ret _ _ _ _ _ H); cbv beta; run_get.

Section Facade.

Context {K V : Type}.
Variable encode : V -> SqlVal.
Variable decode : SqlVal -> V.
Variable encode_key : K -> string.
Variable decode_key : SqlVal -> K.


Lemma table_state_Some d t :
  table_state d = Some t ->
  Dict.conn d = Dict.conn_object
  /\ exists c, ready (Dict.mt d) = Some c
               /\ table_rows (working c) (sql_identifier (Dict.tablename d)) = Some t.
Proof.
  unfold table_state. destruct (Dict.conn d); [done|].
  destruct (ready (Dict.mt d)) as [c|]; [|done]. eauto.
Qed.

Lemma keeps_trans d d1 d2 t1 t2 rs1 rs2 :
  keeps d d1 t1 rs1 -> keeps d1 d2 t2 rs2 -> keeps d d2 t2 (rs1 ++ rs2).
Proof.
  intros (H1 & H2 & H3 & H4 & n1 & H5 & H6) (G1 & G2 & G3 & G4 & n2 & G5 & G6).
  unfold keeps. split_and!; try congruence.
  - rewrite G2 at 1. rewrite H2. reflexivity.
  - exists (n1 ++ n2). split.
    + rewrite G5, H5. by rewrite app_assoc.
    + rewrite map_app. congruence.
Qed.

Lemma keeps_refl d t : table_state d = Some t -> keeps d d t [].
Proof.
  intros H. unfold keeps. split_and!; try done.
  - by destruct d.
  - exists []. by rewrite app_nil_r.
Qed.

(** A call on the connection that leaves it ready. *)
Lemma on_conn_leaves {A : Type} attr (call : M A) d t a m' c c' new t' :
  table_state d = Some t ->
  ready (Dict.mt d) = Some c ->
  call (Dict.mt d) = (Ret a, m') ->
  leaves (Dict.mt d) m' c' new ->
  table_rows (working c') (sql_identifier (Dict.tablename d)) = Some t' ->
  exists d', @Dict.on_conn K A attr call d = (Ret a, d')
             /\ Dict.mt d' = m'
             /\ keeps d d' t' (map req new).
Proof.
  intros Hs Hr Hc (L1 & L2 & L3 & L4 & L5) Hw.
  apply table_state_Some in Hs as (Hconn & _).
  exists (Dict.set_mt m' d). split; [|split; [reflexivity|]].
  - unfold Dict.on_conn. by rewrite Hconn, Hc.
  - unfold keeps. split_and!; try done.
    + unfold table_state. cbn. rewrite Hconn, L1. exact Hw.
    + exists new. done.
Qed.

Lemma dict_execute d t stmt arg :
  table_state d = Some t ->
  table_of_stmt stmt = sql_identifier (Dict.tablename d) ->
  is_ddl stmt = false ->
  length (default [] arg) = placeholders stmt ->
  forallb bindable (default [] arg) = true ->
  exists d',
    @Dict.on_conn K _ "execute" (execute (Sql stmt) arg None) d = (Ret tt, d')
    /\ keeps d d' (fst (run_stmt stmt (default [] arg) t)) [Sql stmt].
Proof.
  intros Hs Hid Hd Hn Hb.
  pose proof (table_state_Some _ _ Hs) as (Hconn & c & Hr & Hw).
  rewrite <- Hid in Hw.
  destruct (cursor_execute_on_table _ _ _ _ Hw Hd Hn Hb) as (db' & Hx & Hw').
  destruct (execute_sql_ready _ _ _ arg _ _ Hr Hx) as (m' & He & Hl).
  eapply (on_conn_leaves "execute" _ d t tt m' c) in Hl as (d' & Hd' & _ & Hk); eauto.
  cbn [working]. by rewrite <- Hid.
Qed.

Lemma dict_select_one d t stmt arg :
  table_state d = Some t ->
  table_of_stmt stmt = sql_identifier (Dict.tablename d) ->
  is_ddl stmt = false ->
  length (default [] arg) = placeholders stmt ->
  forallb bindable (default [] arg) = true ->
  exists d',
    @Dict.on_conn K _ "select_one" (select_one (Sql stmt) arg) d
    = (Ret (head (snd (run_stmt stmt (default [] arg) t))), d')
    /\ keeps d d' (fst (run_stmt stmt (default [] arg) t)) [Sql stmt]
    /\ reqs (Dict.mt d') = [].
Proof.
  intros Hs Hid Hd Hn Hb.
  pose proof (table_state_Some _ _ Hs) as (Hconn & c & Hr & Hw).
  rewrite <- Hid in Hw.
  destruct (cursor_execute_on_table _ _ _ _ Hw Hd Hn Hb) as (db' & Hx & Hw').
  destruct (select_one_ready _ _ _ arg _ _ Hr Hx) as (m' & He & Hq & Hl).
  eapply (on_conn_leaves "select_one" _ d t _ m' c) in Hl as (d' & Hd' & Hm & Hk); eauto.
  - exists d'. split_and!; try done. by rewrite Hm.
  - cbn [working]. by rewrite <- Hid.
Qed.

Lemma dict_select d t stmt arg :
  table_state d = Some t ->
  table_of_stmt stmt = sql_identifier (Dict.tablename d) ->
  is_ddl stmt = false ->
  length (default [] arg) = placeholders stmt ->
  forallb bindable (default [] arg) = true ->
  exists d',
    @Dict.on_conn K _ "select" (select (Sql stmt) arg) d
    = (Ret (snd (run_stmt stmt (default [] arg) t)), d')
    /\ keeps d d' (fst (run_stmt stmt (default [] arg) t)) [Sql stmt]
    /\ reqs (Dict.mt d') = [].
Proof.
  intros Hs Hid Hd Hn Hb.
  pose proof (table_state_Some _ _ Hs) as (Hconn & c & Hr & Hw).
  rewrite <- Hid in Hw.
  destruct (cursor_execute_on_table _ _ _ _ Hw Hd Hn Hb) as (db' & Hx & Hw').
  destruct (select_ready _ _ _ arg _ _ Hr Hx) as (m' & He & Hq & Hl).
  eapply (on_conn_leaves "select" _ d t _ m' c) in Hl as (d' & Hd' & Hm & Hk); eauto.
  - exists d'. split_and!; try done. by rewrite Hm.
  - cbn [working]. by rewrite <- Hid.
Qed.

Lemma dict_conn_commit d t :
  table_state d = Some t ->
  exists d',
    @Dict.on_conn K _ "commit" (commit true) d = (Ret tt, d')
    /\ keeps d d' t [_REQUEST_COMMIT]
    /\ reqs (Dict.mt d') = [].
Proof.
  intros Hs.
  pose proof (table_state_Some _ _ Hs) as (Hconn & c & Hr & Hw).
  destruct (commit_ready _ _ Hr) as (m' & He & Hq & Hl).
  eapply (on_conn_leaves "commit" _ d t _ m' c) in Hl as (d' & Hd & Hm & Hk); eauto.
  exists d'. split_and!; try done. by rewrite Hm.
Qed.

Lemma dict_commit d t blocking :
  table_state d = Some t ->
  exists d',
    @Dict.commit K blocking d = (Ret tt, d')
    /\ keeps d d' t [_REQUEST_COMMIT]
    /\ reqs (Dict.mt d') = [].
Proof.
  intros Hs. pose proof (table_state_Some _ _ Hs) as (Hconn & _).
  unfold Dict.commit. rewrite Hconn. by apply dict_conn_commit.
Qed.

End Facade.

Section Methods.

Context {K V : Type}.
Variable encode : V -> SqlVal.
Variable decode : SqlVal -> V.
Variable encode_key : K -> string.
Variable decode_key : SqlVal -> K.

Lemma keeps_attrs d d' t rs :
  keeps d d' t rs ->
  Dict.flag d' = Dict.flag d /\ Dict.tablename d' = Dict.tablename d
  /\ Dict.autocommit d' = Dict.autocommit d /\ Dict.conn d' = Dict.conn d
  /\ Dict.in_temp d' = Dict.in_temp d /\ Dict.filename d' = Dict.filename d.
Proof. intros (_ & -> & _). done. Qed.

(** [if self.autocommit: self.commit()]. *)
Lemma autocommit_tail d t :
  table_state d = Some t ->
  exists d',
    (if Dict.autocommit d then @Dict.commit K true else ret tt) d = (Ret tt, d')
    /\ keeps d d' t (if Dict.autocommit d then [_REQUEST_COMMIT] else []).
Proof.
  intros Hs. destruct (Dict.autocommit d).
  - destruct (dict_commit (K:=K) d t true Hs) as (d' & H1 & H2 & _). eauto.
  - exists d. split; [reflexivity|]. by apply keeps_refl.
Qed.

Lemma setitem_spec d t k v :
  table_state d = Some t ->
  Dict.flag d <> "r" ->
  bindable (encode v) = true ->
  exists d',
    Dict.__setitem__ encode encode_key k v d = (Ret tt, d')
    /\ keeps d d' (replace_into (SqlText (encode_key k)) (encode v) t)
         (Sql (REPLACE_INTO (Dict.tablename d))
          :: if Dict.autocommit d then [_REQUEST_COMMIT] else []).
Proof.
  intros Hs Hf Hb. unfold Dict.__setitem__. run_get.
  rewrite bool_decide_eq_false_2 by exact Hf. run_get.
  destruct (dict_execute (K:=K) d t (Dict.ADD_ITEM (Dict.tablename d))
              (Some [SqlText (encode_key k); encode v]) Hs eq_refl eq_refl eq_refl)
    as (d1 & H1 & K1); [cbn; by rewrite Hb|].
  run_call H1.
  cbn [default from_option id run_stmt Dict.ADD_ITEM fst] in K1.
  destruct (autocommit_tail d1 _ (proj1 K1)) as (d2 & H2 & K2).
  exists d2. split; [exact H2|].
  destruct (keeps_attrs _ _ _ _ K1) as (_ & _ & Ha & _). rewrite Ha in K2.
  exact (keeps_trans _ _ _ _ _ _ _ K1 K2).
Qed.

Lemma contains_spec d t k :
  table_state d = Some t ->
  exists d',
    Dict.__contains__ encode_key k d
    = (Ret (match where_key (SqlText (encode_key k)) t with [] => false | _ => true end), d')
    /\ keeps d d' t [Sql (SELECT_1_WHERE_key (Dict.tablename d))]
    /\ reqs (Dict.mt d') = [].
Proof.
  intros Hs. unfold Dict.__contains__. run_get.
  destruct (dict_select_one (K:=K) d t (Dict.HAS_ITEM (Dict.tablename d))
              (Some [SqlText (encode_key k)]) Hs eq_refl eq_refl eq_refl eq_refl)
    as (d1 & H1 & K1 & Q1).
  run_call H1.
  cbn [default from_option id run_stmt Dict.HAS_ITEM fst snd] in *.
  exists d1. split_and!; try done. unfold ret. do 2 f_equal.
  by destruct (where_key _ t).
Qed.

Lemma getitem_spec d t k :
  table_state d = Some t ->
  exists d',
    Dict.__getitem__ decode encode_key k d
    = (match where_key (SqlText (encode_key k)) t with
       | [] => Raise (Dict.KeyError k)
       | r :: _ => Ret (decode (value r))
       end, d')
    /\ keeps d d' t [Sql (SELECT_value_WHERE_key (Dict.tablename d))]
    /\ reqs (Dict.mt d') = [].
Proof.
  intros Hs. unfold Dict.__getitem__. run_get.
  destruct (dict_select_one (K:=K) d t (Dict.GET_ITEM (Dict.tablename d))
              (Some [SqlText (encode_key k)]) Hs eq_refl eq_refl eq_refl eq_refl)
    as (d1 & H1 & K1 & Q1).
  run_call H1.
  cbn [default from_option id run_stmt Dict.GET_ITEM fst snd] in *.
  exists d1. split_and!; try done.
  by destruct (where_key _ t).
Qed.

Lemma delitem_spec d t k :
  table_state d = Some t ->
  Dict.flag d <> "r" ->
  exists d',
    Dict.__delitem__ encode_key k d
    = (match where_key (SqlText (encode_key k)) t with
       | [] => Raise (Dict.KeyError k)
       | _ => Ret tt
       end, d')
    /\ keeps d d'
         (match where_key (SqlText (encode_key k)) t with
          | [] => t
          | _ => delete_key (SqlText (encode_key k)) t
          end)
         (Sql (SELECT_1_WHERE_key (Dict.tablename d))
          :: match where_key (SqlText (encode_key k)) t with
             | [] => []
             | _ => Sql (DELETE_WHERE_key (Dict.tablename d))
                    :: if Dict.autocommit d then [_REQUEST_COMMIT] else []
             end).
Proof.
  intros Hs Hf. unfold Dict.__delitem__. run_get.
  rewrite bool_decide_eq_false_2 by exact Hf. run_get.
  destruct (contains_spec d t k Hs) as (d1 & H1 & K1 & _).
  run_call H1.
  destruct (keeps_attrs _ _ _ _ K1) as (_ & Ht & Ha & _).
  destruct (where_key (SqlText (encode_key k)) t) as [|r rs] eqn:E; cbn [negb].
  - exists d1. split; [reflexivity|exact K1].
  - run_get.
    destruct (dict_execute (K:=K) d1 t (Dict.DEL_ITEM (Dict.tablename d1))
                (Some [SqlText (encode_key k)]) (proj1 K1) eq_refl eq_refl eq_refl eq_refl)
      as (d2 & H2 & K2).
    run_call H2.
    cbn [default from_option id run_stmt Dict.DEL_ITEM fst] in K2.
    destruct (autocommit_tail d2 _ (proj1 K2)) as (d3 & H3 & K3).
    exists d3. split; [exact H3|].
    destruct (keeps_attrs _ _ _ _ K2) as (_ & _ & Ha2 & _).
    rewrite Ha2, Ha in K3. rewrite Ht in K2.
    exact (keeps_trans _ _ _ _ _ _ _ K1 (keeps_trans _ _ _ _ _ _ _ K2 K3)).
Qed.

End Methods.

Section MoreMethods.

Context {K V : Type}.
Variable encode : V -> SqlVal.
Variable decode : SqlVal -> V.
Variable encode_key : K -> string.
Variable decode_key : SqlVal -> K.

Lemma for_each_keys (t : Table) d :
  Dict.for_each (K:=K) (fun key => let! k := Dict.item0 key in ret (decode_key k))
    (map (fun r => [key r]) t) d
  = (Ret (map (fun r => decode_key (key r)) t), d).
Proof.
  induction t as [|r t IH]; [reflexivity|].
  cbn [map Dict.for_each].
  rewrite (bind_Ret _ _ d (decode_key (key r)) d) by reflexivity.
  by rewrite (bind_Ret _ _ _ _ _ IH).
Qed.

Lemma keys_spec d t :
  table_state d = Some t ->
  exists d',
    Dict.keys decode_key d
    = (Ret (map (fun r => decode_key (key r)) (order_by_rowid t)), d')
    /\ keeps d d' t [Sql (SELECT_key_ORDER_BY_rowid (Dict.tablename d))]
    /\ reqs (Dict.mt d') = [].
Proof.
  intros Hs. unfold Dict.keys, Dict.iterkeys. run_get.
  destruct (dict_select (K:=K) d t (Dict.GET_KEYS (Dict.tablename d)) None
              Hs eq_refl eq_refl eq_refl eq_refl) as (d1 & H1 & K1 & Q1).
  run_call H1.
  cbn [default from_option id run_stmt Dict.GET_KEYS fst snd] in *.
  exists d1. split_and!; try done. apply for_each_keys.
Qed.

Lemma len_spec d t :
  table_state d = Some t ->
  exists d',
    Dict.__len__ (K:=K) d = (Ret (SqlInt (Z.of_nat (length t))), d')
    /\ keeps d d' t [Sql (SELECT_COUNT (Dict.tablename d))]
    /\ reqs (Dict.mt d') = [].
Proof.
  intros Hs. unfold Dict.__len__. run_get.
  destruct (dict_select_one (K:=K) d t (Dict.GET_LEN (Dict.tablename d)) None
              Hs eq_refl eq_refl eq_refl eq_refl) as (d1 & H1 & K1 & Q1).
  run_call H1.
  cbn [default from_option id run_stmt Dict.GET_LEN fst snd] in *.
  exists d1. split_and!; done.
Qed.

Lemma bool_spec d t :
  table_state d = Some t ->
  exists d',
    Dict.__bool__ (K:=K) d
    = (Ret (match max_rowid t with Some _ => true | None => false end), d')
    /\ keeps d d' t [Sql (SELECT_MAX_ROWID (Dict.tablename d))]
    /\ reqs (Dict.mt d') = [].
Proof.
  intros Hs. unfold Dict.__bool__. run_get.
  destruct (dict_select_one (K:=K) d t (Dict.GET_MAX (Dict.tablename d)) None
              Hs eq_refl eq_refl eq_refl eq_refl) as (d1 & H1 & K1 & Q1).
  run_call H1.
  cbn [default from_option id run_stmt Dict.GET_MAX fst snd] in *.
  exists d1. split_and!; try done.
  cbn. by destruct (max_rowid t).
Qed.

Lemma update_items_spec d t items :
  table_state d = Some t ->
  Dict.flag d <> "r" ->
  Forall (fun kv => bindable (encode (snd kv)) = true) items ->
  exists d',
    Dict.update_items encode encode_key items d = (Ret tt, d')
    /\ keeps d d' (replace_all encode encode_key items t)
         (map (fun _ => Sql (REPLACE_INTO (Dict.tablename d))) items).
Proof.
  intros Hs Hf Hb. unfold Dict.update_items. run_get.
  rewrite bool_decide_eq_false_2 by exact Hf. run_get.
  pose proof (table_state_Some _ _ Hs) as (Hconn & c & Hr & Hw).
  set (stmt := Dict.UPDATE_ITEMS (Dict.tablename d)).
  set (tuples := map (fun kv : K * V => [SqlText (encode_key (fst kv)); encode (snd kv)]) items).
  destruct (executemany_ready stmt tuples (Dict.mt d) c t Hr Hw eq_refl)
    as (m' & c' & H & L & W).
  { unfold tuples. apply Forall_forall. intros x Hx.
    apply list_elem_of_In, in_map_iff in Hx as (kv & <- & Hkv).
    split; [reflexivity|]. cbn.
    apply list_elem_of_In in Hkv.
    by rewrite (proj1 (Forall_forall _ _) Hb kv Hkv). }
  destruct (on_conn_leaves (K:=K) "executemany" _ d t tt m' c c' _
              (replace_all encode encode_key items t) Hs Hr H L) as (d' & Hd & _ & Hk).
  { change (table_of_stmt stmt) with (sql_identifier (Dict.tablename d)) in W.
    rewrite W. f_equal. unfold replace_all, tuples. clear.
    revert t. induction items as [|kv items IH]; intros t; [reflexivity|].
    cbn [map foldl]. rewrite IH. reflexivity. }
  run_call Hd. exists d'. split; [reflexivity|].
  rewrite map_map in Hk. unfold tuples in Hk. rewrite map_map in Hk. exact Hk.
Qed.

Lemma clear_spec d t :
  table_state d = Some t ->
  Dict.flag d <> "r" ->
  exists d',
    Dict.clear (K:=K) d = (Ret tt, d')
    /\ keeps d d' []
         [_REQUEST_COMMIT; Sql (DELETE_FROM (Dict.tablename d)); _REQUEST_COMMIT]
    /\ reqs (Dict.mt d') = [].
Proof.
  intros Hs Hf. unfold Dict.clear. run_get.
  rewrite bool_decide_eq_false_2 by exact Hf. run_get.
  destruct (dict_conn_commit (K:=K) d t Hs) as (d1 & H1 & K1 & _).
  run_call H1.
  destruct (keeps_attrs _ _ _ _ K1) as (_ & Ht & _).
  destruct (dict_execute (K:=K) d1 t (Dict.CLEAR_ALL (Dict.tablename d)) None
              (proj1 K1)) as (d2 & H2 & K2); [by rewrite Ht|reflexivity..|].
  run_call H2.
  cbn [default from_option id run_stmt Dict.CLEAR_ALL fst] in K2.
  destruct (dict_conn_commit (K:=K) d2 [] (proj1 K2)) as (d3 & H3 & K3 & Q3).
  exists d3. split_and!; try done.
  exact (keeps_trans _ _ _ _ _ _ _ K1 (keeps_trans _ _ _ _ _ _ _ K2 K3)).
Qed.

End MoreMethods.

(* ===================================================================== *)
(** ** The façade *)
(* ===================================================================== *)

Section Claims.

Context {K V : Type}.
Variable encode : V -> SqlVal.
Variable decode : SqlVal -> V.
Variable encode_key : K -> string.
Variable decode_key : SqlVal -> K.

Lemma update_spec d t items kwds :
  table_state d = Some t ->
  Dict.flag d <> "r" ->
  Forall (fun kv => bindable (encode (snd kv)) = true) items ->
  Forall (fun kv => bindable (encode (snd kv)) = true) kwds ->
  exists d' rs,
    Dict.update encode encode_key items kwds d = (Ret tt, d')
    /\ keeps d d' (replace_all encode encode_key kwds (replace_all encode encode_key items t)) rs.
Proof.
  intros Hs Hf Hbi Hbk. unfold Dict.update.
  destruct (update_items_spec encode encode_key d t items Hs Hf Hbi) as (d1 & H1 & K1).
  run_call H1.
  destruct (keeps_attrs _ _ _ _ K1) as (Hf1 & _).
  assert (exists d2 rs2,
    (match kwds with
     | [] => ret tt
     | _ :: _ =>
         let! _ := Dict.update_items encode encode_key kwds in
         let! ac := Dict.get Dict.autocommit in
         if ac then Dict.commit true else ret tt
     end) d1 = (Ret tt, d2)
    /\ keeps d1 d2 (replace_all encode encode_key kwds (replace_all encode encode_key items t)) rs2)
    as (d2 & rs2 & H2 & K2).
  { destruct kwds as [|kw kwds].
    - exists d1, []. split; [reflexivity|]. apply keeps_refl, K1.
    - destruct (update_items_spec encode encode_key d1 _ (kw :: kwds) (proj1 K1))
        as (d2 & H2 & K2); [congruence|exact Hbk|].
      run_call H2.
      destruct (autocommit_tail (K:=K) d2 _ (proj1 K2)) as (d3 & H3 & K3).
      exists d3. eexists. split; [exact H3|].
      exact (keeps_trans _ _ _ _ _ _ _ K2 K3). }
  run_call H2.
  destruct (autocommit_tail (K:=K) d2 _ (proj1 K2)) as (d3 & H3 & K3).
  exists d3. eexists. split; [exact H3|].
  exact (keeps_trans _ _ _ _ _ _ _ K1 (keeps_trans _ _ _ _ _ _ _ K2 K3)).
Qed.

(** C4. On a handle that is not read-only and whose table exists, assigning
    [value] to [key] and then reading [key] returns [value], for hooks with
    [decode (encode value) = value] and an encoded value that SQLite binds
    (an integer within 64 bits, or no integer): [REPLACE INTO] leaves one row
    under the encoded key and the lookup decodes it. *)
Theorem set_then_get_round_trip (d : Dict.SqliteDict) (t : Table) (k : K) (v : V) :
  table_state d = Some t ->
  Dict.flag d <> "r" ->
  decode (encode v) = v ->
  bindable (encode v) = true ->
  exists d1 d2,
    Dict.__setitem__ encode encode_key k v d = (Ret tt, d1)
    /\ Dict.__getitem__ decode encode_key k d1 = (Ret v, d2).
Proof.
  intros Hs Hf Hrt Hb.
  destruct (setitem_spec encode encode_key d t k v Hs Hf Hb) as (d1 & H1 & K1).
  destruct (getitem_spec decode encode_key d1 _ k (proj1 K1)) as (d2 & H2 & _).
  exists d1, d2. split; [exact H1|].
  rewrite H2, where_replace_into. cbn [value]. by rewrite Hrt.
Qed.

(** C8. On a handle that is not read-only, [clear] puts on the queue exactly a
    commit request, the delete-all statement and a commit request, in that
    order; and after a bulk update followed by [clear], [__len__] returns 0
    and [__bool__] returns [False], whatever the pairs, provided SQLite binds
    their encoded values (integers within 64 bits). *)
Theorem clear_commits_deletes_commits (d : Dict.SqliteDict) (t : Table)
  (items kwds : list (K * V)) :
  table_state d = Some t ->
  Dict.flag d <> "r" ->
  (exists d' new,
      Dict.clear (K:=K) d = (Ret tt, d')
      /\ sent (Dict.mt d') = sent (Dict.mt d) ++ new
      /\ map req new
         = [_REQUEST_COMMIT; Sql (DELETE_FROM (Dict.tablename d)); _REQUEST_COMMIT])
  /\ (Forall (fun kv => bindable (encode (snd kv)) = true) (items ++ kwds) ->
      exists d1 d2 d3 d4,
        Dict.update encode encode_key items kwds d = (Ret tt, d1)
        /\ Dict.clear (K:=K) d1 = (Ret tt, d2)
        /\ Dict.__len__ (K:=K) d2 = (Ret (SqlInt 0), d3)
        /\ Dict.__bool__ (K:=K) d3 = (Ret false, d4)).
Proof.
  intros Hs Hf. split.
  - destruct (clear_spec (K:=K) d t Hs Hf) as (d' & H & (_ & _ & _ & _ & new & Hn & Hr) & _).
    by exists d', new.
  - intros [Hbi Hbk]%Forall_app.
    destruct (update_spec d t items kwds Hs Hf Hbi Hbk) as (d1 & rs & H1 & K1).
    destruct (keeps_attrs _ _ _ _ K1) as (Hf1 & _).
    destruct (clear_spec (K:=K) d1 _ (proj1 K1)) as (d2 & H2 & K2 & _); [congruence|].
    destruct (len_spec (K:=K) d2 _ (proj1 K2)) as (d3 & H3 & K3 & _).
    destruct (bool_spec (K:=K) d3 _ (proj1 K3)) as (d4 & H4 & _).
    by exists d1, d2, d3, d4.
Qed.

(** C6. For a key with no row: [__getitem__] raises [KeyError] and
    [__contains__] returns [False], whatever the flag; on a handle that is not
    read-only [__delitem__] sends the containment query, and nothing else,
    and raises [KeyError], the table unchanged. For a key with a row, on a
    handle that is not read-only, [__delitem__] takes exactly that row out.
    On a read-only handle [__delitem__] raises the permission error before any
    containment check. *)
Theorem absent_key_not_found (d : Dict.SqliteDict) (t : Table) (k : K) :
  table_state d = Some t ->
  well_formed t ->
  (SqlText (encode_key k) ∉ map key t ->
     (exists d', Dict.__getitem__ decode encode_key k d = (Raise (Dict.KeyError k), d')
                 /\ table_state d' = Some t)
     /\ (exists d', Dict.__contains__ encode_key k d = (Ret false, d')
                    /\ table_state d' = Some t)
     /\ (Dict.flag d <> "r" ->
         exists d' new,
           Dict.__delitem__ encode_key k d = (Raise (Dict.KeyError k), d')
           /\ table_state d' = Some t
           /\ sent (Dict.mt d') = sent (Dict.mt d) ++ new
           /\ map req new = [Sql (SELECT_1_WHERE_key (Dict.tablename d))]))
  /\ (forall r, r ∈ t -> key r = SqlText (encode_key k) ->
      Dict.flag d <> "r" ->
      exists d' l1 l2 new,
        Dict.__delitem__ encode_key k d = (Ret tt, d')
        /\ t = l1 ++ r :: l2
        /\ table_state d' = Some (l1 ++ l2)
        /\ sent (Dict.mt d') = sent (Dict.mt d) ++ new
        /\ map req new
           = Sql (SELECT_1_WHERE_key (Dict.tablename d))
             :: Sql (DELETE_WHERE_key (Dict.tablename d))
             :: (if Dict.autocommit d then [_REQUEST_COMMIT] else []))
  /\ (Dict.flag d = "r" ->
      Dict.__delitem__ encode_key k d
      = (Raise (Dict.Exc (RuntimeError Refusing_to_delete)), d)).
Proof.
  intros Hs (Hsorted & Hnd & Hnn). split_and!.
  - intros Habs%where_key_absent. split_and!.
    + destruct (getitem_spec decode encode_key d t k Hs) as (d' & H & K1 & _).
      rewrite Habs in H. exists d'. split; [exact H|apply K1].
    + destruct (contains_spec encode_key d t k Hs) as (d' & H & K1 & _).
      rewrite Habs in H. exists d'. split; [exact H|apply K1].
    + intros Hf.
      destruct (delitem_spec encode_key d t k Hs Hf) as (d' & H & K1).
      rewrite Habs in H, K1.
      destruct K1 as (K1 & _ & _ & _ & new & Hn & Hr). by exists d', new.
  - intros r Hr Hk Hf.
    destruct (delitem_spec encode_key d t k Hs Hf) as (d' & H & K1).
    destruct (where_key (SqlText (encode_key k)) t) as [|r' rest] eqn:E.
    { exfalso. eapply (where_key_present (SqlText (encode_key k)) t); [done| |exact E].
      rewrite <- Hk. apply list_elem_of_fmap. by exists r. }
    destruct (where_key_unique _ _ _ _ Hnd E) as (-> & Hk' & l1 & l2 & Ht & Hd).
    assert (r' = r) as ->.
    { rewrite Ht in Hr, Hnd. rewrite map_app in Hnd. cbn [map] in Hnd.
      apply NoDup_app in Hnd as (_ & Hnd1 & Hnd2). apply NoDup_cons in Hnd2 as [Hnd2 _].
      apply elem_of_app in Hr as [Hr|Hr].
      - exfalso. apply (Hnd1 (key r)); [apply list_elem_of_fmap; by exists r|].
        rewrite Hk, <- Hk'. apply elem_of_cons. by left.
      - apply elem_of_cons in Hr as [->|Hr]; [done|].
        exfalso. apply Hnd2. rewrite Hk', <- Hk. apply list_elem_of_fmap. by exists r. }
    rewrite Hd in K1. destruct K1 as (K1 & _ & _ & _ & new & Hn & Hreq).
    by exists d', l1, l2, new.
  - intros Hf. unfold Dict.__delitem__. run_get. by rewrite bool_decide_eq_true_2.
Qed.

End Claims.

Section Order.

Context {K V : Type} `{EqDecision K}.
Variable encode : V -> SqlVal.
Variable decode : SqlVal -> V.
Variable encode_key : K -> string.
Variable decode_key : SqlVal -> K.

Hypothesis decode_encode_key : forall k, decode_key (SqlText (encode_key k)) = k.

Lemma encode_key_inj k k' : encode_key k = encode_key k' -> k = k'.
Proof.
  intros H. rewrite <- (decode_encode_key k), <- (decode_encode_key k'). by rewrite H.
Qed.

Lemma run_op_spec d t o :
  table_state d = Some t ->
  Dict.flag d <> "r" ->
  bound_op encode o ->
  exists out d',
    Dict.run_op encode encode_key o d = (out, d')
    /\ out <> Blocked
    /\ table_state d' = Some (apply_op encode encode_key t o)
    /\ Dict.flag d' = Dict.flag d.
Proof.
  intros Hs Hf Hb. destruct o as [k v|k]; cbn [Dict.run_op apply_op].
  - destruct (setitem_spec encode encode_key d t k v Hs Hf Hb) as (d' & H & K1).
    exists (Ret tt), d'. split_and!; try done; [apply K1|].
    by destruct (keeps_attrs _ _ _ _ K1) as (-> & _).
  - destruct (delitem_spec encode_key d t k Hs Hf) as (d' & H & K1).
    eexists _, d'. split; [exact H|].
    destruct (keeps_attrs _ _ _ _ K1) as (-> & _).
    destruct (where_key (SqlText (encode_key k)) t) eqn:E; split_and!; try done.
    + rewrite delete_key_absent by exact E. apply K1.
    + apply K1.
Qed.

Lemma run_ops_spec ops : forall d t,
  table_state d = Some t ->
  Dict.flag d <> "r" ->
  Forall (bound_op encode) ops ->
  exists d',
    Dict.run_ops encode encode_key ops d = (Ret tt, d')
    /\ table_state d' = Some (foldl (apply_op encode encode_key) t ops).
Proof.
  induction ops as [|o ops IH]; intros d t Hs Hf Hb.
  - exists d. by split.
  - apply Forall_cons in Hb as [Hb1 Hb].
    destruct (run_op_spec d t o Hs Hf Hb1) as (out & d1 & H1 & Hnb & Hs1 & Hf1).
    destruct (IH d1 _ Hs1) as (d2 & H2 & Hs2); [congruence|exact Hb|].
    exists d2. split; [|exact Hs2].
    cbn [Dict.run_ops]. rewrite H1. by destruct out.
Qed.

Lemma apply_op_well_formed t o : well_formed t -> well_formed (apply_op encode encode_key t o).
Proof.
  destruct o; cbn [apply_op];
    [apply replace_into_well_formed|apply delete_key_well_formed].
Qed.

Lemma keys_of_delete k t :
  encoded encode_key t ->
  keys_of decode_key (delete_key (SqlText (encode_key k)) t) = filter (fun k' => k' <> k) (keys_of decode_key t).
Proof.
  unfold keys_of, delete_key. induction t as [|r t IH]; [reflexivity|].
  intros [(k' & Hk') Henc]%Forall_cons. cbn [map]. rewrite !filter_cons.
  rewrite Hk', sql_eq_text, decode_encode_key.
  destruct (decide (k' = k)) as [->|Hne].
  - rewrite bool_decide_eq_true_2 by done.
    destruct (decide (true = false)); [done|].
    destruct (decide (k <> k)); [done|]. by apply IH.
  - rewrite bool_decide_eq_false_2 by (intros ?%encode_key_inj; done).
    destruct (decide (false = false)); [|done].
    destruct (decide (k' <> k)); [|done].
    cbn [map]. rewrite Hk', decode_encode_key. f_equal. by apply IH.
Qed.

Lemma encoded_delete k t : encoded encode_key t -> encoded encode_key (delete_key k t).
Proof.
  unfold encoded, delete_key. intros H. apply Forall_forall.
  intros x [_ Hx]%list_elem_of_filter. by eapply Forall_forall in H.
Qed.

Lemma apply_op_encoded t o : encoded encode_key t -> encoded encode_key (apply_op encode encode_key t o).
Proof.
  intros H. destruct o as [k v|k]; cbn [apply_op].
  - unfold replace_into. apply Forall_app. split; [by apply encoded_delete|].
    constructor; [|constructor]. by exists k.
  - by apply encoded_delete.
Qed.

Lemma keys_of_apply_op t o :
  encoded encode_key t -> keys_of decode_key (apply_op encode encode_key t o) = apply_op_keys (keys_of decode_key t) o.
Proof.
  intros H. destruct o as [k v|k]; cbn [apply_op apply_op_keys].
  - unfold replace_into. unfold keys_of at 1. rewrite map_app.
    fold (keys_of decode_key (delete_key (SqlText (encode_key k)) t)).
    rewrite keys_of_delete by done. cbn. by rewrite decode_encode_key.
  - by apply keys_of_delete.
Qed.

Lemma table_after_ops ops : forall t,
  well_formed t -> encoded encode_key t ->
  well_formed (foldl (apply_op encode encode_key) t ops) /\ encoded encode_key (foldl (apply_op encode encode_key) t ops)
  /\ keys_of decode_key (foldl (apply_op encode encode_key) t ops) = foldl apply_op_keys (keys_of decode_key t) ops.
Proof.
  induction ops as [|o ops IH]; intros t Hwf Henc; [done|].
  cbn [foldl]. rewrite <- keys_of_apply_op by done.
  apply IH; [by apply apply_op_well_formed|by apply apply_op_encoded].
Qed.

Lemma filter_ne_absent (k : K) (l : list K) :
  k ∉ l -> filter (fun k' => k' <> k) l = l.
Proof.
  induction l as [|x l IH]; [done|].
  intros [Hx Hl]%not_elem_of_cons. rewrite filter_cons_True by done. by rewrite IH.
Qed.

Lemma filter_in_ne (ks : list K) (k : K) (l : list K) :
  k ∉ ks ->
  filter (fun x => x ∈ ks) (filter (fun k' => k' <> k) l) = filter (fun x => x ∈ ks) l.
Proof.
  intros Hk. induction l as [|x l IH]; [done|].
  rewrite (filter_cons (fun k' => k' <> k)). destruct (decide (x <> k)) as [Hx|Hx].
  - rewrite !filter_cons. destruct (decide (x ∈ ks)); by rewrite IH.
  - assert (x = k) as -> by (by destruct (decide (x = k))).
    rewrite (filter_cons_False (fun x => x ∈ ks) k) by done. exact IH.
Qed.

Lemma set_keys_snoc (ops : list (@Dict.Op K V)) o :
  set_keys (ops ++ [o])
  = set_keys ops ++ match o with Dict.op_set k _ => [k] | Dict.op_del _ => [] end.
Proof. unfold set_keys. rewrite omap_app. by destruct o. Qed.

Lemma del_keys_snoc (ops : list (@Dict.Op K V)) o :
  del_keys (ops ++ [o])
  = del_keys ops ++ match o with Dict.op_del k => [k] | Dict.op_set _ _ => [] end.
Proof. unfold del_keys. rewrite omap_app. by destruct o. Qed.

(** Among the keys [ks], the order of the listing is the order of insertion. *)
Lemma keys_after_order (ks : list K) (ops : list (@Dict.Op K V)) :
  NoDup (filter (fun x => x ∈ ks) (set_keys ops)) ->
  Forall (fun k => k ∉ ks) (del_keys ops) ->
  filter (fun x => x ∈ ks) (foldl apply_op_keys [] ops)
  = filter (fun x => x ∈ ks) (set_keys ops).
Proof.
  induction ops as [|o ops IH] using rev_ind; [done|].
  rewrite set_keys_snoc, del_keys_snoc, foldl_app, filter_app.
  intros Hnd [Hdel Hdo]%Forall_app. cbn [foldl].
  apply NoDup_app in Hnd as (Hnd1 & Hnd2 & _).
  specialize (IH Hnd1 Hdel).
  destruct o as [k v|k]; cbn [apply_op_keys].
  - rewrite filter_app. destruct (decide (k ∈ ks)) as [Hin|Hout].
    + rewrite (filter_cons_True _ k []) in * by done. rewrite filter_nil in *.
      assert (k ∉ foldl apply_op_keys [] ops) as Habs.
      { intros Hk. apply (Hnd2 k); [|by left].
        rewrite <- IH. by apply list_elem_of_filter. }
      rewrite filter_ne_absent by done. by rewrite IH.
    + rewrite filter_in_ne by done. by rewrite IH.
  - cbn in Hdo. apply Forall_cons in Hdo as [Hdo _]. rewrite filter_in_ne by done.
    rewrite filter_nil, app_nil_r. exact IH.
Qed.

Lemma keys_after_subset (ops : list (@Dict.Op K V)) x :
  x ∈ foldl apply_op_keys [] ops -> x ∈ set_keys ops.
Proof.
  induction ops as [|o ops IH] using rev_ind; [by intros ?%elem_of_nil|].
  rewrite foldl_app, set_keys_snoc. cbn [foldl]. intros H. apply elem_of_app.
  destruct o as [k v|k]; cbn [apply_op_keys] in H.
  - apply elem_of_app in H as [[_ H]%list_elem_of_filter|H]; [left; by apply IH|by right].
  - apply list_elem_of_filter in H as [_ H]. left; by apply IH.
Qed.

(** A key that is listed was assigned, and not deleted since. *)
Lemma listed_key_was_set (ops : list (@Dict.Op K V)) k :
  k ∈ foldl apply_op_keys [] ops ->
  exists i v, ops !! i = Some (Dict.op_set k v)
              /\ forall j, (i < j)%nat -> ops !! j <> Some (Dict.op_del k).
Proof.
  induction ops as [|o ops IH] using rev_ind; [by intros ?%elem_of_nil|].
  rewrite foldl_app. cbn [foldl]. intros H.
  assert (k ∈ foldl apply_op_keys [] ops -> o <> Dict.op_del k ->
          exists i v, (ops ++ [o]) !! i = Some (Dict.op_set k v)
                      /\ forall j, (i < j)%nat -> (ops ++ [o]) !! j <> Some (Dict.op_del k))
    as Hbefore.
  { intros Hin Ho. destruct (IH Hin) as (i & v & Hi & Hlater).
    exists i, v. split; [by apply lookup_app_l_Some|].
    intros j Hj Hd. apply lookup_app_Some in Hd as [Hd|[Hlen Hd]].
    - by apply (Hlater j).
    - apply list_lookup_singleton_Some in Hd as [_ ->]. done. }
  destruct o as [k' v'|k']; cbn [apply_op_keys] in H.
  - apply elem_of_app in H as [[Hne H]%list_elem_of_filter|H%list_elem_of_singleton].
    + by apply Hbefore.
    + subst k'. exists (length ops), v'. split.
      * rewrite lookup_app_r by lia. by rewrite Nat.sub_diag.
      * intros j Hj Hd. apply lookup_lt_Some in Hd.
        rewrite length_app in Hd. cbn in Hd. lia.
  - apply list_elem_of_filter in H as [Hne H]. apply Hbefore; [done|congruence].
Qed.

Lemma filter_all {A : Type} (P : A -> Prop) `{forall x, Decision (P x)} (l : list A) :
  (forall x, x ∈ l -> P x) -> filter P l = l.
Proof.
  induction l as [|x l IH]; [done|]. intros Hl.
  rewrite filter_cons_True by (apply Hl; by left).
  f_equal. apply IH. intros y Hy. apply Hl. by right.
Qed.

(** C5. From an empty table, let the distinct keys [ks] be assigned once each in
    that order, among assignments and deletions of other keys, every value
    one that SQLite binds. Then [keys()] lists the keys of [ks] in the order
    [ks]; and it is exactly [ks] when every assignment of another key is
    followed by a deletion of that key, and so when no other key is assigned
    at all. *)
Theorem keys_in_insertion_order (d : Dict.SqliteDict)
  (ops : list (@Dict.Op K V)) (ks : list K) :
  table_state d = Some [] ->
  Dict.flag d <> "r" ->
  Forall (bound_op encode) ops ->
  NoDup ks ->
  filter (fun k => k ∈ ks) (set_keys ops) = ks ->
  Forall (fun k => k ∉ ks) (del_keys ops) ->
  exists d1 d2 listed,
    Dict.run_ops encode encode_key ops d = (Ret tt, d1)
    /\ Dict.keys decode_key d1 = (Ret listed, d2)
    /\ filter (fun k => k ∈ ks) listed = ks
    /\ ((forall i k v, ops !! i = Some (Dict.op_set k v) -> k ∉ ks ->
         exists j, (i < j)%nat /\ ops !! j = Some (Dict.op_del k)) ->
        listed = ks).
Proof.
  intros Hs Hf Hb Hnd Hset Hdel.
  destruct (run_ops_spec ops d [] Hs Hf Hb) as (d1 & H1 & Hs1).
  destruct (keys_spec (K:=K) decode_key d1 _ Hs1) as (d2 & H2 & _).
  destruct (table_after_ops ops [] well_formed_nil) as ((Hsorted & _) & _ & Hkeys);
    [constructor|].
  rewrite order_by_rowid_sorted in H2 by exact Hsorted.
  fold (keys_of decode_key (foldl (apply_op encode encode_key) [] ops)) in H2. rewrite Hkeys in H2. cbn [keys_of map] in H2.
  assert (filter (fun k => k ∈ ks) (foldl apply_op_keys [] ops) = ks) as Hfilter.
  { rewrite keys_after_order; [exact Hset| |exact Hdel]. by rewrite Hset. }
  exists d1, d2, (foldl apply_op_keys [] ops). split_and!; try done.
  intros Hgone.
  transitivity (filter (fun k => k ∈ ks) (foldl apply_op_keys [] ops));
    [symmetry|exact Hfilter].
  apply filter_all.
  intros k Hk. destruct (decide (k ∈ ks)) as [Hin|Hout]; [exact Hin|exfalso].
  destruct (listed_key_was_set ops k Hk) as (i & v & Hi & Hlater).
  destruct (Hgone i k v Hi Hout) as (j & Hj & Hd).
  by apply (Hlater j).
Qed.

End Order.

(* ===================================================================== *)
(** ** Failures, sentinels, construction and close *)
(* ===================================================================== *)

Lemma worker_step_exception m m' : worker_step m m' -> exception m' = exception m.
Proof.
  intros Hw. inversion Hw as [m0 conn r q Ht Hq]; subst.
  by rewrite (frame_exception _ _ (serve_frame conn r _)).
Qed.

Lemma step_exception_None m m' : step m m' -> exception m = None -> exception m' = None.
Proof.
  intros [m0 m1 Hw|m0|m0 r|m0|m0 a|m0|m0 p fs' Hp] He; try exact He.
  - by rewrite (worker_step_exception _ _ Hw).
  - unfold check_raise_error. by rewrite He.
Qed.

Lemma steps_exception_None m m' : rtc step m m' -> exception m = None -> exception m' = None.
Proof. induction 1; eauto using step_exception_None. Qed.

Lemma step_thread_ended m m' : step m m' -> ended m -> thread m' = thread m.
Proof.
  intros [m0 m1 Hw|m0|m0 r|m0|m0 a|m0|m0 p fs' Hp] He; try reflexivity.
  - inversion Hw as [m2 conn r q Ht Hq]; subst. unfold ended in He. by rewrite Ht in He.
  - unfold check_raise_error. by destruct (exception m0).
Qed.

Lemma steps_thread_ended m m' : rtc step m m' -> ended m -> thread m' = thread m.
Proof.
  induction 1 as [|m1 m2 m3 H12 H23 IH]; [done|]. intros He.
  pose proof (step_thread_ended _ _ H12 He) as Ht.
  rewrite IH; [done|]. unfold ended. by rewrite Ht.
Qed.

Lemma ended_no_worker_step m m' : ended m -> ~ worker_step m m'.
Proof.
  intros He Hw. inversion Hw as [m0 conn r q Ht Hq]; subst.
  unfold ended in He. by rewrite Ht in He.
Qed.

Lemma serve_failure conn r m stmt exc :
  req r = Sql stmt ->
  cursor_execute (working conn) stmt (arg r) = inl exc ->
  serve conn r m
  = set_thread (Died (NameError "sys") (Some conn))
      (failed stmt conn (log_event (ev_execute stmt (arg r)) m)).
Proof. intros Hr Hx. unfold serve. by rewrite Hr, Hx. Qed.

(** C1, on the code as it is. The handler of a failed statement reads
    [sys.exc_info()], and [sys] is not a name of the module: for a
    fire-and-forget request whose statement fails, the worker's turn ends in
    [NameError], the error slot stays empty, and from then on, whatever the
    callers and the worker do, [check_raise_error] raises nothing: the
    failure is delivered to nobody. *)
Theorem failure_never_reaches_the_error_slot
  (m : SqliteMultithread) (conn : Conn) (r : Request) (q : list Request)
  (stmt : Stmt) (exc : PyExc) :
  thread m = Running conn ->
  reqs m = r :: q ->
  req r = Sql stmt ->
  res_ref r = None ->
  cursor_execute (working conn) stmt (arg r) = inl exc ->
  exception m = None ->
  let m' := serve conn r (set_reqs q m) in
  worker_step m m'
  /\ exception m' = None
  /\ thread m' = Died (NameError "sys") (Some conn)
  /\ forall m'', rtc step m' m'' -> check_raise_error m'' = (Ret tt, m'').
Proof.
  intros Ht Hq Hr Hn Hx He m'.
  assert (worker_step m m') as Hw by (by constructor).
  assert (exception m' = None) as He' by (by rewrite (worker_step_exception _ _ Hw)).
  split_and!; try done.
  - unfold m'. by rewrite (serve_failure _ _ _ _ _ Hr Hx).
  - intros m'' Hsteps. unfold check_raise_error.
    by rewrite (steps_exception_None _ _ Hsteps He').
Qed.

(** C2, on the code as it is. When the statement of a request with a result
    queue fails, the worker thread dies of the [NameError]: the queue does
    not receive the end marker, the requests behind stay on the queue, and
    the worker never serves a request again. *)
Theorem failure_ends_the_worker
  (m : SqliteMultithread) (conn : Conn) (r : Request) (q : list Request)
  (stmt : Stmt) (exc : PyExc) (a : nat) (items : list Item) :
  thread m = Running conn ->
  reqs m = r :: q ->
  req r = Sql stmt ->
  res_ref r = Some a ->
  heap m !! a = Some items ->
  cursor_execute (working conn) stmt (arg r) = inl exc ->
  let m' := serve conn r (set_reqs q m) in
  worker_step m m'
  /\ thread m' = Died (NameError "sys") (Some conn)
  /\ heap m' !! a = Some items
  /\ reqs m' = q
  /\ forall m'', rtc step m' m'' ->
       thread m'' = Died (NameError "sys") (Some conn)
       /\ forall m3, ~ worker_step m'' m3.
Proof.
  intros Ht Hq Hr Ha Hh Hx m'.
  assert (m' = set_thread (Died (NameError "sys") (Some conn))
                 (failed stmt conn
                    (log_event (ev_execute stmt (arg r)) (set_reqs q m)))) as Hm'
    by (unfold m'; by rewrite (serve_failure _ _ _ _ _ Hr Hx)).
  split_and!; try (rewrite Hm'; done).
  - by constructor.
  - intros m'' Hsteps.
    assert (ended m') as He by (rewrite Hm'; done).
    pose proof (steps_thread_ended _ _ Hsteps He) as Ht''.
    rewrite Hm' in Ht''. cbn in Ht''. split; [exact Ht''|].
    intros m3. apply ended_no_worker_step. unfold ended. by rewrite Ht''.
Qed.

(** X6. A consumer of the rows of a statement that fails waits for ever: the worker
    ends before it puts the end marker, so neither [select] nor [select_one]
    returns. *)
Lemma select_of_failing_statement_blocks m c stmt arg exc :
  ready m = Some c ->
  cursor_execute (working c) stmt (default [] arg) = inl exc ->
  fst (select (Sql stmt) arg m) = Blocked
  /\ fst (select_one (Sql stmt) arg m) = Blocked.
Proof.
  intros Hr Hx.
  pose proof (submit_and_wait_ready (Sql stmt) arg m c Hr) as H. cbv zeta in H.
  erewrite serve_failure in H; [|reflexivity|exact Hx].
  cbn [heap set_sent set_thread log_event env set_next_addr set_heap failed
       set_in_transaction] in H.
  rewrite lookup_insert_eq in H. cbn [default from_option id] in H.
  split.
  - unfold select. by rewrite (bind_Ret _ _ _ _ _ H).
  - unfold select_one. by rewrite (bind_Ret _ _ _ _ _ H).
Qed.

(** C9. A worker in its loop that takes a commit request commits and then puts
    the end marker, and nothing else, on the request's queue if it is still
    there, and stays in its loop; one that takes a close request carrying a
    queue reference leaves the loop for good, closes the connection and then
    puts the end marker on that queue if it is still there. *)
Theorem sentinels_are_served
  (m : SqliteMultithread) (conn : Conn) (r : Request) (q : list Request) :
  thread m = Running conn ->
  reqs m = r :: q ->
  let m' := serve conn r (set_reqs q m) in
  worker_step m m'
  /\ (req r = _REQUEST_COMMIT ->
      thread m' = Running conn /\ reqs m' = q
      /\ fs m' = conn_commit (fs m) conn
      /\ match sink_of m r with
         | Some (a, items) =>
             heap m' = <[a := items ++ [_RESPONSE_NO_MORE]]> (heap m)
             /\ trace m' = trace m ++ [ev_commit; ev_put a _RESPONSE_NO_MORE]
         | None => heap m' = heap m /\ trace m' = trace m ++ [ev_commit]
         end)
  /\ (req r = _REQUEST_CLOSE -> forall a, res_ref r = Some a ->
      thread m' = Returned (conn_close conn) /\ reqs m' = q
      /\ closed (conn_close conn) = true
      /\ (forall m'', ~ worker_step m' m'')
      /\ match heap m !! a with
         | Some items =>
             heap m' = <[a := items ++ [_RESPONSE_NO_MORE]]> (heap m)
             /\ trace m' = trace m ++ [ev_close; ev_put a _RESPONSE_NO_MORE]
         | None => heap m' = heap m /\ trace m' = trace m ++ [ev_close]
         end).
Proof.
  intros Ht Hq m'. split; [by constructor|]. split.
  - intros Hr. unfold m', serve, sink_of. rewrite Hr.
    destruct (res_ref r) as [a|].
    + unfold _put. cbn [heap log_event set_fs set_reqs set_in_transaction].
      destruct (heap m !! a) as [items|] eqn:E; cbn.
      * rewrite <- app_assoc. by rewrite Ht.
      * by rewrite Ht.
    + cbn. by rewrite Ht.
  - intros Hr a Ha. unfold m', serve. rewrite Hr, Ha.
    assert (forall x, thread x = Returned (conn_close conn) -> forall m'', ~ worker_step x m'')
      as Hend.
    { intros x Hx m''. apply ended_no_worker_step. unfold ended. by rewrite Hx. }
    unfold _put. cbn [heap log_event set_reqs set_in_transaction].
    destruct (heap m !! a) as [items|] eqn:E; cbn; split_and!; try done.
    + by apply Hend.
    + by rewrite <- app_assoc.
    + by apply Hend.
Qed.

Section Close.

Context {K : Type}.

Lemma bind_inv {S E A B : Type} (c : S -> Outcome E A * S)
  (k : A -> S -> Outcome E B * S) s b s' :
  bind c k s = (Ret b, s') -> exists a s1, c s = (Ret a, s1) /\ k a s1 = (Ret b, s').
Proof.
  unfold bind. destruct (c s) as [[a| |] s1]; try done. eauto.
Qed.

Lemma on_conn_conn {A : Type} attr (call : M A) d o d' :
  @Dict.on_conn K A attr call d = (o, d') -> Dict.conn d' = Dict.conn d.
Proof.
  unfold Dict.on_conn. destruct (Dict.conn d) eqn:E.
  - intros [= _ <-]. done.
  - destruct (call (Dict.mt d)). intros [= _ <-]. done.
Qed.

Lemma remove_if_temp_spec d :
  exists d', remove_if_temp (K:=K) d = (Ret tt, d')
             /\ Dict.conn d' = Dict.conn d
             /\ d' = Dict.set_mt (Dict.mt d') d
             /\ Dict.mt d' = set_fs (fs (Dict.mt d')) (Dict.mt d)
             /\ (Dict.in_temp d = false -> d' = d).
Proof.
  unfold remove_if_temp. unfold bind at 1. cbn [Dict.get].
  destruct (Dict.in_temp d) eqn:E.
  - unfold bind. cbn [Dict.get]. unfold Dict.try_remove.
    destruct (os_remove _ _) as [e|fs'].
    + exists d. split_and!; try done; by destruct d as [? ? ? ? ? ? ? ? ? []].
    + eexists. split_and!; try done.
  - exists d. split_and!; try done; by destruct d as [? ? ? ? ? ? ? ? ? []].
Qed.

(** C10. When [close] returns, [self.conn] is [None]; every later [close]
    returns without raising, puts nothing on the worker's queue and changes
    nothing but, for a temporary file, the file system. *)
Theorem close_is_idempotent (d d' : Dict.SqliteDict) (do_log force : bool) :
  Dict.close (K:=K) do_log force d = (Ret tt, d') ->
  Dict.conn d' = Dict.conn_None
  /\ forall do_log' force',
       exists d'',
         Dict.close (K:=K) do_log' force' d' = (Ret tt, d'')
         /\ Dict.conn d'' = Dict.conn_None
         /\ sent (Dict.mt d'') = sent (Dict.mt d')
         /\ reqs (Dict.mt d'') = reqs (Dict.mt d')
         /\ Dict.mt d'' = set_fs (fs (Dict.mt d'')) (Dict.mt d')
         /\ (Dict.in_temp d' = false -> d'' = d').
Proof.
  intros H.
  assert (Dict.conn d' = Dict.conn_None) as Hc.
  { unfold Dict.close in H. apply bind_inv in H as (c & d0 & H0 & H).
    cbn [Dict.get] in H0. injection H0 as <- <-.
    apply bind_inv in H as ([] & d1 & H1 & H).
    fold (remove_if_temp (K:=K)) in H.
    destruct (remove_if_temp_spec d1) as (d2 & H2 & Hc2 & _).
    rewrite H2 in H. injection H as <-. rewrite Hc2.
    destruct (Dict.conn d) eqn:E.
    - injection H1 as <-. exact E.
    - apply bind_inv in H1 as (ac & d3 & _ & H1).
      apply bind_inv in H1 as ([] & d4 & _ & H1).
      apply bind_inv in H1 as ([] & d5 & _ & H1).
      injection H1 as <-. reflexivity. }
  split; [exact Hc|]. intros do_log' force'.
  destruct (remove_if_temp_spec d') as (d'' & H2 & Hc2 & Hd & Hm & Hid).
  exists d''. unfold Dict.close. unfold bind at 1. cbn [Dict.get]. rewrite Hc.
  unfold bind at 1. unfold ret at 1. fold (remove_if_temp (K:=K)). rewrite H2.
  split_and!; try done; try congruence.
  - by rewrite Hm.
  - by rewrite Hm.
Qed.

(** C3, on the code as it is. The flag check reads [BaseSqlite.VALID_FLAGS],
    and [BaseSqlite] is not a name of the module: every constructor call
    raises [NameError], whether the flag is one of the four or not. *)
Theorem construction_raises_NameError
  (journal_mode_pragma : string -> PyExc + unit) (fs0 : FS) (tmpname : string)
  (filename : option string) (tablename flag : string) (autocommit : bool)
  (journal_mode : string) (timeout : Z) (outer_stack : bool) :
  Dict.__init__ (K:=K) journal_mode_pragma fs0 tmpname filename tablename flag
    autocommit journal_mode timeout outer_stack
  = Dict.Failed (Dict.Exc (NameError "BaseSqlite"))
      (if bool_decide (filename = None) then Dict.mkstemp fs0 tmpname else fs0).
Proof. reflexivity. Qed.

(** C7, on the code as it is. A constructor call with the read-only flag
    raises [NameError] at the flag check, whether the file holds the table or
    not: it never raises the refusal to create a table and never yields a
    handle. *)
Theorem read_only_construction_raises_NameError
  (journal_mode_pragma : string -> PyExc + unit) (fs0 : FS) (tmpname : string)
  (filename tablename : string) (autocommit : bool)
  (journal_mode : string) (timeout : Z) (outer_stack : bool) :
  let built := Dict.__init__ (K:=K) journal_mode_pragma fs0 tmpname (Some filename)
                 tablename "r" autocommit journal_mode timeout outer_stack in
  built = Dict.Failed (Dict.Exc (NameError "BaseSqlite")) fs0
  /\ built <> Dict.Failed (Dict.Exc (RuntimeError (Refusing_to_create_table tablename))) fs0
  /\ forall d, built <> Dict.Built d.
Proof. split_and!; [reflexivity|discriminate|discriminate]. Qed.

End Close.

(* ===================================================================== *)
(** ** Read-only handles *)
(* ===================================================================== *)

Section ReadOnly.

Context {K V : Type}.
Variable encode : V -> SqlVal.
Variable encode_key : K -> string.

(** X13. On a handle whose flag is ['r'] the five mutating methods raise their
    [RuntimeError] and leave the handle as it is. *)
Lemma read_only_handle_refuses_writes (d : Dict.SqliteDict)
  (k : K) (v : V) (items kwds : list (K * V)) :
  Dict.flag d = "r" ->
  Dict.__setitem__ encode encode_key k v d
  = (Raise (Dict.Exc (RuntimeError Refusing_to_write)), d)
  /\ Dict.__delitem__ encode_key k d
     = (Raise (Dict.Exc (RuntimeError Refusing_to_delete)), d)
  /\ Dict.update encode encode_key items kwds d
     = (Raise (Dict.Exc (RuntimeError Refusing_to_update)), d)
  /\ Dict.clear (K:=K) d = (Raise (Dict.Exc (RuntimeError Refusing_to_clear)), d)
  /\ Dict.terminate (K:=K) d
     = (Raise (Dict.Exc (RuntimeError Refusing_to_terminate)), d).
Proof.
  intros Hf.
  unfold Dict.__setitem__, Dict.__delitem__, Dict.update, Dict.update_items,
    Dict.clear, Dict.terminate.
  run_get. rewrite (bool_decide_eq_true_2 _ Hf).
  split_and!; try reflexivity.
  unfold bind at 1. run_get. by rewrite (bool_decide_eq_true_2 _ Hf).
Qed.

End ReadOnly.

(* ===================================================================== *)
(** ** The statements on the example store *)
(* ===================================================================== *)

Import Example.

Example worker_is_in_its_loop : thread (worker false) = Running conn0.
Proof. vm_compute. reflexivity. Qed.

Example handle_has_its_table flag ac : table_state (handle flag ac) = Some [].
Proof. destruct ac; vm_compute; reflexivity. Qed.

Lemma failure_never_reaches_the_error_slot_witness :
  let m := reqs_put bad_write (worker false) in
  let m' := serve conn0 bad_write (set_reqs [] m) in
  cursor_execute (working conn0) (REPLACE_INTO "missing") (arg bad_write)
  = inl (OperationalError (no_such_table "missing"))
  /\ worker_step m m'
  /\ exception m' = None
  /\ thread m' = Died (NameError "sys") (Some conn0)
  /\ forall m'', rtc step m' m'' -> check_raise_error m'' = (Ret tt, m'').
Proof.
  split; [vm_compute; reflexivity|].
  apply (failure_never_reaches_the_error_slot
           (reqs_put bad_write (worker false)) conn0 bad_write []
           (REPLACE_INTO "missing") (OperationalError (no_such_table "missing")));
    vm_compute; reflexivity.
Defined.

Lemma failure_ends_the_worker_witness :
  let m := reqs_put (bad_select 0) (snd (new_queue (worker false))) in
  let m' := serve conn0 (bad_select 0) (set_reqs [] m) in
  heap m !! 0%nat = Some []
  /\ worker_step m m'
  /\ thread m' = Died (NameError "sys") (Some conn0)
  /\ heap m' !! 0%nat = Some []
  /\ reqs m' = []
  /\ forall m'', rtc step m' m'' ->
       thread m'' = Died (NameError "sys") (Some conn0)
       /\ forall m3, ~ worker_step m'' m3.
Proof.
  split; [vm_compute; reflexivity|].
  apply (failure_ends_the_worker
           (reqs_put (bad_select 0) (snd (new_queue (worker false)))) conn0
           (bad_select 0) [] (SELECT_key_ORDER_BY_rowid "missing")
           (OperationalError (no_such_table "missing")) 0%nat []);
    vm_compute; reflexivity.
Defined.

(** The same failure seen from the caller: [keys()] on a handle whose table
    is not in the file never returns. *)
Example keys_of_missing_table_blocks :
  fst (Dict.keys text_of
         (Dict.mkDict false "c" path "missing" false "DELETE" 5 true
            Dict.conn_object (worker false)))
  = Blocked.
Proof. vm_compute. reflexivity. Qed.

Lemma two_rows_well_formed : well_formed two_rows.
Proof.
  split_and!.
  - repeat constructor.
  - apply (bool_decide_eq_true_1 _). vm_compute. reflexivity.
  - repeat constructor; discriminate.
Qed.

Lemma two_rows_encoded : encoded (K:=string) id two_rows.
Proof. repeat constructor; eexists; reflexivity. Qed.

Lemma set_then_get_round_trip_witness :
  table_state (handle "c" false) = Some []
  /\ exists d1 d2,
       Dict.__setitem__ id id "a" (SqlInt 7) (handle "c" false) = (Ret tt, d1)
       /\ Dict.__getitem__ id id "a" d1 = (Ret (SqlInt 7), d2).
Proof.
  split; [vm_compute; reflexivity|].
  apply (set_then_get_round_trip id id id (handle "c" false) [] "a" (SqlInt 7));
    [vm_compute; reflexivity|discriminate|reflexivity|reflexivity].
Defined.

(** An integer that does not fit 64 bits is not bound: the assignment
    returns, the worker ends on the failure, and the read never returns. *)
Example unbound_value_is_never_read :
  bindable (SqlInt (2 ^ 63)) = false
  /\ fst (Dict.__setitem__ id id "a" (SqlInt (2 ^ 63)) (handle "c" false)) = Ret tt
  /\ fst (Dict.__getitem__ id id "a"
            (snd (Dict.__setitem__ id id "a" (SqlInt (2 ^ 63)) (handle "c" false))))
     = Blocked.
Proof. split_and!; vm_compute; reflexivity. Qed.

Lemma keys_in_insertion_order_witness :
  let ops := [Dict.op_set "a" (SqlInt 1); Dict.op_set "x" (SqlInt 0);
              Dict.op_set "b" (SqlInt 2); Dict.op_del "x"; Dict.op_del "zz"] in
  filter (fun k => k ∈ ["a"; "b"]) (set_keys ops) = ["a"; "b"]
  /\ exists d1 d2,
       Dict.run_ops id id ops (handle "c" false) = (Ret tt, d1)
       /\ Dict.keys text_of d1 = (Ret ["a"; "b"], d2).
Proof.
  split; [vm_compute; reflexivity|].
  destruct (keys_in_insertion_order id id text_of (fun k => eq_refl) (handle "c" false)
              [Dict.op_set "a" (SqlInt 1); Dict.op_set "x" (SqlInt 0);
               Dict.op_set "b" (SqlInt 2); Dict.op_del "x"; Dict.op_del "zz"]
              ["a"; "b"])
    as (d1 & d2 & listed & H1 & H2 & _ & Hexact).
  - vm_compute. reflexivity.
  - discriminate.
  - repeat constructor.
  - apply (bool_decide_eq_true_1 _). vm_compute. reflexivity.
  - vm_compute. reflexivity.
  - apply (bool_decide_eq_true_1 _). vm_compute. reflexivity.
  - exists d1, d2. split; [exact H1|]. rewrite <- Hexact at 1; [exact H2|].
    intros [|[|[|[|[|i]]]]] k v Hi Hk; try discriminate Hi;
      injection Hi as <- <-.
    + exfalso. apply Hk. apply (bool_decide_eq_true_1 _). vm_compute. reflexivity.
    + exists 3%nat. split; [lia|reflexivity].
    + exfalso. apply Hk. apply (bool_decide_eq_true_1 _). vm_compute. reflexivity.
Defined.

(** Without the deletion the other key stays where it was assigned. *)
Example keys_with_another_key_between :
  fst (Dict.keys text_of
         (snd (Dict.run_ops id id
                 [Dict.op_set "a" (SqlInt 1); Dict.op_set "x" (SqlInt 0);
                  Dict.op_set "b" (SqlInt 2)]
                 (handle "c" false))))
  = Ret ["a"; "x"; "b"].
Proof. vm_compute. reflexivity. Qed.

Lemma absent_key_not_found_witness :
  table_state stocked_handle = Some two_rows
  /\ well_formed two_rows
  /\ (exists d', Dict.__getitem__ id id "zz" stocked_handle
                 = (Raise (Dict.KeyError "zz"), d')
                 /\ table_state d' = Some two_rows)
  /\ (exists d', Dict.__contains__ id "zz" stocked_handle = (Ret false, d')
                 /\ table_state d' = Some two_rows)
  /\ (exists d' new,
        Dict.__delitem__ id "zz" stocked_handle = (Raise (Dict.KeyError "zz"), d')
        /\ table_state d' = Some two_rows
        /\ sent (Dict.mt d') = sent (Dict.mt stocked_handle) ++ new
        /\ map req new = [Sql (SELECT_1_WHERE_key "t")])
  /\ (exists d' l1 l2 new,
        Dict.__delitem__ id "a" stocked_handle = (Ret tt, d')
        /\ two_rows = l1 ++ mkRow 1 (SqlText "a") (SqlInt 1) :: l2
        /\ table_state d' = Some (l1 ++ l2)
        /\ sent (Dict.mt d') = sent (Dict.mt stocked_handle) ++ new
        /\ map req new = [Sql (SELECT_1_WHERE_key "t"); Sql (DELETE_WHERE_key "t")])
  /\ Dict.__delitem__ id "a" read_only_handle
     = (Raise (Dict.Exc (RuntimeError Refusing_to_delete)), read_only_handle).
Proof.
  split; [vm_compute; reflexivity|]. split; [apply two_rows_well_formed|].
  destruct (absent_key_not_found (V:=SqlVal) id id stocked_handle two_rows "zz")
    as (Habsent & _); [vm_compute; reflexivity|apply two_rows_well_formed|].
  destruct Habsent as (Hget & Hin & Hdel);
    [apply (bool_decide_eq_true_1 _); vm_compute; reflexivity|].
  destruct (absent_key_not_found (V:=SqlVal) id id stocked_handle two_rows "a")
    as (_ & Hpresent & _); [vm_compute; reflexivity|apply two_rows_well_formed|].
  destruct (absent_key_not_found (V:=SqlVal) id id read_only_handle two_rows "a")
    as (_ & _ & Hreadonly); [vm_compute; reflexivity|apply two_rows_well_formed|].
  split_and!; [exact Hget|exact Hin| | |].
  - apply Hdel. discriminate.
  - apply (Hpresent (mkRow 1 (SqlText "a") (SqlInt 1))); [by left|reflexivity|discriminate].
  - apply Hreadonly. reflexivity.
Defined.

Lemma clear_commits_deletes_commits_witness :
  table_state (handle "c" true) = Some []
  /\ (exists d' new,
         Dict.clear (K:=string) (handle "c" true) = (Ret tt, d')
         /\ sent (Dict.mt d') = sent (Dict.mt (handle "c" true)) ++ new
         /\ map req new = [_REQUEST_COMMIT; Sql (DELETE_FROM "t"); _REQUEST_COMMIT])
  /\ (exists d1 d2 d3 d4,
         Dict.update id id [("x", SqlInt 1); ("y", SqlInt 2)] [] (handle "c" true)
         = (Ret tt, d1)
         /\ Dict.clear (K:=string) d1 = (Ret tt, d2)
         /\ Dict.__len__ (K:=string) d2 = (Ret (SqlInt 0), d3)
         /\ Dict.__bool__ (K:=string) d3 = (Ret false, d4)).
Proof.
  split; [vm_compute; reflexivity|].
  destruct (clear_commits_deletes_commits id id (handle "c" true) []
              [("x", SqlInt 1); ("y", SqlInt 2)] [])
    as (Hclear & Hafter); [vm_compute; reflexivity|discriminate|].
  split; [exact Hclear|]. apply Hafter. repeat constructor.
Defined.

(** With a value that is not bound the bulk update returns, and [clear] waits
    for ever on its first commit. *)
Example clear_after_an_unbound_value_blocks :
  fst (Dict.update id id [("x", SqlInt (2 ^ 63))] [] (handle "c" false)) = Ret tt
  /\ fst (Dict.clear (K:=string)
            (snd (Dict.update id id [("x", SqlInt (2 ^ 63))] [] (handle "c" false))))
     = Blocked.
Proof. split; vm_compute; reflexivity. Qed.

Lemma sentinels_are_served_witness :
  let m := reqs_put (commit_request 0) (snd (new_queue (worker false))) in
  let m' := serve conn0 (commit_request 0) (set_reqs [] m) in
  thread m = Running conn0
  /\ worker_step m m'
  /\ thread m' = Running conn0
  /\ heap m' !! 0%nat = Some [_RESPONSE_NO_MORE]
  /\ trace m' = [ev_commit; ev_put 0 _RESPONSE_NO_MORE].
Proof.
  split; [vm_compute; reflexivity|].
  destruct (sentinels_are_served
              (reqs_put (commit_request 0) (snd (new_queue (worker false))))
              conn0 (commit_request 0) [])
    as (Hstep & Hcommit & _); [vm_compute; reflexivity..|].
  destruct (Hcommit eq_refl) as (Hthread & _).
  split_and!; [exact Hstep|exact Hthread|vm_compute; reflexivity..].
Defined.

(** The close request on the same worker. *)
Example close_request_is_served :
  let m := reqs_put (close_request 0) (snd (new_queue (worker false))) in
  let m' := serve conn0 (close_request 0) (set_reqs [] m) in
  thread m' = Returned (conn_close conn0)
  /\ heap m' !! 0%nat = Some [_RESPONSE_NO_MORE]
  /\ trace m' = [ev_close; ev_put 0 _RESPONSE_NO_MORE].
Proof. split_and!; vm_compute; reflexivity. Qed.

Lemma close_is_idempotent_witness :
  Dict.close (K:=string) true false temp_handle = (Ret tt, closed_handle)
  /\ Dict.conn closed_handle = Dict.conn_None
  /\ forall do_log' force',
       exists d'',
         Dict.close (K:=string) do_log' force' closed_handle = (Ret tt, d'')
         /\ Dict.conn d'' = Dict.conn_None
         /\ sent (Dict.mt d'') = sent (Dict.mt closed_handle)
         /\ reqs (Dict.mt d'') = reqs (Dict.mt closed_handle)
         /\ Dict.mt d'' = set_fs (fs (Dict.mt d'')) (Dict.mt closed_handle)
         /\ (Dict.in_temp closed_handle = false -> d'' = closed_handle).
Proof.
  split; [vm_compute; reflexivity|].
  apply (close_is_idempotent (K:=string) temp_handle closed_handle true false).
  vm_compute. reflexivity.
Defined.

(** The first [close] sends one commit and one close request; the second
    sends nothing. *)
Example second_close_sends_nothing :
  map req (sent (Dict.mt closed_handle)) = [_REQUEST_COMMIT; _REQUEST_CLOSE]
  /\ map req (sent (Dict.mt (snd (Dict.close (K:=string) true false closed_handle))))
     = [_REQUEST_COMMIT; _REQUEST_CLOSE]
  /\ thread (Dict.mt (snd (Dict.close (K:=string) true false closed_handle)))
     = thread (Dict.mt closed_handle).
Proof. split_and!; vm_compute; reflexivity. Qed.

(** The constructor on the example store, for a valid flag, an invalid one and
    the read-only flag. *)
Example construction_on_the_example_store :
  Dict.__init__ (K:=string) journal_mode_pragma fs0 "/tmp/sqldict0" (Some path)
    "t" "c" false "DELETE" 5 true
  = Dict.Failed (Dict.Exc (NameError "BaseSqlite")) fs0
  /\ Dict.__init__ (K:=string) journal_mode_pragma fs0 "/tmp/sqldict0" (Some path)
       "t" "z" false "DELETE" 5 true
     = Dict.Failed (Dict.Exc (NameError "BaseSqlite")) fs0
  /\ Dict.__init__ (K:=string) journal_mode_pragma fs0 "/tmp/sqldict0" (Some path)
       "t" "r" false "DELETE" 5 true
     = Dict.Failed (Dict.Exc (NameError "BaseSqlite")) fs0.
Proof. split_and!; vm_compute; reflexivity. Qed.

(* ===================================================================== *)
(** ** The worker loop and its callers *)
(* ===================================================================== *)

(* ---------- helpers ---------- *)

Lemma put_records_dead a rows m :
  heap m !! a = None -> put_records (Some a) rows m = m.
Proof.
  intros H. destruct rows as [|row rows]; [reflexivity|].
  cbn [put_records]. unfold _put. by rewrite H.
Qed.

Lemma put_in_transaction ref item m :
  in_transaction (snd (_put ref item m)) = in_transaction m.
Proof.
  unfold _put. destruct ref as [a|]; [|reflexivity].
  destruct (heap m !! a); reflexivity.
Qed.

Lemma put_records_in_transaction ref rows m :
  in_transaction (put_records ref rows m) = in_transaction m.
Proof.
  revert m. induction rows as [|row rows IH]; intros m; [reflexivity|].
  cbn [put_records]. pose proof (put_in_transaction ref (Rec row) m) as H.
  destruct (_put ref (Rec row) m) as [code m'] eqn:E. cbn [snd] in H.
  destruct (code =? 1); [exact H|]. by rewrite IH.
Qed.

Lemma deliver_fs r conn rows m :
  fs (deliver_and_autocommit r conn rows m)
  = if autocommit m then conn_commit (fs m) conn else fs m.
Proof.
  unfold deliver_and_autocommit. destruct (res_ref r) as [a|].
  - set (m1 := snd (_put _ _ _)).
    assert (frame m1 = frame m) as Hf by (unfold m1; by rewrite put_frame, put_records_frame).
    assert (fs m1 = fs m) as Hfs by (unfold m1; by rewrite put_fs, put_records_fs).
    rewrite (frame_autocommit _ _ Hf).
    destruct (autocommit m); cbn [fs set_thread log_event set_in_transaction set_fs];
      by rewrite ?Hfs.
  - destruct (autocommit m); reflexivity.
Qed.

Lemma deliver_in_transaction r conn rows m :
  in_transaction (deliver_and_autocommit r conn rows m)
  = if autocommit m then false else in_transaction m.
Proof.
  unfold deliver_and_autocommit. destruct (res_ref r) as [a|].
  - set (m1 := snd (_put _ _ _)).
    assert (frame m1 = frame m) as Hf by (unfold m1; by rewrite put_frame, put_records_frame).
    assert (in_transaction m1 = in_transaction m) as Htx
      by (unfold m1; by rewrite put_in_transaction, put_records_in_transaction).
    rewrite (frame_autocommit _ _ Hf).
    destruct (autocommit m);
      cbn [in_transaction set_thread log_event set_in_transaction set_fs];
      by rewrite ?Htx.
  - destruct (autocommit m); reflexivity.
Qed.

Lemma conn_commit_twice (f : FS) (c : Conn) :
  conn_commit (conn_commit f c) c = conn_commit f c.
Proof.
  unfold conn_commit. destruct (bool_decide (conn_path c = memory)); [done|].
  cbn [files dirs]. by rewrite insert_insert_eq.
Qed.

(** The file and the transaction after a statement that runs: with
    [autocommit] the file has the connection's view and no transaction is
    open; without it the engine decides. *)
Lemma serve_sql_fs c r m stmt db rows :
  req r = Sql stmt ->
  cursor_execute (working c) stmt (arg r) = inr (db, rows) ->
  let c' := mkConn (conn_path c) db false in
  let after := after_execute (autocommit m) stmt c' (fs m) (in_transaction m) in
  fs (serve c r m) = (if autocommit m then conn_commit (fst after) c' else fst after)
  /\ in_transaction (serve c r m) = (if autocommit m then false else snd after).
Proof.
  intros Hr Hx c' after. unfold serve. rewrite Hr, Hx.
  rewrite deliver_fs, deliver_in_transaction. done.
Qed.

Lemma drain_ended m : ended m -> drain m = m.
Proof.
  unfold ended, drain. intros H. destruct (reqs m) as [|r q] eqn:E.
  - cbn. rewrite <- E. apply set_reqs_id.
  - cbn. destruct (thread m); try done; rewrite <- E; apply set_reqs_id.
Qed.

(** X2. A statement whose result queue has been collected is still executed: the
    worker takes the step and its connection holds the effect, but no row and
    no end marker is put anywhere; the error slot and the rest of the request
    queue are as they were. *)
Theorem rows_for_a_lost_queue_are_dropped
  (m : SqliteMultithread) (conn : Conn) (r : Request) (q : list Request)
  (stmt : Stmt) (db : DB) (rows : list Tuple) (a : nat) :
  thread m = Running conn ->
  reqs m = r :: q ->
  req r = Sql stmt ->
  res_ref r = Some a ->
  heap m !! a = None ->
  cursor_execute (working conn) stmt (arg r) = inr (db, rows) ->
  let m' := serve conn r (set_reqs q m) in
  worker_step m m'
  /\ heap m' = heap m
  /\ thread m' = Running (mkConn (conn_path conn) db false)
  /\ exception m' = exception m
  /\ reqs m' = q.
Proof.
  intros Ht Hq Hr Ha Hh Hx m'. split; [by constructor|].
  pose proof (serve_frame conn r (set_reqs q m)) as Hf. fold m' in Hf.
  split_and!.
  - unfold m', serve. rewrite Hr, Hx. unfold deliver_and_autocommit. rewrite Ha.
    rewrite put_records_dead by exact Hh. unfold _put.
    cbn [heap log_event set_reqs executed set_in_transaction set_fs].
    rewrite Hh. cbn. by destruct (autocommit m).
  - unfold m'. by erewrite serve_sql_thread.
  - by rewrite (frame_exception _ _ Hf).
  - by rewrite (frame_reqs _ _ Hf).
Qed.

(** X3. With an exception in the error slot, [execute] raises it, empties the slot
    and queues nothing; [select] raises it too and leaves the request queue as
    it was; the call after that finds the slot empty and goes through. *)
Theorem stored_error_stops_the_next_call
  (m : SqliteMultithread) (e : PyExc) (rq : Req) (arg : option Tuple)
  (res : option nat) :
  exception m = Some e ->
  execute rq arg res m = (Raise e, set_exception None m)
  /\ fst (select rq arg m) = Raise e
  /\ reqs (snd (select rq arg m)) = reqs m
  /\ fst (execute rq arg res (set_exception None m)) = Ret tt.
Proof.
  intros He. split_and!.
  - unfold execute, bind, check_raise_error. by rewrite He.
  - unfold select, submit_and_wait, bind, execute, bind, check_raise_error, new_queue.
    cbn. by rewrite He.
  - unfold select, submit_and_wait, bind, execute, bind, check_raise_error, new_queue.
    cbn. by rewrite He.
  - reflexivity.
Qed.

(** X4. On a ready worker [select] of a statement that executes returns its rows
    and [select_one] the first of them, or [None] when there is none; either
    call leaves the worker ready, on the database the statement produced. *)
Theorem select_one_is_the_first_row_of_select
  (m : SqliteMultithread) (c : Conn) (stmt : Stmt) (arg : option Tuple)
  (db : DB) (rows : list Tuple) :
  ready m = Some c ->
  cursor_execute (working c) stmt (default [] arg) = inr (db, rows) ->
  fst (select (Sql stmt) arg m) = Ret rows
  /\ fst (select_one (Sql stmt) arg m) = Ret (head rows)
  /\ ready (snd (select (Sql stmt) arg m)) = Some (mkConn (conn_path c) db false)
  /\ ready (snd (select_one (Sql stmt) arg m)) = Some (mkConn (conn_path c) db false).
Proof.
  intros Hr Hx.
  destruct (select_ready m c stmt arg db rows Hr Hx) as (m1 & H1 & _ & L1 & _).
  destruct (select_one_ready m c stmt arg db rows Hr Hx) as (m2 & H2 & _ & L2 & _).
  rewrite H1, H2. done.
Qed.

(** On a worker that has ended the caller finds its queue empty. *)
Lemma submit_and_wait_ended m :
  ended m ->
  exception m = None ->
  forall rq arg,
    submit_and_wait rq arg m
    = (Ret (next_addr m, []),
       reqs_put (mkRequest rq (default [] arg) (Some (next_addr m)) (stack_of m))
         (snd (new_queue m))).
Proof.
  intros Hend He rq arg. unfold submit_and_wait, new_queue.
  rewrite execute_no_exception by exact He.
  rewrite drain_ended by exact Hend.
  cbn [heap reqs_put set_sent set_reqs set_next_addr set_heap].
  by rewrite lookup_insert_eq.
Qed.

(** X5. Once the worker has ended, with no error stored, [select], [select_one], a
    blocking [commit] and an unforced [close] never return, while [execute]
    returns at once and its request stays on the queue. *)
Theorem calls_on_an_ended_worker_block
  (m : SqliteMultithread) (rq : Req) (arg : option Tuple) :
  ended m ->
  exception m = None ->
  fst (select rq arg m) = Blocked
  /\ fst (select_one rq arg m) = Blocked
  /\ fst (commit true m) = Blocked
  /\ fst (close false m) = Blocked
  /\ fst (execute rq arg None m) = Ret tt
  /\ reqs (drain (snd (execute rq arg None m)))
     = reqs m ++ [mkRequest rq (default [] arg) None (stack_of m)].
Proof.
  intros Hend He.
  pose proof (submit_and_wait_ended m Hend He) as Hw.
  split_and!.
  - unfold select. by rewrite (bind_Ret _ _ _ _ _ (Hw rq arg)).
  - unfold select_one. by rewrite (bind_Ret _ _ _ _ _ (Hw rq arg)).
  - unfold commit, select_one. unfold bind at 1.
    by rewrite (bind_Ret _ _ _ _ _ (Hw _REQUEST_COMMIT None)).
  - unfold close, select_one. unfold bind at 1.
    by rewrite (bind_Ret _ _ _ _ _ (Hw _REQUEST_CLOSE None)).
  - by rewrite execute_no_exception.
  - rewrite execute_no_exception by exact He. cbn [snd].
    rewrite drain_ended; [reflexivity|exact Hend].
Qed.

(* ===================================================================== *)
(** ** Commit, close and the file *)
(* ===================================================================== *)

Lemma conn_commit_file (f : FS) (c : Conn) :
  conn_path c <> memory -> files (conn_commit f c) !! conn_path c = Some (working c).
Proof.
  intros H. unfold conn_commit. rewrite bool_decide_eq_false_2 by exact H.
  cbn. by rewrite lookup_insert_eq.
Qed.

(** [commit(blocking=True)] on a ready state, with the file system. *)
Lemma commit_ready_fs (m : SqliteMultithread) (c : Conn) :
  ready m = Some c ->
  exists m',
    commit true m = (Ret tt, m')
    /\ fs m' = conn_commit (fs (drain m)) c
    /\ ready m' = Some c
    /\ reqs m' = [].
Proof.
  intros Hready. pose proof (ready_Some _ _ Hready) as (He & Hq & Ht).
  pose proof (submit_and_wait_ready _REQUEST_COMMIT None m c Hready) as H.
  cbv zeta in H. fold (stack_of m) in H. cbn [default from_option id] in H.
  set (a := next_addr m) in *.
  set (r := mkRequest _REQUEST_COMMIT [] (Some a) (stack_of m)) in *.
  set (M := env (<[a:=[]]> (heap m)) (S a) (drain m)) in *.
  destruct (served_frame c r (<[a:=[]]> (heap m)) (S a) m) as (F1 & F2 & F3 & F4 & F5).
  fold M in F1, F2, F3, F4, F5.
  pose proof (drain_idle c m Ht) as Hi.
  assert (heap (serve c r M) !! a = Some [_RESPONSE_NO_MORE]) as Hh.
  { unfold serve. cbn [req r res_ref].
    rewrite (put_heap_live a _RESPONSE_NO_MORE []); [reflexivity|].
    unfold M. cbn. by rewrite lookup_insert_eq. }
  assert (thread (serve c r M) = Running c) as Hth.
  { unfold serve. cbn [req r]. rewrite put_thread. exact Ht. }
  assert (fs (serve c r M) = conn_commit (fs (drain m)) c) as Hfs.
  { unfold serve. cbn [req r]. by rewrite put_fs. }
  exists (drop_queue a (set_sent (sent m ++ [r]) (serve c r M))). split_and!.
  - unfold commit, select_one.
    rewrite (bind_Ret _ _ m None (drop_queue a (set_sent (sent m ++ [r]) (serve c r M))));
      [reflexivity|].
    rewrite (bind_Ret _ _ _ _ _ H).
    change (heap (set_sent ?s ?x)) with (heap x). rewrite Hh. cbn [default from_option id fst snd].
    unfold bind, check_raise_error.
    change (exception (set_sent ?s ?x)) with (exception x).
    rewrite F1, He. reflexivity.
  - exact Hfs.
  - apply ready_idle.
    + transitivity (reqs (serve c r M)); [reflexivity|congruence].
    + exact Hth.
    + transitivity (exception (serve c r M)); [reflexivity|congruence].
  - transitivity (reqs (serve c r M)); [reflexivity|congruence].
Qed.

(** X7. A blocking [commit] on a ready worker returns once the worker has
    committed: the database file then holds the connection's view, the worker
    is still in its loop and the request queue is empty. *)
Theorem blocking_commit_reaches_the_file (m : SqliteMultithread) (c : Conn) :
  ready m = Some c ->
  conn_path c <> memory ->
  exists m',
    commit true m = (Ret tt, m')
    /\ files (fs m') !! conn_path c = Some (working c)
    /\ ready m' = Some c
    /\ reqs m' = [].
Proof.
  intros Hready Hpath.
  destruct (commit_ready_fs m c Hready) as (m' & H & Hfs & Hr & Hq).
  exists m'. split_and!; try done. rewrite Hfs. by apply conn_commit_file.
Qed.

(** X8. What the file holds after the worker has executed a statement. With
    [autocommit] it holds the statement's effect and no transaction is open.
    Without it a query changes nothing; a writing statement ([REPLACE],
    [DELETE]) leaves the file as it is and a transaction open; a [CREATE]
    statement joins the transaction that is open, and reaches the file at
    once when none is. *)
Theorem autocommit_decides_what_the_file_holds
  (m : SqliteMultithread) (conn : Conn) (r : Request) (q : list Request)
  (stmt : Stmt) (db : DB) (rows : list Tuple) :
  thread m = Running conn ->
  reqs m = r :: q ->
  req r = Sql stmt ->
  cursor_execute (working conn) stmt (arg r) = inr (db, rows) ->
  let m' := serve conn r (set_reqs q m) in
  let conn' := mkConn (conn_path conn) db false in
  worker_step m m'
  /\ thread m' = Running conn'
  /\ (autocommit m = true ->
      fs m' = conn_commit (fs m) conn' /\ in_transaction m' = false)
  /\ (autocommit m = false -> is_select stmt = true ->
      fs m' = fs m /\ in_transaction m' = in_transaction m)
  /\ (autocommit m = false -> is_dml stmt = true ->
      fs m' = fs m /\ in_transaction m' = true)
  /\ (autocommit m = false -> is_ddl stmt = true ->
      if in_transaction m
      then fs m' = fs m /\ in_transaction m' = true
      else fs m' = conn_commit (fs m) conn' /\ in_transaction m' = false).
Proof.
  intros Ht Hq Hr Hx m' conn'.
  destruct (serve_sql_fs conn r (set_reqs q m) stmt db rows Hr Hx) as [Hfs Htx].
  fold m' in Hfs, Htx. fold conn' in Hfs.
  change (autocommit (set_reqs q m)) with (autocommit m) in Hfs, Htx.
  change (fs (set_reqs q m)) with (fs m) in Hfs, Htx.
  change (in_transaction (set_reqs q m)) with (in_transaction m) in Hfs, Htx.
  rewrite Hfs, Htx. unfold after_execute. split_and!.
  - by constructor.
  - unfold m'. by erewrite serve_sql_thread.
  - intros ->. split; [|done].
    destruct (is_select stmt); [done|]. destruct (in_transaction m); [done|].
    cbn [negb]. rewrite andb_false_r. cbn [fst]. apply conn_commit_twice.
  - intros -> ->. done.
  - intros -> Hd. destruct stmt; try discriminate Hd; cbn;
      by destruct (in_transaction m).
  - intros -> Hd. destruct stmt; try discriminate Hd; cbn;
      by destruct (in_transaction m).
Qed.

(** [close(force=False)] on a ready state. *)
Lemma close_ready m c :
  ready m = Some c ->
  exists m',
    close false m = (Ret tt, m')
    /\ thread m' = Returned (conn_close c)
    /\ reqs m' = [] /\ exception m' = None
    /\ fs m' = fs (drain m)
    /\ sent m' = sent m ++ [mkRequest _REQUEST_CLOSE [] (Some (next_addr m)) (stack_of m)].
Proof.
  intros Hready. pose proof (ready_Some _ _ Hready) as (He & Hq & Ht).
  pose proof (submit_and_wait_ready _REQUEST_CLOSE None m c Hready) as H.
  cbv zeta in H. fold (stack_of m) in H. cbn [default from_option id] in H.
  set (a := next_addr m) in *.
  set (r := mkRequest _REQUEST_CLOSE [] (Some a) (stack_of m)) in *.
  set (M := env (<[a:=[]]> (heap m)) (S a) (drain m)) in *.
  destruct (served_frame c r (<[a:=[]]> (heap m)) (S a) m) as (F1 & F2 & F3 & F4 & F5).
  fold M in F1, F2, F3, F4, F5.
  pose proof (drain_idle c m Ht) as Hi.
  assert (heap (serve c r M) !! a = Some [_RESPONSE_NO_MORE]) as Hh.
  { unfold serve. cbn [req r res_ref]. cbn [heap set_thread].
    rewrite (put_heap_live a _RESPONSE_NO_MORE []); [reflexivity|].
    unfold M. cbn. by rewrite lookup_insert_eq. }
  assert (thread (serve c r M) = Returned (conn_close c)) as Hth by reflexivity.
  assert (fs (serve c r M) = fs (drain m)) as Hfs.
  { unfold serve. cbn [req r res_ref]. cbn [fs set_thread]. by rewrite put_fs. }
  eexists. split.
  - unfold close. unfold select_one.
    rewrite (bind_Ret _ _ m None (drop_queue a (set_sent (sent m ++ [r]) (serve c r M)))).
    + unfold join. cbn [thread drop_queue set_heap set_sent]. rewrite Hth. reflexivity.
    + rewrite (bind_Ret _ _ _ _ _ H).
      change (heap (set_sent ?s ?x)) with (heap x). rewrite Hh. cbn [default from_option id fst snd].
      unfold bind, check_raise_error.
      change (exception (set_sent ?s ?x)) with (exception x).
      rewrite F1, He. reflexivity.
  - split_and!; try reflexivity; try exact Hth; try exact Hfs.
    + transitivity (reqs (serve c r M)); [reflexivity|congruence].
    + transitivity (exception (serve c r M)); [reflexivity|congruence].
Qed.

(** X9. [close(force=True)] returns at once, with a close request on the queue
    whose result queue is already collected; when the worker takes it, it
    leaves its loop and closes the connection without committing, and no end
    marker is put anywhere. *)
Theorem forced_close_does_not_wait (m : SqliteMultithread) (c : Conn) :
  ready m = Some c ->
  heap m !! next_addr m = None ->
  exists m',
    close true m = (Ret tt, m')
    /\ reqs m' = reqs m ++ [mkRequest _REQUEST_CLOSE [] (Some (next_addr m)) None]
    /\ thread (drain m') = Returned (conn_close c)
    /\ heap (drain m') = heap m
    /\ fs (drain m') = fs (drain m).
Proof.
  intros Hready Hfresh. eexists. split; [reflexivity|]. split; [reflexivity|].
  pose proof (ready_Some _ _ Hready) as (He & Hq & Ht).
  set (r := mkRequest _REQUEST_CLOSE [] (Some (next_addr m)) None).
  change (reqs_put r (set_next_addr (S (next_addr m)) m))
    with (reqs_put r (env (heap m) (S (next_addr m)) m)).
  rewrite drain_reqs_put.
  assert (drain (env (heap m) (S (next_addr m)) m) = env (heap m) (S (next_addr m)) (drain m)) as ->.
  { unfold drain. change (reqs (env _ _ m)) with (reqs m). by apply run_loop_env. }
  change (thread (env ?h ?n ?x)) with (thread x). rewrite Ht.
  unfold serve. cbn [req r res_ref]. unfold _put.
  cbn [heap log_event env set_next_addr set_heap set_in_transaction]. rewrite Hfresh.
  split_and!; reflexivity.
Qed.

(** A fire-and-forget statement, with the file system. *)
Lemma fire_and_forget_statement_and_the_file
  (m : SqliteMultithread) (c : Conn) (stmt : Stmt) (arg : option Tuple)
  (db : DB) (rows : list Tuple) :
  ready m = Some c ->
  cursor_execute (working c) stmt (default [] arg) = inr (db, rows) ->
  let c' := mkConn (conn_path c) db false in
  let after :=
    after_execute (autocommit m) stmt c' (fs (drain m)) (in_transaction (drain m)) in
  exists m',
    execute (Sql stmt) arg None m = (Ret tt, m')
    /\ ready m' = Some c'
    /\ fs (drain m') = (if autocommit m then conn_commit (fst after) c' else fst after).
Proof.
  intros Hready Hx c' after. pose proof (ready_Some _ _ Hready) as (He & Hq & Ht).
  destruct (execute_sql_ready m c stmt arg db rows Hready Hx) as (m' & H & (Hr & _)).
  exists m'. split_and!; try done.
  rewrite execute_no_exception in H by exact He. injection H as <-.
  rewrite drain_reqs_put, Ht. change (fs (set_sent ?s ?x)) with (fs x).
  pose proof (drain_frame m) as Hd.
  assert (autocommit (drain m) = autocommit m) as Hac by congruence.
  destruct (serve_sql_fs c (mkRequest (Sql stmt) (default [] arg) None
                              (if _outer_stack m then Some CallerStack else None))
              (drain m) stmt db rows eq_refl Hx) as [Hfs _].
  rewrite Hfs, Hac. reflexivity.
Qed.

(** X10. When [sqlite3.connect] fails, the worker thread ends with [NameError] for
    the unbound [sys] before the failure is stored: the error slot stays
    empty, [check_raise_error] does nothing, and a [select] never returns. *)
Theorem failed_connection_is_not_reported
  (journal_mode_pragma : string -> PyExc + unit)
  (fs0 : FS) (file : string) (ac : bool) (journal_mode : string)
  (outer_stack : bool) (exc : PyExc) (rq : Req) (arg : option Tuple) :
  sqlite3_connect fs0 file = inl exc ->
  let m := Multithread.__init__ journal_mode_pragma fs0 file ac journal_mode
             outer_stack in
  thread m = Died (NameError "sys") None
  /\ exception m = None
  /\ check_raise_error m = (Ret tt, m)
  /\ fst (select rq arg m) = Blocked.
Proof.
  intros Hc m.
  assert (thread m = Died (NameError "sys") None) as Ht.
  { unfold m, Multithread.__init__, _connect. cbn [fs filename]. by rewrite Hc. }
  assert (exception m = None) as He.
  { unfold m, Multithread.__init__, _connect. cbn [fs filename]. by rewrite Hc. }
  split_and!; try done.
  - unfold check_raise_error. by rewrite He.
  - assert (ended m) as Hend by (unfold ended; by rewrite Ht).
    unfold select. by rewrite (bind_Ret _ _ _ _ _ (submit_and_wait_ended m Hend He rq arg)).
Qed.

(** X11. Constructing the worker on an existing database file, with a journal
    mode the engine accepts, leaves the worker in its loop, connected to the
    content of the file, with the file system unchanged, no transaction open
    and nothing queued. *)
Theorem connection_opens_on_the_file
  (journal_mode_pragma : string -> PyExc + unit)
  (fs0 : FS) (file : string) (ac : bool) (journal_mode : string)
  (outer_stack : bool) (db : DB) :
  files fs0 !! file = Some db ->
  file <> memory ->
  journal_mode_pragma journal_mode = inr tt ->
  let m := Multithread.__init__ journal_mode_pragma fs0 file ac journal_mode
             outer_stack in
  ready m = Some (mkConn file db false) /\ fs m = fs0 /\ reqs m = []
  /\ in_transaction m = false.
Proof.
  intros Hf Hm Hj m.
  unfold m, Multithread.__init__, _connect, sqlite3_connect.
  cbn [fs filename Multithread.journal_mode set_fs].
  rewrite bool_decide_eq_false_2 by exact Hm. rewrite Hf, Hj. done.
Qed.

(** X28. When the engine rejects the journal mode, the worker thread ends
    with [NameError] for the unbound [sys] in the handler of the PRAGMA
    statements: the error slot stays empty, [check_raise_error] does
    nothing, and a [select] never returns. *)
Theorem rejected_journal_mode_is_not_reported
  (journal_mode_pragma : string -> PyExc + unit)
  (fs0 fs1 : FS) (file : string) (ac : bool) (journal_mode : string)
  (outer_stack : bool) (conn : Conn) (exc : PyExc)
  (rq : Req) (arg : option Tuple) :
  sqlite3_connect fs0 file = inr (fs1, conn) ->
  journal_mode_pragma journal_mode = inl exc ->
  let m := Multithread.__init__ journal_mode_pragma fs0 file ac journal_mode
             outer_stack in
  thread m = Died (NameError "sys") (Some conn)
  /\ fs m = fs1
  /\ exception m = None
  /\ check_raise_error m = (Ret tt, m)
  /\ fst (select rq arg m) = Blocked.
Proof.
  intros Hc Hj m.
  assert (m = set_thread (Died (NameError "sys") (Some conn))
                (set_fs fs1 (mkMT file ac journal_mode [] outer_stack None
                               Starting ∅ 0%nat fs0 false [] []))) as Hm.
  { unfold m, Multithread.__init__, _connect. cbn [fs filename Multithread.journal_mode].
    by rewrite Hc, Hj. }
  assert (exception m = None) as He by (by rewrite Hm).
  assert (ended m) as Hend by (unfold ended; by rewrite Hm).
  split_and!.
  - by rewrite Hm.
  - by rewrite Hm.
  - exact He.
  - unfold check_raise_error. by rewrite He.
  - unfold select. by rewrite (bind_Ret _ _ _ _ _ (submit_and_wait_ended m Hend He rq arg)).
Qed.

(** X12. Doubling the double quotes of a table name, as the constructor does, and
    reading the result between double quotes as an SQL identifier gives back
    the name: every name denotes its own table. *)
Theorem escaped_tablename_denotes_the_table (s : string) :
  sql_identifier (escape_dquote s) = s.
Proof.
  induction s as [|c s IH]; [reflexivity|].
  cbn [escape_dquote]. destruct (decide (c = dquote)) as [->|Hc].
  - rewrite bool_decide_eq_true_2 by done. cbn [sql_identifier].
    rewrite bool_decide_eq_true_2 by done. cbn [andb]. by rewrite IH.
  - rewrite bool_decide_eq_false_2 by done. cbn [sql_identifier].
    destruct (escape_dquote s) as [|c' rest] eqn:E.
    + destruct s as [|c2 s2]; [reflexivity|].
      cbn in E. by destruct (bool_decide (c2 = dquote)).
    + rewrite bool_decide_eq_false_2 by done. cbn [andb]. by rewrite IH.
Qed.

(** A call that waits for the worker, made after a statement that fails was
    put on the queue of a ready worker. *)
Lemma wait_after_queued_failure m c stmt arg0 exc :
  ready m = Some c ->
  cursor_execute (working c) stmt (default [] arg0) = inl exc ->
  exists m1,
    execute (Sql stmt) arg0 None m = (Ret tt, m1)
    /\ exception m1 = None
    /\ _outer_stack m1 = _outer_stack m
    /\ thread (drain m1) = Died (NameError "sys") (Some c)
    /\ forall rq arg, exists m2,
         submit_and_wait rq arg m1 = (Ret (next_addr m1, []), m2)
         /\ exception m2 = None.
Proof.
  intros Hr Hx. pose proof (ready_Some _ _ Hr) as (He & Hq & Ht).
  eexists. split; [by apply execute_no_exception|].
  set (r := mkRequest (Sql stmt) (default [] arg0) None
              (if _outer_stack m then Some CallerStack else None)).
  assert (drain (reqs_put r m)
          = set_sent (sent m ++ [r])
              (set_thread (Died (NameError "sys") (Some c))
                 (failed stmt c (log_event (ev_execute stmt (arg r)) (drain m))))) as Hd.
  { rewrite drain_reqs_put, Ht. by erewrite serve_failure. }
  split_and!; [exact He|reflexivity|by rewrite Hd|].
  intros rq arg.
  set (m1 := reqs_put r m) in *.
  set (a := next_addr m1).
  set (h := <[a := []]> (heap m1)).
  assert (drain (env h (S a) m1) = env h (S a) (drain m1)) as Hd'.
  { unfold drain. change (reqs (env h (S a) m1)) with (reqs m1).
    apply run_loop_env. unfold m1. cbn [reqs reqs_put set_sent set_reqs].
    rewrite forallb_app, Hq. reflexivity. }
  eexists. split.
  - unfold submit_and_wait, new_queue.
    rewrite execute_no_exception by exact He.
    fold a. fold h. change (set_next_addr (S a) (set_heap h m1)) with (env h (S a) m1).
    rewrite drain_reqs_put, Hd', Hd.
    cbn [thread env set_next_addr set_heap set_sent set_thread failed
         set_in_transaction log_event heap set_reqs].
    unfold h. rewrite lookup_insert_eq. reflexivity.
  - cbn [exception set_sent set_reqs env set_next_addr set_heap set_thread failed
         set_in_transaction log_event].
    pose proof (drain_frame m) as Hf. injection Hf as _ _ _ _ Hf _ _. by rewrite Hf.
Qed.

(* ===================================================================== *)
(** ** The life of a handle *)
(* ===================================================================== *)

Section Lifecycle.

Context {K V : Type}.
Variable encode : V -> SqlVal.
Variable decode : SqlVal -> V.
Variable encode_key : K -> string.
Variable decode_key : SqlVal -> K.

Lemma on_conn_object {A : Type} attr (call : M A) d o m' :
  Dict.conn d = Dict.conn_object ->
  call (Dict.mt d) = (o, m') ->
  @Dict.on_conn K A attr call d = (Dict.lift_outcome o, Dict.set_mt m' d).
Proof. intros Hc H. unfold Dict.on_conn. by rewrite Hc, H. Qed.

(** [close] on a handle whose worker is ready. *)
Lemma dict_close_ready d c do_log force :
  Dict.conn d = Dict.conn_object ->
  ready (Dict.mt d) = Some c ->
  Dict.in_temp d = false ->
  exists d',
    Dict.close (K:=K) do_log force d = (Ret tt, d')
    /\ Dict.conn d' = Dict.conn_None
    /\ d' = Dict.set_conn Dict.conn_None (Dict.set_mt (Dict.mt d') d)
    /\ thread (Dict.mt d') = Returned (conn_close c)
    /\ exception (Dict.mt d') = None
    /\ fs (Dict.mt d')
       = (if autocommit (Dict.mt d) && negb force
          then conn_commit (fs (drain (Dict.mt d))) c
          else fs (drain (Dict.mt d))).
Proof.
  intros Hconn Hready Htmp.
  assert (exists d1,
    (if autocommit (Dict.mt d) && negb force
     then Dict.on_conn (K:=K) "commit" (commit true) else ret tt) d = (Ret tt, d1)
    /\ Dict.conn d1 = Dict.conn_object /\ d1 = Dict.set_mt (Dict.mt d1) d
    /\ ready (Dict.mt d1) = Some c
    /\ fs (drain (Dict.mt d1))
       = (if autocommit (Dict.mt d) && negb force
          then conn_commit (fs (drain (Dict.mt d))) c
          else fs (drain (Dict.mt d)))) as (d1 & H1 & Hc1 & Hd1 & Hr1 & Hfs1).
  { destruct (autocommit (Dict.mt d) && negb force).
    - destruct (commit_ready_fs _ _ Hready) as (m1 & Hcm & Hfs & Hr & Hq).
      exists (Dict.set_mt m1 d). split_and!; try done.
      + by rewrite (on_conn_object _ _ _ _ _ Hconn Hcm).
      + cbn. rewrite <- Hfs. f_equal. unfold drain. rewrite Hq. cbn.
        rewrite <- Hq. apply set_reqs_id.
    - exists d. split_and!; try done. by destruct d. }
  destruct (close_ready _ _ Hr1) as (m2 & Hcl & Ht2 & Hq2 & He2 & Hfs2 & _).
  exists (Dict.set_conn Dict.conn_None (Dict.set_mt m2 d1)). split.
  - unfold Dict.close. rewrite bind_get. cbv beta. rewrite Hconn. cbv iota.
    erewrite (bind_Ret _ _ d).
    2:{ rewrite bind_get. cbv beta. rewrite (bind_Ret _ _ _ _ _ H1). cbv beta.
        rewrite (bind_Ret _ _ d1 tt (Dict.set_mt m2 d1)); [reflexivity|].
        by rewrite (on_conn_object _ _ _ _ _ Hc1 Hcl). }
    cbv beta. rewrite bind_get. cbv beta. cbn [Dict.in_temp Dict.set_conn Dict.set_mt].
    replace (Dict.in_temp d1) with false by (rewrite Hd1; cbn; congruence).
    reflexivity.
  - cbn. split_and!; try done.
    + rewrite Hd1. reflexivity.
    + congruence.
Qed.

Lemma bind_Blocked {S E A B : Type} (c : S -> Outcome E A * S)
  (k : A -> S -> Outcome E B * S) s s' :
  c s = (Blocked, s') -> bind c k s = (Blocked, s').
Proof. intros H. unfold bind. by rewrite H. Qed.

(** X15. Without autocommit, an assignment of a value the engine can bind that
    no [commit] follows is lost by [close]: the handle's table holds the
    value under the key, and after [close] the file system is what the
    requests pending before the assignment leave. *)
Theorem write_without_commit_is_lost_on_close
  (d : Dict.SqliteDict) (t : Table) (k : K) (v : V) (do_log force : bool) :
  table_state d = Some t ->
  Dict.flag d <> "r" ->
  bindable (encode v) = true ->
  Dict.autocommit d = false ->
  autocommit (Dict.mt d) = false ->
  Dict.in_temp d = false ->
  exists d1 d2 t1,
    Dict.__setitem__ encode encode_key k v d = (Ret tt, d1)
    /\ table_state d1 = Some t1
    /\ map value (where_key (SqlText (encode_key k)) t1) = [encode v]
    /\ Dict.close (K:=K) do_log force d1 = (Ret tt, d2)
    /\ Dict.conn d2 = Dict.conn_None
    /\ fs (Dict.mt d2) = fs (drain (Dict.mt d)).
Proof.
  intros Hs Hf Hb Hac Hmac Htmp.
  pose proof (table_state_Some _ _ Hs) as (Hconn & c & Hr & Hw).
  pose proof (ready_Some _ _ Hr) as (He & _).
  set (stmt := Dict.ADD_ITEM (Dict.tablename d)).
  set (arg := [SqlText (encode_key k); encode v]).
  destruct (cursor_execute_on_table (working c) stmt arg t Hw eq_refl eq_refl)
    as (db' & Hx & Hw'); [cbn; by rewrite Hb|].
  destruct (fire_and_forget_statement_and_the_file _ _ stmt (Some arg) _ _ Hr Hx)
    as (m1 & Hex & Hr1 & Hfs1).
  rewrite Hmac in Hfs1.
  assert (fs (drain m1) = fs (drain (Dict.mt d))) as Hfs1'.
  { rewrite Hfs1. unfold after_execute. cbn.
    by destruct (in_transaction (drain (Dict.mt d))). }
  assert (autocommit m1 = false) as Hmac1.
  { rewrite execute_no_exception in Hex by exact He. injection Hex as <-. exact Hmac. }
  set (d1 := Dict.set_mt m1 d).
  destruct (dict_close_ready d1 _ do_log force Hconn Hr1 Htmp)
    as (d2 & Hcl & Hc2 & _ & _ & _ & Hfs2).
  exists d1, d2, (replace_into (SqlText (encode_key k)) (encode v) t).
  split_and!.
  - unfold Dict.__setitem__. run_get. rewrite bool_decide_eq_false_2 by exact Hf. run_get.
    rewrite (bind_Ret _ _ d tt d1); [|by rewrite (on_conn_object _ _ _ _ _ Hconn Hex)].
    cbv beta. rewrite bind_get. cbv beta. unfold d1. cbn [Dict.autocommit Dict.set_mt].
    by rewrite Hac.
  - unfold table_state, d1. cbn [Dict.conn Dict.mt Dict.tablename Dict.set_mt].
    rewrite Hconn, Hr1. cbn [working]. exact Hw'.
  - by rewrite where_replace_into.
  - exact Hcl.
  - exact Hc2.
  - rewrite Hfs2. unfold d1. cbn [Dict.mt Dict.set_mt]. rewrite Hmac1. cbn [andb].
    exact Hfs1'.
Qed.

(** X29. An assignment of a value the engine cannot bind: the statement fails
    in the worker, which ends on the unbound [sys] of its handler. With the
    handle's autocommit the assignment itself never returns, waiting for its
    commit; without it the assignment returns, and then the reads, and a
    commit, never return. *)
Theorem unbound_value_ends_the_worker (d : Dict.SqliteDict) (t : Table)
  (k k' : K) (v : V) :
  table_state d = Some t ->
  Dict.flag d <> "r" ->
  bindable (encode v) = false ->
  (Dict.autocommit d = true ->
   fst (Dict.__setitem__ encode encode_key k v d) = Blocked)
  /\ (Dict.autocommit d = false ->
      exists d1,
        Dict.__setitem__ encode encode_key k v d = (Ret tt, d1)
        /\ fst (Dict.__getitem__ decode encode_key k' d1) = Blocked
        /\ fst (Dict.__contains__ encode_key k' d1) = Blocked
        /\ fst (Dict.__len__ (K:=K) d1) = Blocked
        /\ fst (Dict.keys decode_key d1) = Blocked
        /\ fst (Dict.commit (K:=K) true d1) = Blocked).
Proof.
  intros Hs Hf Hb.
  pose proof (table_state_Some _ _ Hs) as (Hconn & c & Hr & Hw).
  set (stmt := Dict.ADD_ITEM (Dict.tablename d)).
  set (arg := [SqlText (encode_key k); encode v]).
  assert (cursor_execute (working c) stmt (default [] (Some arg)) = inl OverflowError)
    as Hx.
  { apply (cursor_execute_unbound (working c) stmt arg t Hw eq_refl eq_refl).
    cbn. by rewrite Hb. }
  destruct (wait_after_queued_failure _ _ _ _ _ Hr Hx) as (m1 & Hex & He1 & _ & _ & Hwait).
  set (d1 := Dict.set_mt m1 d).
  assert (forall rq arg, fst (select_one rq arg m1) = Blocked) as Hone.
  { intros rq arg'. destruct (Hwait rq arg') as (m2 & H2 & _).
    unfold select_one. by rewrite (bind_Ret _ _ _ _ _ H2). }
  assert (forall rq arg, fst (select rq arg m1) = Blocked) as Hsel.
  { intros rq arg'. destruct (Hwait rq arg') as (m2 & H2 & _).
    unfold select. by rewrite (bind_Ret _ _ _ _ _ H2). }
  assert (forall A attr (call : M A),
            fst (call m1) = Blocked ->
            forall B (k : A -> Dict.D B),
              fst (bind (@Dict.on_conn K A attr call) k d1) = Blocked) as Hblk.
  { intros A attr call Hc B k0. unfold bind, Dict.on_conn, d1.
    cbn [Dict.conn Dict.mt Dict.set_mt]. rewrite Hconn.
    destruct (call m1) as [o m'] eqn:E. cbn [fst] in Hc. subst o. reflexivity. }
  assert (Dict.__setitem__ encode encode_key k v d
          = (if Dict.autocommit d then Dict.commit true else ret tt) d1) as Hset.
  { unfold Dict.__setitem__. run_get. rewrite bool_decide_eq_false_2 by exact Hf. run_get.
    rewrite (bind_Ret _ _ d tt d1); [|by rewrite (on_conn_object _ _ _ _ _ Hconn Hex)].
    cbv beta. rewrite bind_get. reflexivity. }
  assert (fst (Dict.commit (K:=K) true d1) = Blocked) as Hcommit.
  { unfold Dict.commit, d1. cbn [Dict.conn Dict.set_mt]. rewrite Hconn.
    unfold Dict.on_conn. cbn [Dict.conn Dict.mt Dict.set_mt]. rewrite Hconn.
    unfold commit. unfold bind.
    pose proof (Hone _REQUEST_COMMIT None) as H1.
    destruct (select_one _REQUEST_COMMIT None m1) as [o m'].
    cbn [fst] in H1. subst o. reflexivity. }
  split.
  - intros Hac. rewrite Hset. unfold d1 at 1. cbn [Dict.autocommit Dict.set_mt].
    rewrite Hac. exact Hcommit.
  - intros Hac. exists d1. split_and!.
    + rewrite Hset. unfold d1 at 1. cbn [Dict.autocommit Dict.set_mt]. by rewrite Hac.
    + unfold Dict.__getitem__. run_get. apply Hblk, Hone.
    + unfold Dict.__contains__. run_get. apply Hblk, Hone.
    + unfold Dict.__len__. run_get. apply Hblk, Hone.
    + unfold Dict.keys, Dict.iterkeys. run_get. apply Hblk, Hsel.
    + exact Hcommit.
Qed.

(** X16. On a handle that is neither read-only nor on [:memory:], [terminate] closes
    the connection, sets [conn] to [None] and leaves no file under the
    handle's file name. *)
Theorem terminate_closes_and_removes_the_file (d : Dict.SqliteDict) (c : Conn) :
  Dict.conn d = Dict.conn_object ->
  ready (Dict.mt d) = Some c ->
  Dict.flag d <> "r" ->
  Dict.in_temp d = false ->
  Dict.filename d <> memory ->
  exists d',
    Dict.terminate (K:=K) d = (Ret tt, d')
    /\ Dict.conn d' = Dict.conn_None
    /\ thread (Dict.mt d') = Returned (conn_close c)
    /\ files (fs (Dict.mt d')) !! Dict.filename d = None.
Proof.
  intros Hconn Hr Hf Htmp Hmem.
  destruct (dict_close_ready d c true false Hconn Hr Htmp)
    as (d1 & Hcl & Hc1 & Hd1 & Ht1 & _ & _).
  assert (Dict.filename d1 = Dict.filename d) as Hfn by (rewrite Hd1; reflexivity).
  unfold Dict.terminate. run_get. rewrite bool_decide_eq_false_2 by exact Hf.
  rewrite (bind_Ret _ _ _ _ _ Hcl). cbv beta. rewrite bind_get. cbv beta.
  rewrite Hfn. rewrite bool_decide_eq_false_2 by exact Hmem.
  unfold path_isfile, Dict.try_remove, os_remove, path_isfile.
  destruct (bool_decide (Dict.filename d ∈ dom (files (fs (Dict.mt d1))))) eqn:E.
  - eexists. split; [reflexivity|]. cbn. split_and!; try done.
    apply lookup_delete_eq.
  - exists d1. split_and!; try done.
    apply bool_decide_eq_false in E. by apply not_elem_of_dom.
Qed.

(** X17. [__del__], and [close(force=True)], on a handle whose worker has ended
    never return: [force] only skips the commit, and the connection is closed
    with the [close()] that waits for the worker. *)
Theorem disposal_waits_for_an_ended_worker (d : Dict.SqliteDict) :
  Dict.conn d = Dict.conn_object ->
  ended (Dict.mt d) ->
  exception (Dict.mt d) = None ->
  fst (Dict.__del__ (K:=K) d) = Blocked
  /\ fst (Dict.close (K:=K) true true d) = Blocked.
Proof.
  intros Hconn Hend He.
  assert (exists d', Dict.close (K:=K) false true d = (Blocked, d')
                     /\ Dict.close (K:=K) true true d = (Blocked, d')) as (d' & H1 & H2).
  { pose proof (submit_and_wait_ended _ Hend He _REQUEST_CLOSE None) as Hw.
    assert (exists m', close false (Dict.mt d) = (Blocked, m')) as (m' & Hcl).
    { unfold close, select_one. unfold bind at 1.
      rewrite (bind_Ret _ _ _ _ _ Hw). cbn. eauto. }
    exists (Dict.set_mt m' d).
    unfold Dict.close. rewrite !bind_get. cbv beta. rewrite Hconn. cbv iota.
    rewrite (bind_Blocked _ _ d (Dict.set_mt m' d)); [done|].
    rewrite bind_get. cbv beta. rewrite andb_false_r.
    rewrite (bind_Ret _ _ d tt d) by reflexivity.
    apply bind_Blocked. by rewrite (on_conn_object _ _ _ _ _ Hconn Hcl). }
  split.
  - unfold Dict.__del__. by rewrite H1.
  - by rewrite H2.
Qed.

(** X18. Once [close] has set [conn] to [None], the reading and the writing methods
    raise [AttributeError] for the connection method they would call and
    leave the handle as it is; [commit] returns having done nothing. *)
Theorem methods_on_a_closed_handle (d : Dict.SqliteDict) (k : K) (v : V)
  (blocking : bool) :
  Dict.conn d = Dict.conn_None ->
  Dict.flag d <> "r" ->
  Dict.__getitem__ decode encode_key k d
  = (Raise (Dict.Exc (AttributeError "select_one")), d)
  /\ Dict.__contains__ encode_key k d
     = (Raise (Dict.Exc (AttributeError "select_one")), d)
  /\ Dict.__len__ (K:=K) d = (Raise (Dict.Exc (AttributeError "select_one")), d)
  /\ Dict.keys decode_key d = (Raise (Dict.Exc (AttributeError "select")), d)
  /\ Dict.__setitem__ encode encode_key k v d
     = (Raise (Dict.Exc (AttributeError "execute")), d)
  /\ Dict.__delitem__ encode_key k d
     = (Raise (Dict.Exc (AttributeError "select_one")), d)
  /\ Dict.clear (K:=K) d = (Raise (Dict.Exc (AttributeError "commit")), d)
  /\ Dict.commit (K:=K) blocking d = (Ret tt, d).
Proof.
  intros Hconn Hf.
  split_and!;
    unfold Dict.__getitem__, Dict.__len__, Dict.keys, Dict.iterkeys,
      Dict.__setitem__, Dict.__delitem__, Dict.__contains__, Dict.clear, Dict.commit;
    run_get; rewrite ?(bool_decide_eq_false_2 _ Hf); run_get;
    unfold bind, Dict.on_conn, Dict.get; cbv beta iota; by rewrite Hconn.
Qed.

Lemma has_nul_sql_identifier (t : string) :
  has_nul (sql_identifier t) = has_nul t.
Proof.
  assert (forall n t, (String.length t <= n)%nat ->
                      has_nul (sql_identifier t) = has_nul t) as H.
  { induction n as [|n IH]; intros [|c [|c' s]] Hl; try reflexivity;
      cbn [String.length] in Hl; try lia.
    change (sql_identifier (String c (String c' s)))
      with (if bool_decide (c = dquote) && bool_decide (c' = dquote)
            then String dquote (sql_identifier s)
            else String c (sql_identifier (String c' s))).
    destruct (bool_decide (c = dquote) && bool_decide (c' = dquote)) eqn:E.
    - apply andb_prop in E as [->%bool_decide_eq_true ->%bool_decide_eq_true].
      cbn [has_nul]. rewrite IH by lia. reflexivity.
    - change (has_nul (String c (sql_identifier (String c' s))))
        with (bool_decide (c = NUL) || has_nul (sql_identifier (String c' s))).
      rewrite IH by (cbn [String.length]; lia). reflexivity. }
  by apply (H (String.length t)).
Qed.

Lemma not_reserved_not_schema name :
  reserved name = false -> main_schema name || temp_schema name = false.
Proof.
  intros Hr. destruct (main_schema _ || temp_schema _) eqn:E; [|done].
  apply schema_is_reserved in E. congruence.
Qed.

(** [CREATE TABLE IF NOT EXISTS] with the columns of the class. *)
Lemma cursor_execute_create (db : DB) t :
  let name := sql_identifier t in
  has_nul t = false ->
  reserved name = false ->
  is_index db name = false ->
  exists db',
    cursor_execute db (CREATE_TABLE_IF_NOT_EXISTS t Dict.standard_columns) []
    = inr (db', [])
    /\ table_rows db' name = Some (default [] (table_rows db name))
    /\ (forall k, k <> fold_case name -> db' !! k = db !! k).
Proof.
  intros name Hn Hr Hi.
  assert (has_nul name = false) as Hn' by (unfold name; by rewrite has_nul_sql_identifier).
  unfold cursor_execute, prepare, bind_parameters, text_has_nul.
  cbn [table_of_stmt]. fold name.
  rewrite Hn, (not_reserved_not_schema _ Hr), Hr. cbn.
  unfold is_index in Hi. unfold table_rows at 2, find_table. rewrite Hr, Hn'. cbn.
  destruct (db !! fold_case name) as [[declared rows|]|] eqn:E; [|done|].
  - exists db. split_and!; [done| |done].
    unfold table_rows, find_table. by rewrite Hr, Hn', E.
  - eexists. split_and!; [done| |].
    + by apply table_rows_insert.
    + intros k Hk. by apply lookup_insert_ne.
Qed.

(** [CREATE INDEX IF NOT EXISTS] on the key column. *)
Lemma cursor_execute_create_index (db : DB) t rows :
  let name := sql_identifier t in
  has_nul t = false ->
  table_rows db name = Some rows ->
  fold_case name <> "idx_key" ->
  is_table db "idx_key" = false ->
  exists db',
    cursor_execute db (CREATE_INDEX_IF_NOT_EXISTS "key" t) [] = inr (db', [])
    /\ table_rows db' name = Some rows.
Proof.
  intros name Hn Ht Hne Hi.
  destruct (table_rows_Some _ _ _ Ht) as (Hr & Hn' & declared & Hl).
  unfold cursor_execute, prepare, bind_parameters, text_has_nul.
  cbn [table_of_stmt]. fold name.
  rewrite Hn, (not_reserved_not_schema _ Hr). cbn [has_nul orb].
  unfold find_table at 1. rewrite Hr, Hn', Hl. cbn [orb].
  unfold is_table in Hi.
  change (fold_case (String.append "idx_" "key")) with "idx_key".
  change (fold_case "idx_key") with "idx_key" in Hi.
  destruct (db !! "idx_key") as [[n r|n r]|] eqn:E; [done| |].
  - exists db. by split.
  - rewrite (bool_decide_eq_true_2 (fold_case "key" ∈ ["key"; "value"]))
      by (change (fold_case "key") with "key"; apply list_elem_of_here). cbn.
    eexists. split; [done|].
    unfold table_rows, find_table. rewrite Hr, Hn'. cbn [orb].
    by rewrite lookup_insert_ne, Hl.
Qed.

(** X19. [create_table] on a ready handle, for a table name the engine accepts
    (no NUL character, not one of the engine's [sqlite_] names, not the name
    of an index) that does not clash with the name of the index on the key:
    the table is created empty if the database has none of that name, in
    whatever case, and the rows of one that is there are kept; a second
    [create_table] and [create_indexes] leave the table as it is. *)
Theorem create_table_is_idempotent (d : Dict.SqliteDict) (c : Conn) :
  let name := sql_identifier (Dict.tablename d) in
  Dict.conn d = Dict.conn_object ->
  ready (Dict.mt d) = Some c ->
  has_nul (Dict.tablename d) = false ->
  reserved name = false ->
  is_index (working c) name = false ->
  fold_case name <> "idx_key" ->
  is_table (working c) "idx_key" = false ->
  exists d1 d2 d3,
    Dict.create_table (K:=K) d = (Ret tt, d1)
    /\ table_state d1 = Some (default [] (table_rows (working c) name))
    /\ Dict.create_table (K:=K) d1 = (Ret tt, d2)
    /\ table_state d2 = table_state d1
    /\ Dict.create_indexes (K:=K) d2 = (Ret tt, d3)
    /\ table_state d3 = table_state d1.
Proof.
  intros name Hconn Hr Hn Hres Hi Hne Hik.
  set (t := Dict.tablename d) in *.
  assert (forall d0, Dict.tablename d0 = t ->
            Dict.all_columns d0 = Dict.standard_columns) as Hcols by reflexivity.
  assert (forall (d0 : Dict.SqliteDict) c0 stmt db0,
            Dict.conn d0 = Dict.conn_object -> Dict.tablename d0 = t ->
            ready (Dict.mt d0) = Some c0 ->
            cursor_execute (working c0) stmt [] = inr (db0, []) ->
            exists d',
              @Dict.on_conn K _ "execute" (execute (Sql stmt) None None) d0 = (Ret tt, d')
              /\ Dict.conn d' = Dict.conn_object /\ Dict.tablename d' = t
              /\ ready (Dict.mt d') = Some (mkConn (conn_path c0) db0 false)
              /\ table_state d' = table_rows db0 name) as Hstep.
  { intros d0 c0 stmt db0 Hc0 Ht0 Hr0 Hx.
    destruct (execute_sql_ready _ _ _ None _ _ Hr0 Hx) as (m' & Hex & (Hr' & _)).
    exists (Dict.set_mt m' d0). split_and!; try done.
    - by rewrite (on_conn_object _ _ _ _ _ Hc0 Hex).
    - unfold table_state. cbn [Dict.conn Dict.mt Dict.tablename Dict.set_mt].
      by rewrite Hc0, Hr', Ht0. }
  destruct (cursor_execute_create (working c) t Hn Hres Hi) as (db1 & Hx1 & Ht1 & Hk1).
  destruct (Hstep d c _ _ Hconn eq_refl Hr Hx1) as (d1 & H1 & Hc1 & Hn1 & Hr1 & Hs1).
  assert (is_index db1 name = false) as Hi1.
  { destruct (table_rows_Some _ _ _ Ht1) as (_ & _ & declared & Hl).
    unfold is_index. fold name in Hl. by rewrite Hl. }
  destruct (cursor_execute_create db1 t Hn Hres Hi1) as (db2 & Hx2 & Ht2 & Hk2).
  destruct (Hstep d1 _ _ _ Hc1 Hn1 Hr1 Hx2) as (d2 & H2 & Hc2 & Hn2 & Hr2 & Hs2).
  fold name in Ht1, Ht2. rewrite Ht1 in Ht2. cbn [default from_option id] in Ht2.
  assert (is_table db2 "idx_key" = false) as Hik2.
  { unfold is_table in *. change (fold_case "idx_key") with "idx_key" in *.
    rewrite Hk2, Hk1 by (fold name; congruence). exact Hik. }
  destruct (cursor_execute_create_index db2 t _ Hn Ht2 Hne Hik2) as (db3 & Hx3 & Ht3).
  destruct (Hstep d2 _ _ _ Hc2 Hn2 Hr2 Hx3) as (d3 & H3 & Hc3 & Hn3 & Hr3 & Hs3).
  exists d1, d2, d3. split_and!.
  - unfold Dict.create_table. run_get. exact H1.
  - by rewrite Hs1.
  - unfold Dict.create_table. run_get. rewrite Hn1. exact H2.
  - by rewrite Hs2, Hs1, Ht2, Ht1.
  - unfold Dict.create_indexes. run_get.
    change (Dict.create_each_index (K:=K) ["key"] d2 = (Ret tt, d3)).
    cbn [Dict.create_each_index].
    run_get. rewrite Hn2. rewrite (bind_Ret _ _ _ _ _ H3). reflexivity.
  - fold name in Ht3. by rewrite Hs3, Hs1, Ht3, Ht1.
Qed.

(** X20. In read-only mode the rest of the constructor sends nothing to the worker
    and changes nothing: it returns if the escaped table name is among the
    tables of the file, and otherwise raises the [RuntimeError] that names the
    table as the caller gave it. *)
Theorem read_only_open_consults_the_catalogue
  (d : Dict.SqliteDict) (db : DB) (orig_tablename : string) :
  Dict.flag d = "r" ->
  files (fs (Dict.mt d)) !! Dict.filename d = Some db ->
  Dict.open_table (K:=K) orig_tablename d
  = (if bool_decide (Dict.tablename d ∈ table_names db)
     then Ret tt
     else Raise (Dict.Exc (RuntimeError (Refusing_to_create_table orig_tablename))),
     d).
Proof.
  intros Hf Hfile. unfold Dict.open_table. run_get. rewrite Hf.
  rewrite (bool_decide_eq_true_2 ("r" = "r")) by done.
  rewrite (bool_decide_eq_false_2 ("r" = "w")) by done.
  unfold bind, Dict.get_tablenames. rewrite Hfile.
  by destruct (bool_decide (Dict.tablename d ∈ table_names db)).
Qed.

(** X14. The handle's [commit] does not pass [blocking] on: whatever its value, on a
    ready handle the call returns only when the worker has committed, the
    file holding the connection's view and the queue empty; the worker's own
    [commit(blocking=False)] returns with the request still queued and the
    file as it was. *)
Theorem handle_commit_ignores_blocking
  (d : Dict.SqliteDict) (c : Conn) (blocking : bool) :
  Dict.conn d = Dict.conn_object ->
  ready (Dict.mt d) = Some c ->
  conn_path c <> memory ->
  (exists d',
      Dict.commit (K:=K) blocking d = (Ret tt, d')
      /\ files (fs (Dict.mt d')) !! conn_path c = Some (working c)
      /\ reqs (Dict.mt d') = [])
  /\ (exists m',
        commit false (Dict.mt d) = (Ret tt, m')
        /\ reqs m' = reqs (Dict.mt d)
                     ++ [mkRequest _REQUEST_COMMIT [] None (stack_of (Dict.mt d))]
        /\ fs m' = fs (Dict.mt d)).
Proof.
  intros Hconn Hr Hmem.
  destruct (commit_ready_fs _ _ Hr) as (m' & Hc & Hfs & _ & Hq).
  split.
  - exists (Dict.set_mt m' d). unfold Dict.commit. rewrite Hconn.
    rewrite (on_conn_object _ _ _ _ _ Hconn Hc). cbn [Dict.mt Dict.set_mt].
    split_and!; [done| |done]. rewrite Hfs. by apply conn_commit_file.
  - pose proof (ready_Some _ _ Hr) as (He & _). eexists.
    unfold commit. rewrite execute_no_exception by exact He.
    split_and!; reflexivity.
Qed.

End Lifecycle.

(* ===================================================================== *)
(** ** The content of a handle *)
(* ===================================================================== *)

Lemma insert_by_rowid_length r (t : Table) :
  length (insert_by_rowid r t) = S (length t).
Proof.
  induction t as [|r' t IH]; [reflexivity|].
  cbn [insert_by_rowid]. destruct (rowid r <=? rowid r'); cbn [length]; by rewrite ?IH.
Qed.

Lemma order_by_rowid_length (t : Table) : length (order_by_rowid t) = length t.
Proof.
  unfold order_by_rowid. induction t as [|r t IH]; [reflexivity|].
  cbn [foldr length]. by rewrite insert_by_rowid_length, IH.
Qed.

Lemma max_rowid_None (t : Table) : max_rowid t = None <-> t = [].
Proof.
  destruct t as [|r t]; [done|]. rewrite max_rowid_cons. split; discriminate.
Qed.

Lemma where_key_delete_other (s s' : string) (t : Table) :
  s' <> s ->
  where_key (SqlText s') (delete_key (SqlText s) t) = where_key (SqlText s') t.
Proof.
  intros Hne. unfold where_key, delete_key. induction t as [|r t IH]; [reflexivity|].
  rewrite (filter_cons (fun r => sql_eq (key r) (SqlText s) = false)).
  rewrite (filter_cons (fun r => sql_eq (key r) (SqlText s') = true) r t).
  destruct (decide (sql_eq (key r) (SqlText s) = false)) as [E|E].
  - rewrite filter_cons. by rewrite IH.
  - rewrite IH. rewrite decide_False; [done|].
    intros E'. apply sql_eq_true in E'. apply not_false_iff_true, sql_eq_true in E.
    congruence.
Qed.

Lemma where_key_replace_other (s s' : string) v (t : Table) :
  s' <> s ->
  where_key (SqlText s') (replace_into (SqlText s) v t) = where_key (SqlText s') t.
Proof.
  intros Hne. unfold replace_into. unfold where_key at 1. rewrite filter_app.
  fold (where_key (SqlText s') (delete_key (SqlText s) t)).
  rewrite where_key_delete_other by done.
  rewrite filter_cons_False, filter_nil, app_nil_r; [done|].
  cbn [key]. rewrite sql_eq_text. by rewrite bool_decide_eq_false_2.
Qed.

Section Contents.

Context {K V : Type} `{EqDecision K}.
Variable encode : V -> SqlVal.
Variable decode : SqlVal -> V.
Variable encode_key : K -> string.
Variable decode_key : SqlVal -> K.

Lemma for_each_values (t : Table) d :
  Dict.for_each (K:=K) (fun value => let! v := Dict.item0 value in ret (decode v))
    (map (fun r => [value r]) t) d
  = (Ret (map (fun r => decode (value r)) t), d).
Proof.
  induction t as [|r t IH]; [reflexivity|].
  cbn [map Dict.for_each].
  rewrite (bind_Ret _ _ d (decode (value r)) d) by reflexivity.
  by rewrite (bind_Ret _ _ _ _ _ IH).
Qed.

Lemma for_each_items (t : Table) d :
  Dict.for_each (K:=K)
    (fun row => match row with
                | [key; value] => ret (decode_key key, decode value)
                | _ => raise Dict.ValueError
                end)
    (map (fun r => [key r; value r]) t) d
  = (Ret (map (fun r => (decode_key (key r), decode (value r))) t), d).
Proof.
  induction t as [|r t IH]; [reflexivity|].
  cbn [map Dict.for_each].
  rewrite (bind_Ret _ _ d (decode_key (key r), decode (value r)) d) by reflexivity.
  by rewrite (bind_Ret _ _ _ _ _ IH).
Qed.

Lemma values_spec d t :
  table_state d = Some t ->
  exists d',
    Dict.values (K:=K) decode d
    = (Ret (map (fun r => decode (value r)) (order_by_rowid t)), d')
    /\ keeps d d' t [Sql (SELECT_value_ORDER_BY_rowid (Dict.tablename d))].
Proof.
  intros Hs. unfold Dict.values, Dict.itervalues. run_get.
  destruct (dict_select (K:=K) d t (Dict.GET_VALUES (Dict.tablename d)) None
              Hs eq_refl eq_refl eq_refl eq_refl) as (d1 & H1 & K1 & Q1).
  run_call H1.
  cbn [default from_option id run_stmt Dict.GET_VALUES fst snd] in *.
  exists d1. split_and!; try done. apply for_each_values.
Qed.

Lemma items_spec d t :
  table_state d = Some t ->
  exists d',
    Dict.items decode decode_key d
    = (Ret (map (fun r => (decode_key (key r), decode (value r))) (order_by_rowid t)), d')
    /\ keeps d d' t [Sql (SELECT_key_value_ORDER_BY_rowid (Dict.tablename d))].
Proof.
  intros Hs. unfold Dict.items, Dict.iteritems. run_get.
  destruct (dict_select (K:=K) d t (Dict.GET_ITEMS (Dict.tablename d)) None
              Hs eq_refl eq_refl eq_refl eq_refl) as (d1 & H1 & K1 & Q1).
  run_call H1.
  cbn [default from_option id run_stmt Dict.GET_ITEMS fst snd] in *.
  exists d1. split_and!; try done. apply for_each_items.
Qed.

Lemma zip_maps {A B C : Type} (f : A -> B) (g : A -> C) (l : list A) :
  zip (map f l) (map g l) = map (fun x => (f x, g x)) l.
Proof. induction l as [|x l IH]; [reflexivity|]. cbn. by rewrite IH. Qed.

(** X21. On the same table [items()] is [keys()] zipped with [values()], the two
    have the same length, and it is the number [__len__] returns. *)
Theorem items_pair_keys_with_values (d : Dict.SqliteDict) (t : Table) :
  table_state d = Some t ->
  exists ks vs d1 d2 d3 d4,
    Dict.keys decode_key d = (Ret ks, d1)
    /\ Dict.values (K:=K) decode d1 = (Ret vs, d2)
    /\ Dict.items decode decode_key d2 = (Ret (zip ks vs), d3)
    /\ Dict.__len__ (K:=K) d3 = (Ret (SqlInt (Z.of_nat (length ks))), d4)
    /\ length vs = length ks.
Proof.
  intros Hs.
  destruct (keys_spec decode_key d t Hs) as (d1 & H1 & K1 & _).
  destruct (values_spec d1 t (proj1 K1)) as (d2 & H2 & K2).
  destruct (items_spec d2 t (proj1 K2)) as (d3 & H3 & K3).
  destruct (len_spec (K:=K) d3 t (proj1 K3)) as (d4 & H4 & _).
  eexists _, _, d1, d2, d3, d4. split_and!; [exact H1|exact H2| | |].
  - rewrite zip_maps. exact H3.
  - by rewrite length_map, order_by_rowid_length.
  - by rewrite !length_map.
Qed.

(** X22. [__bool__] is true exactly when [__len__] is not zero, and [__len__] is
    never negative. *)
Theorem bool_agrees_with_len (d : Dict.SqliteDict) (t : Table) :
  table_state d = Some t ->
  exists n d1 d2,
    Dict.__len__ (K:=K) d = (Ret (SqlInt n), d1)
    /\ Dict.__bool__ (K:=K) d1 = (Ret (negb (n =? 0)), d2)
    /\ 0 <= n.
Proof.
  intros Hs.
  destruct (len_spec (K:=K) d t Hs) as (d1 & H1 & K1 & _).
  destruct (bool_spec (K:=K) d1 t (proj1 K1)) as (d2 & H2 & _).
  exists (Z.of_nat (length t)), d1, d2. split_and!; [exact H1| |lia].
  rewrite H2. do 3 f_equal.
  destruct t as [|r t]; [reflexivity|]. by rewrite max_rowid_cons.
Qed.

(** X23. Assigning a value the engine can bind to a key puts the key last in
    [keys()], whether or not it was there: the listing after the assignment
    is the listing before without the key, followed by the key. The key
    hooks are inverse to each other, the table is as the handle's own
    writes leave one, and its largest rowid is not the last one. *)
Theorem reassigned_key_moves_to_the_end (d : Dict.SqliteDict) (t : Table)
  (k : K) (v : V) :
  (forall k, decode_key (SqlText (encode_key k)) = k) ->
  table_state d = Some t ->
  Dict.flag d <> "r" ->
  bindable (encode v) = true ->
  rowids_left 1 t = true ->
  well_formed t ->
  encoded encode_key t ->
  exists ks d0 d1 d2,
    Dict.keys decode_key d = (Ret ks, d0)
    /\ Dict.__setitem__ encode encode_key k v d0 = (Ret tt, d1)
    /\ Dict.keys decode_key d1 = (Ret (filter (fun k' => k' <> k) ks ++ [k]), d2).
Proof.
  intros Hde Hs Hf Hb _ Hwf Henc.
  destruct (keys_spec decode_key d t Hs) as (d0 & H0 & K0 & _).
  destruct (keeps_attrs _ _ _ _ K0) as (Hf0 & _).
  destruct (setitem_spec encode encode_key d0 t k v (proj1 K0)) as (d1 & H1 & K1);
    [congruence|exact Hb|].
  destruct (keys_spec decode_key d1 _ (proj1 K1)) as (d2 & H2 & _).
  rewrite (order_by_rowid_sorted t) in H0 by apply Hwf.
  rewrite order_by_rowid_sorted in H2
    by (by apply (replace_into_well_formed (encode_key k) (encode v))).
  eexists _, d0, d1, d2. split_and!; [exact H0|exact H1|].
  rewrite H2. do 2 f_equal.
  exact (keys_of_apply_op encode encode_key decode_key Hde t (Dict.op_set k v) Henc).
Qed.

Lemma replace_all_foldl (items : list (K * V)) (t : Table) :
  replace_all encode encode_key items t
  = foldl (apply_op encode encode_key) t
      (map (fun kv => Dict.op_set (fst kv) (snd kv)) items).
Proof.
  unfold replace_all. revert t. induction items as [|kv items IH]; intros t; [done|].
  cbn [map foldl apply_op]. apply IH.
Qed.

(** X24. [update(items, **kwds)] with values the engine can bind, on a table with
    rowids left for them, leaves the table that the assignments of the pairs
    of [items] and then of [kwds], one by one in that order, leave. *)
Theorem update_is_repeated_assignment (d : Dict.SqliteDict) (t : Table)
  (items kwds : list (K * V)) :
  table_state d = Some t ->
  Dict.flag d <> "r" ->
  Forall (fun kv => bindable (encode (snd kv)) = true) (items ++ kwds) ->
  rowids_left (length (items ++ kwds)) t = true ->
  exists d1 d2 t',
    Dict.update encode encode_key items kwds d = (Ret tt, d1)
    /\ Dict.run_ops encode encode_key
         (map (fun kv => Dict.op_set (fst kv) (snd kv)) (items ++ kwds)) d
       = (Ret tt, d2)
    /\ table_state d1 = Some t'
    /\ table_state d2 = Some t'.
Proof.
  intros Hs Hf Hb _.
  pose proof (proj1 (Forall_app _ _ _) Hb) as [Hbi Hbk].
  destruct (update_spec encode encode_key d t items kwds Hs Hf Hbi Hbk)
    as (d1 & rs & H1 & K1).
  destruct (run_ops_spec encode encode_key
              (map (fun kv => Dict.op_set (fst kv) (snd kv)) (items ++ kwds)) d t Hs Hf)
    as (d2 & H2 & Hs2).
  { apply Forall_fmap. eapply Forall_impl; [exact Hb|]. by intros [k v]. }
  exists d1, d2. eexists. split_and!; [exact H1|exact H2|apply K1|].
  rewrite Hs2. f_equal. rewrite map_app, foldl_app. by rewrite !replace_all_foldl.
Qed.

(** X25. After [del d[key]], whether it returned or raised [KeyError], the key is
    absent: [key in d] is [False], [d[key]] raises [KeyError] and so does a
    second [del d[key]]; the rows under other keys are all kept. *)
Theorem deleted_key_is_absent (d : Dict.SqliteDict) (t : Table) (k : K) :
  table_state d = Some t ->
  Dict.flag d <> "r" ->
  exists out d1 d2 d3 d4,
    Dict.__delitem__ encode_key k d = (out, d1)
    /\ (out = Ret tt \/ out = Raise (Dict.KeyError k))
    /\ Dict.__contains__ encode_key k d1 = (Ret false, d2)
    /\ Dict.__getitem__ decode encode_key k d2 = (Raise (Dict.KeyError k), d3)
    /\ Dict.__delitem__ encode_key k d3 = (Raise (Dict.KeyError k), d4)
    /\ table_state d4 = Some (delete_key (SqlText (encode_key k)) t).
Proof.
  intros Hs Hf.
  destruct (delitem_spec encode_key d t k Hs Hf) as (d1 & H1 & K1).
  assert (table_state d1 = Some (delete_key (SqlText (encode_key k)) t)) as Hs1.
  { destruct (where_key (SqlText (encode_key k)) t) eqn:E; [|apply K1].
    rewrite delete_key_absent by exact E. apply K1. }
  destruct (keeps_attrs _ _ _ _ K1) as (Hf1 & _).
  destruct (contains_spec encode_key d1 _ k Hs1) as (d2 & H2 & K2 & _).
  destruct (getitem_spec decode encode_key d2 _ k (proj1 K2)) as (d3 & H3 & K3 & _).
  destruct (keeps_attrs _ _ _ _ K2) as (Hf2 & _).
  destruct (keeps_attrs _ _ _ _ K3) as (Hf3 & _).
  destruct (delitem_spec encode_key d3 _ k (proj1 K3)) as (d4 & H4 & K4); [congruence|].
  rewrite where_delete in H2, H3, H4, K4.
  eexists _, d1, d2, d3, d4. split_and!; [exact H1| |exact H2|exact H3|exact H4|apply K4].
  destruct (where_key (SqlText (encode_key k)) t); [by right|by left].
Qed.

(** X26. An assignment of a value the engine can bind to a key, or the deletion
    of a key, does not change what [d[key']] returns or raises for a key
    whose encoding is different. *)
Theorem write_leaves_the_other_keys (d : Dict.SqliteDict) (t : Table)
  (o : @Dict.Op K V) (k' : K) :
  table_state d = Some t ->
  Dict.flag d <> "r" ->
  bound_op encode o ->
  encode_key k' <> encode_key (match o with Dict.op_set k _ | Dict.op_del k => k end) ->
  exists seen d0 out d1 d2,
    Dict.__getitem__ decode encode_key k' d = (seen, d0)
    /\ Dict.run_op encode encode_key o d0 = (out, d1)
    /\ Dict.__getitem__ decode encode_key k' d1 = (seen, d2).
Proof.
  intros Hs Hf Hb Hne.
  destruct (getitem_spec decode encode_key d t k' Hs) as (d0 & H0 & K0 & _).
  destruct (keeps_attrs _ _ _ _ K0) as (Hf0 & _).
  destruct (run_op_spec encode encode_key d0 t o (proj1 K0)) as (out & d1 & H1 & _ & Hs1 & _);
    [congruence|exact Hb|].
  destruct (getitem_spec decode encode_key d1 _ k' Hs1) as (d2 & H2 & _).
  eexists _, d0, out, d1, d2. split_and!; [exact H0|exact H1|].
  rewrite H2. destruct o as [k v|k]; cbn [apply_op].
  - by rewrite where_key_replace_other.
  - by rewrite where_key_delete_other.
Qed.

Lemma where_key_keys_of (t : Table) (k : K) :
  (forall k, decode_key (SqlText (encode_key k)) = k) ->
  encoded encode_key t ->
  where_key (SqlText (encode_key k)) t <> [] <-> k ∈ keys_of decode_key t.
Proof.
  intros Hde Henc. unfold keys_of. split.
  - intros Hne. destruct (where_key (SqlText (encode_key k)) t) as [|r rest] eqn:E; [done|].
    assert (r ∈ where_key (SqlText (encode_key k)) t) as Hr by (rewrite E; by left).
    apply list_elem_of_filter in Hr as [Hk Hr]. apply sql_eq_true in Hk.
    apply list_elem_of_fmap. exists r. by rewrite Hk, Hde.
  - intros (r & -> & Hr)%list_elem_of_fmap.
    pose proof (proj1 (Forall_forall _ _) Henc r Hr) as (k0 & Hk0).
    rewrite Hk0, Hde. intros E.
    unfold where_key in E.
    apply (filter_nil_not_elem_of _ _ r E); [|done].
    cbv beta. rewrite Hk0. by apply (sql_eq_refl (SqlText (encode_key k0))).
Qed.

Lemma keys_of_NoDup (t : Table) :
  (forall k, decode_key (SqlText (encode_key k)) = k) ->
  encoded encode_key t -> NoDup (map key t) -> NoDup (keys_of decode_key t).
Proof.
  intros Hde. unfold keys_of. induction t as [|r t IH]; [constructor|].
  intros [(k & Hk) Henc]%Forall_cons. cbn [map].
  intros [Hni Hnd]%NoDup_cons. apply NoDup_cons. split; [|by apply IH].
  intros (r' & Hd & Hr')%list_elem_of_fmap. apply Hni.
  pose proof (proj1 (Forall_forall _ _) Henc r' Hr') as (k' & Hk').
  apply list_elem_of_fmap. exists r'. split; [|done].
  rewrite Hk, Hk' in *. rewrite !Hde in Hd. by rewrite Hd.
Qed.

(** X27. After any sequence of deletions and of assignments of values the engine
    can bind, [keys()] lists no key twice, [__len__] is the number of keys
    listed, and [key in d] holds exactly of the keys listed. The key hooks
    are inverse to each other and the table at the start is as the handle's
    own writes leave one, with rowids left for the assignments. *)
Theorem keys_are_listed_once (d : Dict.SqliteDict) (t : Table)
  (ops : list (@Dict.Op K V)) (k : K) :
  (forall k, decode_key (SqlText (encode_key k)) = k) ->
  table_state d = Some t ->
  Dict.flag d <> "r" ->
  Forall (bound_op encode) ops ->
  rowids_left (length ops) t = true ->
  well_formed t ->
  encoded encode_key t ->
  exists ks d1 d2 d3 d4,
    Dict.run_ops encode encode_key ops d = (Ret tt, d1)
    /\ Dict.keys decode_key d1 = (Ret ks, d2)
    /\ NoDup ks
    /\ Dict.__len__ (K:=K) d2 = (Ret (SqlInt (Z.of_nat (length ks))), d3)
    /\ Dict.__contains__ encode_key k d3 = (Ret (bool_decide (k ∈ ks)), d4).
Proof.
  intros Hde Hs Hf Hb _ Hwf Henc.
  destruct (run_ops_spec encode encode_key ops d t Hs Hf Hb) as (d1 & H1 & Hs1).
  destruct (table_after_ops encode encode_key decode_key Hde ops t Hwf Henc)
    as (Hwf' & Henc' & _).
  set (t' := foldl (apply_op encode encode_key) t ops) in *.
  destruct (keys_spec decode_key d1 t' Hs1) as (d2 & H2 & K2 & _).
  destruct (len_spec (K:=K) d2 t' (proj1 K2)) as (d3 & H3 & K3 & _).
  destruct (contains_spec encode_key d3 t' k (proj1 K3)) as (d4 & H4 & _).
  rewrite order_by_rowid_sorted in H2 by apply Hwf'.
  fold (keys_of decode_key t') in H2.
  exists (keys_of decode_key t'), d1, d2, d3, d4.
  split_and!; [exact H1|exact H2| | |].
  - apply keys_of_NoDup; [done|done|apply Hwf'].
  - unfold keys_of. by rewrite length_map.
  - rewrite H4. do 2 f_equal.
    pose proof (where_key_keys_of t' k Hde Henc') as Hiff.
    destruct (where_key (SqlText (encode_key k)) t') eqn:E.
    + rewrite bool_decide_eq_false_2; [done|]. intros Hin. by apply Hiff in Hin.
    + rewrite bool_decide_eq_true_2; [done|]. by apply Hiff.
Qed.

End Contents.

(* ===================================================================== *)
(** ** These properties on the example store *)
(* ===================================================================== *)

Lemma rows_for_a_lost_queue_are_dropped_witness :
  let m := reqs_put (count_request 5) (worker false) in
  let m' := serve conn0 (count_request 5) (set_reqs [] m) in
  heap m !! 5%nat = None
  /\ worker_step m m'
  /\ heap m' = heap m
  /\ reqs m' = [].
Proof.
  split; [vm_compute; reflexivity|].
  destruct (rows_for_a_lost_queue_are_dropped
              (reqs_put (count_request 5) (worker false)) conn0 (count_request 5) []
              (SELECT_COUNT "t") (<["t" := Tbl "t" []]> store) [[SqlInt 0]] 5%nat)
    as (H1 & H2 & _ & _ & H3); [vm_compute; reflexivity..|].
  split_and!; [exact H1|exact H2|exact H3].
Defined.

Lemma stored_error_stops_the_next_call_witness :
  let e := OperationalError (no_such_table "missing") in
  let m := set_exception (Some e) (worker false) in
  exception m = Some e
  /\ execute (Sql (SELECT_COUNT "t")) None None m = (Raise e, worker false)
  /\ fst (select (Sql (SELECT_COUNT "t")) None m) = Raise e.
Proof.
  split; [reflexivity|].
  destruct (stored_error_stops_the_next_call
              (set_exception (Some (OperationalError (no_such_table "missing")))
                 (worker false))
              (OperationalError (no_such_table "missing"))
              (Sql (SELECT_COUNT "t")) None None)
    as (H1 & H2 & _); [reflexivity|].
  split; [|exact H2]. rewrite H1. vm_compute. reflexivity.
Defined.

Lemma select_one_is_the_first_row_of_select_witness :
  ready (worker false) = Some conn0
  /\ fst (select (Sql (SELECT_COUNT "t")) None (worker false)) = Ret [[SqlInt 0]]
  /\ fst (select_one (Sql (SELECT_COUNT "t")) None (worker false))
     = Ret (Some [SqlInt 0]).
Proof.
  split; [vm_compute; reflexivity|].
  destruct (select_one_is_the_first_row_of_select (worker false) conn0
              (SELECT_COUNT "t") None (<["t" := Tbl "t" []]> store) [[SqlInt 0]])
    as (H1 & H2 & _); [vm_compute; reflexivity..|].
  split; [exact H1|exact H2].
Defined.

Lemma calls_on_an_ended_worker_block_witness :
  thread ended_worker = Died (NameError "sys") (Some conn0)
  /\ fst (select (Sql (SELECT_COUNT "t")) None ended_worker) = Blocked
  /\ fst (commit true ended_worker) = Blocked
  /\ fst (close false ended_worker) = Blocked.
Proof.
  split; [vm_compute; reflexivity|].
  destruct (calls_on_an_ended_worker_block ended_worker (Sql (SELECT_COUNT "t")) None)
    as (H1 & _ & H2 & H3 & _); [vm_compute; exact I|vm_compute; reflexivity|].
  split_and!; [exact H1|exact H2|exact H3].
Defined.

Lemma blocking_commit_reaches_the_file_witness :
  let m := reqs_put good_write (worker false) in
  let c := mkConn path (<["t" := Tbl "t" [mkRow 1 (SqlText "a") (SqlInt 1)]]> store) false in
  ready m = Some c
  /\ files (fs (drain m)) !! path = Some store
  /\ exists m',
       commit true m = (Ret tt, m')
       /\ files (fs m') !! path = Some (working c)
       /\ ready m' = Some c
       /\ reqs m' = [].
Proof.
  split; [vm_compute; reflexivity|]. split; [vm_compute; reflexivity|].
  apply (blocking_commit_reaches_the_file (reqs_put good_write (worker false))
           (mkConn path (<["t" := Tbl "t" [mkRow 1 (SqlText "a") (SqlInt 1)]]> store) false));
    [vm_compute; reflexivity|discriminate].
Defined.

Lemma autocommit_decides_what_the_file_holds_witness :
  let written := <["t" := Tbl "t" [mkRow 1 (SqlText "a") (SqlInt 1)]]> store in
  let created := <["u" := Tbl "u" []]> store in
  (let m := reqs_put good_write (worker true) in
   let m' := serve conn0 good_write (set_reqs [] m) in
   worker_step m m'
   /\ files (fs m') !! path = Some written /\ in_transaction m' = false)
  /\ (let m := reqs_put good_write (worker false) in
      let m' := serve conn0 good_write (set_reqs [] m) in
      worker_step m m'
      /\ thread m' = Running (mkConn path written false)
      /\ files (fs m') !! path = Some store /\ in_transaction m' = true)
  /\ (let m := reqs_put create_request (worker false) in
      let m' := serve conn0 create_request (set_reqs [] m) in
      worker_step m m'
      /\ files (fs m') !! path = Some created /\ in_transaction m' = false).
Proof.
  split_and!.
  - destruct (autocommit_decides_what_the_file_holds
                (reqs_put good_write (worker true)) conn0 good_write []
                (REPLACE_INTO "t")
                (<["t" := Tbl "t" [mkRow 1 (SqlText "a") (SqlInt 1)]]> store) [])
      as (H1 & _ & H2 & _); [vm_compute; reflexivity..|].
    destruct (H2 eq_refl) as [Hfs Htx].
    split_and!; [exact H1| |exact Htx]. rewrite Hfs. vm_compute. reflexivity.
  - destruct (autocommit_decides_what_the_file_holds
                (reqs_put good_write (worker false)) conn0 good_write []
                (REPLACE_INTO "t")
                (<["t" := Tbl "t" [mkRow 1 (SqlText "a") (SqlInt 1)]]> store) [])
      as (H1 & Ht & _ & _ & H2 & _); [vm_compute; reflexivity..|].
    destruct (H2 eq_refl eq_refl) as [Hfs Htx].
    split_and!; [exact H1|exact Ht| |exact Htx]. rewrite Hfs. vm_compute. reflexivity.
  - destruct (autocommit_decides_what_the_file_holds
                (reqs_put create_request (worker false)) conn0 create_request []
                (CREATE_TABLE_IF_NOT_EXISTS "u" Dict.standard_columns)
                (<["u" := Tbl "u" []]> store) [])
      as (H1 & _ & _ & _ & _ & H2); [vm_compute; reflexivity..|].
    destruct (H2 eq_refl eq_refl) as [Hfs Htx].
    split_and!; [exact H1| |exact Htx]. rewrite Hfs. vm_compute. reflexivity.
Defined.

Lemma forced_close_does_not_wait_witness :
  ready (worker false) = Some conn0
  /\ exists m',
       close true (worker false) = (Ret tt, m')
       /\ reqs m' = reqs (worker false)
                    ++ [mkRequest _REQUEST_CLOSE [] (Some (next_addr (worker false))) None]
       /\ thread (drain m') = Returned (conn_close conn0)
       /\ heap (drain m') = heap (worker false)
       /\ fs (drain m') = fs (drain (worker false)).
Proof.
  split; [vm_compute; reflexivity|].
  apply (forced_close_does_not_wait (worker false) conn0); vm_compute; reflexivity.
Defined.

Lemma failed_connection_is_not_reported_witness :
  let m := Multithread.__init__ journal_mode_pragma fs0 "/nowhere/store.db" false
             "DELETE" true in
  sqlite3_connect fs0 "/nowhere/store.db"
  = inl (OperationalError unable_to_open_database_file)
  /\ thread m = Died (NameError "sys") None
  /\ exception m = None
  /\ check_raise_error m = (Ret tt, m)
  /\ fst (select (Sql (SELECT_COUNT "t")) None m) = Blocked.
Proof.
  split; [vm_compute; reflexivity|].
  apply (failed_connection_is_not_reported journal_mode_pragma fs0 "/nowhere/store.db"
           false "DELETE" true (OperationalError unable_to_open_database_file)).
  vm_compute. reflexivity.
Defined.

Lemma connection_opens_on_the_file_witness :
  files fs0 !! path = Some store
  /\ journal_mode_pragma "DELETE" = inr tt
  /\ ready (worker true) = Some conn0 /\ fs (worker true) = fs0 /\ reqs (worker true) = []
  /\ in_transaction (worker true) = false.
Proof.
  split; [vm_compute; reflexivity|]. split; [vm_compute; reflexivity|].
  apply (connection_opens_on_the_file journal_mode_pragma fs0 path true "DELETE" true
           store);
    [vm_compute; reflexivity|discriminate|vm_compute; reflexivity].
Defined.

Lemma rejected_journal_mode_is_not_reported_witness :
  let m := Multithread.__init__ journal_mode_pragma fs0 path false "" true in
  journal_mode_pragma "" = inl (OperationalError incomplete_input)
  /\ thread m = Died (NameError "sys") (Some conn0)
  /\ fs m = fs0
  /\ exception m = None
  /\ check_raise_error m = (Ret tt, m)
  /\ fst (select (Sql (SELECT_COUNT "t")) None m) = Blocked.
Proof.
  split; [vm_compute; reflexivity|].
  apply (rejected_journal_mode_is_not_reported journal_mode_pragma fs0 fs0 path false
           "" true conn0 (OperationalError incomplete_input));
    vm_compute; reflexivity.
Defined.

Lemma select_of_failing_statement_blocks_witness :
  ready (worker false) = Some conn0
  /\ fst (select (Sql (SELECT_key_ORDER_BY_rowid "missing")) None (worker false)) = Blocked
  /\ fst (select_one (Sql (SELECT_key_ORDER_BY_rowid "missing")) None (worker false))
     = Blocked.
Proof.
  split; [vm_compute; reflexivity|].
  apply (select_of_failing_statement_blocks (worker false) conn0
           (SELECT_key_ORDER_BY_rowid "missing") None
           (OperationalError (no_such_table "missing"))); vm_compute; reflexivity.
Defined.

Lemma read_only_handle_refuses_writes_witness :
  Dict.__setitem__ id id "a" (SqlInt 1) (handle "r" false)
  = (Raise (Dict.Exc (RuntimeError Refusing_to_write)), handle "r" false)
  /\ Dict.__delitem__ id "a" (handle "r" false)
     = (Raise (Dict.Exc (RuntimeError Refusing_to_delete)), handle "r" false)
  /\ Dict.update id id [("a", SqlInt 1)] [] (handle "r" false)
     = (Raise (Dict.Exc (RuntimeError Refusing_to_update)), handle "r" false)
  /\ Dict.clear (K:=string) (handle "r" false)
     = (Raise (Dict.Exc (RuntimeError Refusing_to_clear)), handle "r" false)
  /\ Dict.terminate (K:=string) (handle "r" false)
     = (Raise (Dict.Exc (RuntimeError Refusing_to_terminate)), handle "r" false).
Proof.
  apply (read_only_handle_refuses_writes id id (handle "r" false) "a" (SqlInt 1)
           [("a", SqlInt 1)] []).
  reflexivity.
Defined.

Lemma write_without_commit_is_lost_on_close_witness :
  table_state (handle "c" false) = Some []
  /\ bindable (SqlInt 7) = true
  /\ exists d1 d2 t1,
       Dict.__setitem__ id id "a" (SqlInt 7) (handle "c" false) = (Ret tt, d1)
       /\ table_state d1 = Some t1
       /\ map value (where_key (SqlText "a") t1) = [SqlInt 7]
       /\ Dict.close (K:=string) true false d1 = (Ret tt, d2)
       /\ Dict.conn d2 = Dict.conn_None
       /\ fs (Dict.mt d2) = fs (drain (Dict.mt (handle "c" false))).
Proof.
  split; [vm_compute; reflexivity|]. split; [reflexivity|].
  apply (write_without_commit_is_lost_on_close id id (handle "c" false) [] "a"
           (SqlInt 7) true false);
    [vm_compute; reflexivity|discriminate|reflexivity..].
Defined.

Lemma unbound_value_ends_the_worker_witness :
  table_state (handle "c" false) = Some []
  /\ bindable (SqlInt (2 ^ 63)) = false
  /\ exists d1,
       Dict.__setitem__ id id "a" (SqlInt (2 ^ 63)) (handle "c" false) = (Ret tt, d1)
       /\ fst (Dict.__getitem__ id id "a" d1) = Blocked
       /\ fst (Dict.__contains__ id "a" d1) = Blocked
       /\ fst (Dict.__len__ (K:=string) d1) = Blocked
       /\ fst (Dict.keys text_of d1) = Blocked
       /\ fst (Dict.commit (K:=string) true d1) = Blocked.
Proof.
  split; [vm_compute; reflexivity|]. split; [reflexivity|].
  apply (unbound_value_ends_the_worker id id id text_of (handle "c" false) [] "a" "a"
           (SqlInt (2 ^ 63)));
    [vm_compute; reflexivity|discriminate|reflexivity|reflexivity].
Defined.

Lemma terminate_closes_and_removes_the_file_witness :
  files (fs (Dict.mt (handle "c" false))) !! path = Some store
  /\ exists d',
       Dict.terminate (K:=string) (handle "c" false) = (Ret tt, d')
       /\ Dict.conn d' = Dict.conn_None
       /\ thread (Dict.mt d') = Returned (conn_close conn0)
       /\ files (fs (Dict.mt d')) !! path = None.
Proof.
  split; [vm_compute; reflexivity|].
  apply (terminate_closes_and_removes_the_file (K:=string) (handle "c" false) conn0);
    [reflexivity|vm_compute; reflexivity|discriminate|reflexivity|discriminate].
Defined.

Lemma disposal_waits_for_an_ended_worker_witness :
  let d := Dict.mkDict false "c" path "missing" false "DELETE" 5 true
             Dict.conn_object ended_worker in
  thread (Dict.mt d) = Died (NameError "sys") (Some conn0)
  /\ fst (Dict.__del__ (K:=string) d) = Blocked
  /\ fst (Dict.close (K:=string) true true d) = Blocked.
Proof.
  split; [vm_compute; reflexivity|].
  apply (disposal_waits_for_an_ended_worker (K:=string)
           (Dict.mkDict false "c" path "missing" false "DELETE" 5 true
              Dict.conn_object ended_worker));
    [reflexivity|vm_compute; exact I|vm_compute; reflexivity].
Defined.

Lemma methods_on_a_closed_handle_witness :
  Dict.conn closed_handle = Dict.conn_None
  /\ Dict.__getitem__ id id "a" closed_handle
     = (Raise (Dict.Exc (AttributeError "select_one")), closed_handle)
  /\ Dict.__setitem__ id id "a" (SqlInt 1) closed_handle
     = (Raise (Dict.Exc (AttributeError "execute")), closed_handle)
  /\ Dict.commit (K:=string) true closed_handle = (Ret tt, closed_handle).
Proof.
  split; [vm_compute; reflexivity|].
  destruct (methods_on_a_closed_handle id id id text_of closed_handle "a" (SqlInt 1) true)
    as (H1 & _ & _ & _ & H2 & _ & _ & H3);
    [vm_compute; reflexivity|vm_compute; discriminate|].
  split_and!; [exact H1|exact H2|exact H3].
Defined.

Lemma create_table_is_idempotent_witness :
  let d := Dict.mkDict false "c" path "u" false "DELETE" 5 true
             Dict.conn_object (worker false) in
  table_state d = None
  /\ (exists d1 d2 d3,
         Dict.create_table (K:=string) d = (Ret tt, d1)
         /\ table_state d1 = Some []
         /\ Dict.create_table (K:=string) d1 = (Ret tt, d2)
         /\ table_state d2 = table_state d1
         /\ Dict.create_indexes (K:=string) d2 = (Ret tt, d3)
         /\ table_state d3 = table_state d1)
  /\ table_state (Dict.mkDict false "c" path "T" false "DELETE" 5 true
                    Dict.conn_object (Dict.mt stocked_handle)) = Some two_rows
  /\ (exists d1 d2 d3,
         Dict.create_table (K:=string)
           (Dict.mkDict false "c" path "T" false "DELETE" 5 true
              Dict.conn_object (Dict.mt stocked_handle)) = (Ret tt, d1)
         /\ table_state d1 = Some two_rows
         /\ Dict.create_table (K:=string) d1 = (Ret tt, d2)
         /\ table_state d2 = table_state d1
         /\ Dict.create_indexes (K:=string) d2 = (Ret tt, d3)
         /\ table_state d3 = table_state d1).
Proof.
  split; [vm_compute; reflexivity|]. split; [|split; [vm_compute; reflexivity|]].
  - apply (create_table_is_idempotent (K:=string)
             (Dict.mkDict false "c" path "u" false "DELETE" 5 true
                Dict.conn_object (worker false)) conn0);
      [reflexivity|vm_compute; reflexivity|reflexivity|reflexivity
      |vm_compute; reflexivity|vm_compute; discriminate|vm_compute; reflexivity].
  - destruct (create_table_is_idempotent (K:=string)
                (Dict.mkDict false "c" path "T" false "DELETE" 5 true
                   Dict.conn_object (Dict.mt stocked_handle))
                (mkConn path (<["t" := Tbl "t" two_rows]> store) false))
      as (d1 & d2 & d3 & H1 & H2 & H3 & H4 & H5 & H6);
      [reflexivity|vm_compute; reflexivity|reflexivity|reflexivity
      |vm_compute; reflexivity|vm_compute; discriminate|vm_compute; reflexivity|].
    exists d1, d2, d3. split_and!; [exact H1| |exact H3|exact H4|exact H5|exact H6].
    rewrite H2. vm_compute. reflexivity.
Defined.

Lemma read_only_open_consults_the_catalogue_witness :
  Dict.open_table (K:=string) "t" (handle "r" false) = (Ret tt, handle "r" false)
  /\ Dict.open_table (K:=string) "u"
       (Dict.mkDict false "r" path "u" false "DELETE" 5 true Dict.conn_object (worker false))
     = (Raise (Dict.Exc (RuntimeError (Refusing_to_create_table "u"))),
        Dict.mkDict false "r" path "u" false "DELETE" 5 true Dict.conn_object (worker false)).
Proof.
  split.
  - rewrite (read_only_open_consults_the_catalogue (K:=string) (handle "r" false) store "t");
      [vm_compute; reflexivity|reflexivity|vm_compute; reflexivity].
  - rewrite (read_only_open_consults_the_catalogue (K:=string)
               (Dict.mkDict false "r" path "u" false "DELETE" 5 true
                  Dict.conn_object (worker false)) store "u");
      [vm_compute; reflexivity|reflexivity|vm_compute; reflexivity].
Defined.

Lemma items_pair_keys_with_values_witness :
  table_state stocked_handle = Some two_rows
  /\ exists ks vs d1 d2 d3 d4,
       Dict.keys text_of stocked_handle = (Ret ks, d1)
       /\ Dict.values (K:=string) id d1 = (Ret vs, d2)
       /\ Dict.items id text_of d2 = (Ret (zip ks vs), d3)
       /\ Dict.__len__ (K:=string) d3 = (Ret (SqlInt (Z.of_nat (length ks))), d4)
       /\ length vs = length ks.
Proof.
  split; [vm_compute; reflexivity|].
  apply (items_pair_keys_with_values id text_of stocked_handle two_rows).
  vm_compute. reflexivity.
Defined.

Lemma bool_agrees_with_len_witness :
  table_state stocked_handle = Some two_rows
  /\ exists n d1 d2,
       Dict.__len__ (K:=string) stocked_handle = (Ret (SqlInt n), d1)
       /\ Dict.__bool__ (K:=string) d1 = (Ret (negb (n =? 0)), d2)
       /\ 0 <= n.
Proof.
  split; [vm_compute; reflexivity|].
  apply (bool_agrees_with_len (K:=string) stocked_handle two_rows).
  vm_compute. reflexivity.
Defined.

Lemma reassigned_key_moves_to_the_end_witness :
  table_state stocked_handle = Some two_rows
  /\ exists ks d0 d1 d2,
       Dict.keys text_of stocked_handle = (Ret ks, d0)
       /\ Dict.__setitem__ id id "a" (SqlInt 9) d0 = (Ret tt, d1)
       /\ Dict.keys text_of d1 = (Ret (filter (fun k' => k' <> "a") ks ++ ["a"]), d2).
Proof.
  split; [vm_compute; reflexivity|].
  apply (reassigned_key_moves_to_the_end id id text_of stocked_handle two_rows "a"
           (SqlInt 9) (fun k => eq_refl));
    [vm_compute; reflexivity|discriminate|reflexivity|reflexivity
    |apply two_rows_well_formed|apply two_rows_encoded].
Defined.

Lemma update_is_repeated_assignment_witness :
  table_state (handle "c" false) = Some []
  /\ exists d1 d2 t',
       Dict.update id id [("x", SqlInt 1); ("y", SqlInt 2)] [("x", SqlInt 3)]
         (handle "c" false) = (Ret tt, d1)
       /\ Dict.run_ops id id
            (map (fun kv => Dict.op_set (fst kv) (snd kv))
               ([("x", SqlInt 1); ("y", SqlInt 2)] ++ [("x", SqlInt 3)]))
            (handle "c" false)
          = (Ret tt, d2)
       /\ table_state d1 = Some t'
       /\ table_state d2 = Some t'.
Proof.
  split; [vm_compute; reflexivity|].
  apply (update_is_repeated_assignment id id (handle "c" false) []);
    [vm_compute; reflexivity|discriminate|by repeat constructor|reflexivity].
Defined.

Lemma deleted_key_is_absent_witness :
  table_state stocked_handle = Some two_rows
  /\ exists out d1 d2 d3 d4,
       Dict.__delitem__ id "a" stocked_handle = (out, d1)
       /\ (out = Ret tt \/ out = Raise (Dict.KeyError "a"))
       /\ Dict.__contains__ id "a" d1 = (Ret false, d2)
       /\ Dict.__getitem__ id id "a" d2 = (Raise (Dict.KeyError "a"), d3)
       /\ Dict.__delitem__ id "a" d3 = (Raise (Dict.KeyError "a"), d4)
       /\ table_state d4 = Some (delete_key (SqlText "a") two_rows).
Proof.
  split; [vm_compute; reflexivity|].
  apply (deleted_key_is_absent (V:=SqlVal) id id stocked_handle two_rows "a");
    [vm_compute; reflexivity|discriminate].
Defined.

Lemma write_leaves_the_other_keys_witness :
  table_state stocked_handle = Some two_rows
  /\ exists seen d0 out d1 d2,
       Dict.__getitem__ id id "b" stocked_handle = (seen, d0)
       /\ Dict.run_op id id (Dict.op_set "a" (SqlInt 9)) d0 = (out, d1)
       /\ Dict.__getitem__ id id "b" d1 = (seen, d2).
Proof.
  split; [vm_compute; reflexivity|].
  apply (write_leaves_the_other_keys id id id stocked_handle two_rows
           (Dict.op_set "a" (SqlInt 9)) "b");
    [vm_compute; reflexivity|discriminate|reflexivity|discriminate].
Defined.

Lemma keys_are_listed_once_witness :
  table_state stocked_handle = Some two_rows
  /\ exists ks d1 d2 d3 d4,
       Dict.run_ops id id
         [Dict.op_set "b" (SqlInt 5); Dict.op_del "a"; Dict.op_set "c" (SqlInt 6)]
         stocked_handle = (Ret tt, d1)
       /\ Dict.keys text_of d1 = (Ret ks, d2)
       /\ NoDup ks
       /\ Dict.__len__ (K:=string) d2 = (Ret (SqlInt (Z.of_nat (length ks))), d3)
       /\ Dict.__contains__ id "a" d3 = (Ret (bool_decide ("a" ∈ ks)), d4).
Proof.
  split; [vm_compute; reflexivity|].
  apply (keys_are_listed_once id id text_of stocked_handle two_rows
           [Dict.op_set "b" (SqlInt 5); Dict.op_del "a"; Dict.op_set "c" (SqlInt 6)] "a"
           (fun k => eq_refl));
    [vm_compute; reflexivity|discriminate|by repeat constructor|reflexivity
    |apply two_rows_well_formed|apply two_rows_encoded].
Defined.

Lemma handle_commit_ignores_blocking_witness :
  ready (Dict.mt (handle "c" false)) = Some conn0
  /\ (exists d',
         Dict.commit (K:=string) false (handle "c" false) = (Ret tt, d')
         /\ files (fs (Dict.mt d')) !! path = Some store
         /\ reqs (Dict.mt d') = [])
  /\ (exists m',
         commit false (worker false) = (Ret tt, m')
         /\ reqs m' = reqs (worker false)
                      ++ [mkRequest _REQUEST_COMMIT [] None (stack_of (worker false))]
         /\ fs m' = fs (worker false)).
Proof.
  split; [vm_compute; reflexivity|].
  apply (handle_commit_ignores_blocking (K:=string) (handle "c" false) conn0 false);
    [reflexivity|vm_compute; reflexivity|discriminate].
Defined.
